(** * NetSpeed Pro: the sampling loop, the usage aggregator, the rate
      buffers and the CSV persistence of [netspeed_pro.py]

    The development embeds the part of [SmoothNetMonitor] that is not
    window plumbing: [measure_speeds] (counter deltas, rates, daily and
    hourly accumulation, day rollover), [update_labels] (queue drain into
    the two bounded deques), [set_adapter], [load_daily_data],
    [save_daily_data], [load_hourly_data], [save_hourly_data] and
    [clean_exit]; and, of the settings and the usage window, what
    computes: [apply_interval_from_entry], [format_bytes],
    [load_data_for_date], [plot_daily_usage_graph] and
    [plot_hourly_usage].

    Python values are modelled as the interpreter has them:
    - [int] is [Z] (unbounded);
    - [float] is IEEE 754 binary64, through the executable specification
      of the Standard Library ([spec_float], precision 53, [emax] 1024);
    - [str] is [string]; [datetime.date] is a record of year, month, day;
    - [dict] / [defaultdict] are [gmap]s, [deque(maxlen=50)] is a list
      with the eviction written out;
    - an exception is [None] in an [option]; a [try ... except Exception]
      block is the [match] that catches it. *)

From Stdlib Require Import ZArith QArith Qpower Lia List String Ascii.
From Stdlib Require Import Floats.SpecFloat.
From Stdlib Require Import Decimal DecimalString DecimalZ DecimalPos.
From stdpp Require Import base option list gmap strings.

Local Open Scope Z_scope.

(* ================================================================== *)
(** * Python floats *)
(* ================================================================== *)

Module PyFloat.

Definition prec : Z := 53.
Definition emax : Z := 1024.

Definition float := spec_float.

(** [float(n)] for a Python [int].  An integer too large for a double
    raises [OverflowError]. *)
Definition of_int (n : Z) : option float :=
  match binary_normalize prec emax n 0 false with
  | S754_infinity _ => None
  | f => Some f
  end.

(** [2^52], the mantissa of the powers of two. *)
Definition two52 : positive := 4503599627370496.

(** The literals of the source, as doubles: [1024] (converted where it
    meets a float), [1000.0], and [0.0] and [1.0] for the statements. *)
Definition f1024 : float := S754_finite false two52 (-42).
Definition f1000 : float := S754_finite false 8796093022208000 (-43).
Definition fzero : float := S754_zero false.
Definition fone : float := S754_finite false two52 (-52).

Definition fmul (x y : float) : float := SFmul prec emax x y.

(** [x / y] on floats; a zero divisor raises [ZeroDivisionError]. *)
Definition fdiv (x y : float) : option float :=
  match y with
  | S754_zero _ => None
  | _ => Some (SFdiv prec emax x y)
  end.

(** [a / b] on two ints (true division): the double nearest to the
    quotient.  Below [2^53] CPython divides the two conversions; above,
    it rounds the exact quotient once.  Every int/int division of the
    source has the divisor 1024, a power of two, for which the two
    agree: scaling by [2^-10] commutes with rounding. *)
Definition int_truediv (a b : Z) : option float :=
  fa ← of_int a; fb ← of_int b;
  match fdiv fa fb with
  | Some (S754_infinity _) => None
  | r => r
  end.

(** [int(x)]: truncation towards zero; [inf] raises [OverflowError] and
    [nan] raises [ValueError]. *)
Definition to_int (x : float) : option Z :=
  match x with
  | S754_zero _ => Some 0
  | S754_finite s m e => Some (cond_Zopp s (Z.shiftl (Z.pos m) e))
  | S754_infinity _ | S754_nan => None
  end.

Definition ltb (x y : float) : bool := SFltb x y.
Definition leb (x y : float) : bool := SFleb x y.

(** A shift record with nothing shifted out yet. *)
Definition exact_rec (z : Z) : shr_record :=
  {| shr_m := z; shr_r := false; shr_s := false |}.

(** The rational a finite double stands for. *)
Definition to_Q (x : float) : Q :=
  match x with
  | S754_finite s m e =>
      (inject_Z (cond_Zopp s (Z.pos m)) * Qpower (2 # 1) e)%Q
  | _ => 0%Q
  end.

End PyFloat.

(* ================================================================== *)
(** * Python strings, integers in text, dates *)
(* ================================================================== *)

Module PyText.

(** ** [str(n)] and [int(s)] *)

Definition str_of_int (n : Z) : string :=
  NilZero.string_of_int (Z.to_int n).

(** The one-byte characters [int] skips at both ends of the text: the
    space and the controls from tab to carriage return. *)
Definition is_space (c : ascii) : bool :=
  let n := N_of_ascii c in
  ((9 <=? n) && (n <=? 13) || (n =? 32))%N.

Definition is_digit (c : ascii) : bool :=
  let n := N_of_ascii c in ((48 <=? n) && (n <=? 57))%N.

Fixpoint lstrip (s : string) : string :=
  match s with
  | String c r => if is_space c then lstrip r else s
  | EmptyString => EmptyString
  end.

Fixpoint rstrip (s : string) : string :=
  match s with
  | String c r =>
      match rstrip r with
      | EmptyString => if is_space c then EmptyString else String c EmptyString
      | r' => String c r'
      end
  | EmptyString => EmptyString
  end.

Definition strip (s : string) : string := rstrip (lstrip s).

Fixpoint all_chars (P : ascii -> bool) (s : string) : bool :=
  match s with
  | EmptyString => true
  | String c r => P c && all_chars P r
  end.

(** [int] accepts single underscores between digits.  [prev] tells
    whether the character before was a digit. *)
Fixpoint drop_underscores (prev : bool) (s : string) : option string :=
  match s with
  | EmptyString => if prev then Some EmptyString else None
  | String c r =>
      if is_digit c then String c <$> drop_underscores true r
      else if Ascii.eqb c "_" then
             if prev then
               match r with
               | String c' _ => if is_digit c' then drop_underscores false r else None
               | EmptyString => None
               end
             else None
           else None
  end.

Definition int_of_digits (s : string) : option Z :=
  t ← drop_underscores false s;
  d ← NilZero.uint_of_string t;
  Some (Z.of_uint d).

(** [int(s)] for a [str]: [None] is [ValueError].  Digits outside
    ASCII, which Python accepts too, are not in the model. *)
Definition int_of_str (s : string) : option Z :=
  match strip s with
  | String "-" r => Z.opp <$> int_of_digits r
  | String "+" r => int_of_digits r
  | t => int_of_digits t
  end.

(** ** [datetime.date] *)

Record date := Date { year : Z; month : Z; day : Z }.

#[export] Instance date_eq_dec : EqDecision date.
Proof. solve_decision. Defined.

Definition is_leap (y : Z) : bool :=
  (y mod 4 =? 0) && (negb (y mod 100 =? 0) || (y mod 400 =? 0)).

Definition days_in_month (y m : Z) : Z :=
  if m =? 2 then (if is_leap y then 29 else 28)
  else if (m =? 4) || (m =? 6) || (m =? 9) || (m =? 11) then 30
  else 31.

(** The range check of the [date] constructor ([MINYEAR] 1,
    [MAXYEAR] 9999). *)
Definition valid_ymd (y m d : Z) : bool :=
  (1 <=? y) && (y <=? 9999) && (1 <=? m) && (m <=? 12)
  && (1 <=? d) && (d <=? days_in_month y m).

Definition valid_date (d : date) : Prop :=
  valid_ymd (year d) (month d) (day d) = true.

(** ** [strftime('%Y-%m-%d')] *)

Definition digit_char (k : Z) : ascii :=
  ascii_of_N (48 + Z.to_N (k mod 10)).

Definition pad2 (n : Z) : string :=
  String (digit_char (n / 10)) (String (digit_char n) EmptyString).

Definition pad4 (n : Z) : string :=
  String (digit_char (n / 1000)) (String (digit_char (n / 100))
    (String (digit_char (n / 10)) (String (digit_char n) EmptyString))).

(** The year is written with four digits, padded with zeros (what the
    C library does below the year 1000 depends on the platform). *)
Definition strftime_ymd (d : date) : string :=
  pad4 (year d) +:+ "-" +:+ pad2 (month d) +:+ "-" +:+ pad2 (day d).

(** ** [strptime(s, '%Y-%m-%d').date()]

    [_strptime] turns the format into the regular expression
    [(\d\d\d\d)-(1[0-2]|0[1-9]|[1-9])-(3[01]|[12]\d|0[1-9]|[1-9]| [1-9])],
    matches it at the start of the text and refuses text left over.
    The alternatives of a group are tried in order.  After a
    two-character alternative of the month has matched, its second
    character is a digit, so the shorter alternative cannot make the
    ["-"] that follows match either: taking the first alternative that
    matches gives the answer of the backtracking matcher. *)

Definition digit_val (c : ascii) : option Z :=
  if is_digit c then Some (Z.of_N (N_of_ascii c) - 48) else None.

Definition nonzero_digit (c : ascii) : option Z :=
  k ← digit_val c; if 1 <=? k then Some k else None.

Definition match_year (s : string) : option (Z * string) :=
  match s with
  | String a (String b (String c (String d r))) =>
      ka ← digit_val a; kb ← digit_val b; kc ← digit_val c; kd ← digit_val d;
      Some (ka * 1000 + kb * 100 + kc * 10 + kd, r)
  | _ => None
  end.

Definition match_one (s : string) : option (Z * string) :=
  match s with
  | String a r => k ← nonzero_digit a; Some (k, r)
  | EmptyString => None
  end.

Definition match_two (s : string) : option (Z * Z * string) :=
  match s with
  | String a (String b r) => ka ← digit_val a; kb ← digit_val b; Some (ka, kb, r)
  | _ => None
  end.

Definition match_month (s : string) : option (Z * string) :=
  match match_two s with
  | Some (1, kb, r) => if kb <=? 2 then Some (10 + kb, r) else match_one s
  | Some (0, kb, r) => if 1 <=? kb then Some (kb, r) else match_one s
  | _ => match_one s
  end.

Definition match_day (s : string) : option (Z * string) :=
  match match_two s with
  | Some (3, kb, r) => if kb <=? 1 then Some (30 + kb, r) else match_one s
  | Some (1, kb, r) => Some (10 + kb, r)
  | Some (2, kb, r) => Some (20 + kb, r)
  | Some (0, kb, r) => if 1 <=? kb then Some (kb, r) else match_one s
  | _ =>
      match s with
      | String " " r => match_one r
      | _ => match_one s
      end
  end.

Definition expect_dash (s : string) : option string :=
  match s with
  | String "-" r => Some r
  | _ => None
  end.

Definition parse_ymd (s : string) : option (Z * Z * Z) :=
  '(y, r1) ← match_year s;
  r2 ← expect_dash r1;
  '(m, r3) ← match_month r2;
  r4 ← expect_dash r3;
  '(d, r5) ← match_day r4;
  match r5 with
  | EmptyString => Some (y, m, d)
  | _ => None
  end.

(** [None] is the [ValueError] of [strptime] (no match, text left over)
    or of the [date] constructor (day out of range). *)
Definition strptime_ymd (s : string) : option date :=
  '(y, m, d) ← parse_ymd s;
  if valid_ymd y m d then Some (Date y m d) else None.

End PyText.

(* ================================================================== *)
(** * Files and the [csv] module *)
(* ================================================================== *)

Module Disk.

(** A CSV file is the list of its rows, a row the list of its fields:
    what [csv.writer] is given and what [csv.reader] gives back. *)
Definition csv : Type := list (list string).

(** The files of the working directory: [os.path.exists(name)] is
    [is_Some (files d !! name)].  [writable] is false when
    [open(name, 'w')] raises; [written] records every file written, in
    order, with what was written. *)
Record disk := mkDisk {
  files : gmap string csv;
  writable : bool;
  written : list (string * csv)
}.

(** [open(name, 'w')] followed by the writes of the [with] block and
    the close.  [None] is the exception of a failed [open]. *)
Definition write_file (d : disk) (name : string) (content : csv) : option disk :=
  if writable d
  then Some (mkDisk (<[name := content]> (files d)) (writable d)
                    (written d ++ [(name, content)]))
  else None.

(** A row of [csv.DictReader]: the fields under the names of the header
    row; a name that occurs twice keeps the later field.  A row shorter
    than the header gives [None] to the names left over, on which
    [strptime] and [int] raise [TypeError]: such a name is taken out of
    the map here, and the lookup fails in its place.  The fields beyond
    the header go under the key [None], which no lookup of the program
    uses. *)
Definition row_dict (fieldnames row : list string) : gmap string string :=
  foldl (λ m name, delete name m)
    (list_to_map (reverse (zip fieldnames row)))
    (drop (length row) fieldnames).

(** [csv.DictReader(f)]: the first row is the header, empty rows are
    skipped. *)
Definition dict_reader (c : csv) : list (gmap string string) :=
  match c with
  | [] => []
  | fieldnames :: rows =>
      row_dict fieldnames <$> filter (λ r, r ≠ []) rows
  end.

End Disk.

(* ================================================================== *)
(** * The monitor *)
(* ================================================================== *)

Module Monitor.

Import PyFloat PyText Disk.

(** psutil's [snetio], with the two fields the program reads. *)
Record snetio := mkStats { bytes_sent : Z; bytes_recv : Z }.

(** What the operating system reports at one instant:
    [psutil.net_io_counters()] and [psutil.net_io_counters(pernic=True)]. *)
Record os_counters := mkOs {
  net_io_counters : snetio;
  net_io_counters_pernic : gmap string snetio
}.

(** [datetime.datetime.now()]: the date and the hour. *)
Record datetime := mkDatetime { dt_date : date; dt_hour : Z }.

(** An entry of [hourly_data], [{'download': _, 'upload': _}]. *)
Record hour_entry := mkHour { download : Z; upload : Z }.

(** The attributes of [SmoothNetMonitor] the sampler, the aggregator,
    the buffers and the persistence use. *)
Record monitor := mkMonitor {
  speed_queue : list (float * float);
  download_data : list float;
  upload_data : list float;
  update_interval : Z;
  selected_adapter : string;
  running : bool;
  daily_download_bytes : Z;
  daily_upload_bytes : Z;
  last_data_update_day : date;
  hourly_data : gmap Z hour_entry
}.

Definition data_usage_file : string := "data_usage.csv".
Definition hourly_data_file : string := "hourly_usage.csv".

(** ** Field updates *)

Definition set_speed_queue q (s : monitor) : monitor :=
  mkMonitor q (download_data s) (upload_data s) (update_interval s)
    (selected_adapter s) (running s) (daily_download_bytes s)
    (daily_upload_bytes s) (last_data_update_day s) (hourly_data s).

Definition set_download_data l (s : monitor) : monitor :=
  mkMonitor (speed_queue s) l (upload_data s) (update_interval s)
    (selected_adapter s) (running s) (daily_download_bytes s)
    (daily_upload_bytes s) (last_data_update_day s) (hourly_data s).

Definition set_upload_data l (s : monitor) : monitor :=
  mkMonitor (speed_queue s) (download_data s) l (update_interval s)
    (selected_adapter s) (running s) (daily_download_bytes s)
    (daily_upload_bytes s) (last_data_update_day s) (hourly_data s).

Definition set_update_interval n (s : monitor) : monitor :=
  mkMonitor (speed_queue s) (download_data s) (upload_data s) n
    (selected_adapter s) (running s) (daily_download_bytes s)
    (daily_upload_bytes s) (last_data_update_day s) (hourly_data s).

Definition set_selected_adapter a (s : monitor) : monitor :=
  mkMonitor (speed_queue s) (download_data s) (upload_data s)
    (update_interval s) a (running s) (daily_download_bytes s)
    (daily_upload_bytes s) (last_data_update_day s) (hourly_data s).

Definition set_running b (s : monitor) : monitor :=
  mkMonitor (speed_queue s) (download_data s) (upload_data s)
    (update_interval s) (selected_adapter s) b (daily_download_bytes s)
    (daily_upload_bytes s) (last_data_update_day s) (hourly_data s).

Definition set_daily_download_bytes n (s : monitor) : monitor :=
  mkMonitor (speed_queue s) (download_data s) (upload_data s)
    (update_interval s) (selected_adapter s) (running s) n
    (daily_upload_bytes s) (last_data_update_day s) (hourly_data s).

Definition set_daily_upload_bytes n (s : monitor) : monitor :=
  mkMonitor (speed_queue s) (download_data s) (upload_data s)
    (update_interval s) (selected_adapter s) (running s)
    (daily_download_bytes s) n (last_data_update_day s) (hourly_data s).

Definition set_last_data_update_day d (s : monitor) : monitor :=
  mkMonitor (speed_queue s) (download_data s) (upload_data s)
    (update_interval s) (selected_adapter s) (running s)
    (daily_download_bytes s) (daily_upload_bytes s) d (hourly_data s).

Definition set_hourly_data h (s : monitor) : monitor :=
  mkMonitor (speed_queue s) (download_data s) (upload_data s)
    (update_interval s) (selected_adapter s) (running s)
    (daily_download_bytes s) (daily_upload_bytes s)
    (last_data_update_day s) h.

(** ** [setup_variables] *)

(** [today] is [datetime.date.today()] at the call. *)
Definition setup_variables (today : date) : monitor :=
  {| speed_queue := [];
     download_data := [];
     upload_data := [];
     update_interval := 1000;
     selected_adapter := "All";
     running := true;
     daily_download_bytes := 0;
     daily_upload_bytes := 0;
     last_data_update_day := today;
     hourly_data := ∅ |}.

(** ** [deque(maxlen=50)] *)

Definition maxlen : nat := 50.

(** [d.append(x)] on a bounded deque: when the deque is full the item
    at the left end is discarded. *)
Definition deque_append {A} (d : list A) (x : A) : list A :=
  let d' := d ++ [x] in
  if decide (maxlen < length d')%nat then drop 1 d' else d'.

(** ** [defaultdict(lambda: {'download': 0, 'upload': 0})] *)

Definition default_entry : hour_entry := mkHour 0 0.

(** [hourly_data[hour]], the value read. *)
Definition hourly_get (h : gmap Z hour_entry) (hour : Z) : hour_entry :=
  default default_entry (h !! hour).

(** [hourly_data[hour]], the table afterwards: a missing key is
    entered with the default. *)
Definition hourly_touch (h : gmap Z hour_entry) (hour : Z) : gmap Z hour_entry :=
  <[hour := hourly_get h hour]> h.

(** ** [set_adapter]

    The class defines [set_adapter] twice; the second definition
    replaces the first when the class body is executed. *)

Definition set_adapter_shadowed (adapter_name : string) (s : monitor) : monitor :=
  set_selected_adapter adapter_name s.

Definition set_adapter (value : string) (s : monitor) : monitor :=
  let s := set_selected_adapter value s in
  let s := set_download_data [] s in
  set_upload_data [] s.

(** ** [update_labels]

    The loop takes every pair waiting in the queue (oldest first) and
    appends it to the two deques; [queue.Empty] ends it.  The label
    texts and the redraw are presentation. *)

Definition push_sample (s : monitor) (sample : float * float) : monitor :=
  let s := set_download_data (deque_append (download_data s) sample.1) s in
  set_upload_data (deque_append (upload_data s) sample.2) s.

Definition update_labels (s : monitor) : monitor :=
  set_speed_queue [] (foldl push_sample s (speed_queue s)).

(** ** [save_daily_data] *)

Definition daily_rows (s : monitor) : csv :=
  [ ["Date"; "DownloadBytes"; "UploadBytes"];
    [ strftime_ymd (last_data_update_day s);
      str_of_int (daily_download_bytes s);
      str_of_int (daily_upload_bytes s) ] ].

Definition save_daily_data (d : disk) (s : monitor) : disk :=
  match write_file d data_usage_file (daily_rows s) with
  | Some d' => d'
  | None => d                      (* except Exception: print *)
  end.

(** ** [save_hourly_data]

    Reading [hourly_data[hour]] for the 24 hours enters the missing
    hours in the table. *)

Definition hours : list Z := seqZ 0 24.

Definition hourly_row (h : gmap Z hour_entry) (hour : Z) : list string :=
  [ str_of_int hour;
    str_of_int (download (hourly_get h hour));
    str_of_int (upload (hourly_get h hour)) ].

Definition hourly_rows (h : gmap Z hour_entry) : csv :=
  ["Hour"; "DownloadBytes"; "UploadBytes"] :: (hourly_row h <$> hours).

Definition save_hourly_data (d : disk) (s : monitor) : disk * monitor :=
  match write_file d hourly_data_file (hourly_rows (hourly_data s)) with
  | Some d' => (d', set_hourly_data (foldl hourly_touch (hourly_data s) hours) s)
  | None => (d, s)                 (* except Exception: print *)
  end.

(** ** [load_hourly_data] *)

(** [int(row[name])]: [None] when the key is missing ([KeyError]) or
    the text is no integer ([ValueError]). *)
Definition field_int (row : gmap string string) (name : string) : option Z :=
  row !! name ≫= int_of_str.

(** The [for] loop over the rows.  An exception leaves the loop with
    the rows before it already entered. *)
Fixpoint hourly_rows_loop (rows : list (gmap string string))
    (h : gmap Z hour_entry) : gmap Z hour_entry :=
  match rows with
  | [] => h
  | row :: rest =>
      match field_int row "Hour", field_int row "DownloadBytes",
            field_int row "UploadBytes" with
      | Some hour, Some download_bytes, Some upload_bytes =>
          let h := <[hour := mkHour download_bytes (upload (hourly_get h hour))]> h in
          let h := <[hour := mkHour (download (hourly_get h hour)) upload_bytes]> h in
          hourly_rows_loop rest h
      | _, _, _ => h
      end
  end.

Definition load_hourly_data (d : disk) (s : monitor) : monitor :=
  match files d !! hourly_data_file with
  | Some c => set_hourly_data (hourly_rows_loop (dict_reader c) (hourly_data s)) s
  | None => s
  end.

(** ** [load_daily_data] *)

(** [datetime.datetime.strptime(row['Date'], '%Y-%m-%d').date()] *)
Definition row_date (row : gmap string string) : option date :=
  row !! "Date" ≫= strptime_ymd.

(** How the [for] loop over the rows of the daily file ends: by the
    [return] at today's record, by running out of rows, or by an
    exception. *)
Inductive loop_exit := Returned | Exhausted | Raised.

Fixpoint daily_rows_loop (today : date) (rows : list (gmap string string))
    (s : monitor) : monitor * loop_exit :=
  match rows with
  | [] => (s, Exhausted)
  | row :: rest =>
      match row_date row with
      | None => (s, Raised)
      | Some file_date =>
          if decide (file_date = today) then
            match field_int row "DownloadBytes" with
            | None => (s, Raised)
            | Some download_bytes =>
                let s := set_daily_download_bytes download_bytes s in
                match field_int row "UploadBytes" with
                | None => (s, Raised)
                | Some upload_bytes =>
                    let s := set_daily_upload_bytes upload_bytes s in
                    (set_last_data_update_day file_date s, Returned)
                end
            end
          else daily_rows_loop today rest s
      end
  end.

(** The [if os.path.exists ...: try: ...] part: a missing file is not
    opened. *)
Definition daily_scan (today : date) (d : disk) (s : monitor) : monitor * loop_exit :=
  match files d !! data_usage_file with
  | Some c => daily_rows_loop today (dict_reader c) s
  | None => (s, Exhausted)
  end.

(** [today] is [datetime.date.today()]. *)
Definition load_daily_data (today : date) (d : disk) (s : monitor) : monitor :=
  match daily_scan today d s with
  | (s, Returned) => s
  | (s, _) =>
      let s := set_daily_download_bytes 0 s in
      let s := set_daily_upload_bytes 0 s in
      let s := set_last_data_update_day today s in
      let s := set_hourly_data ∅ s in
      load_hourly_data d s
  end.

(** ** [measure_speeds] *)

(** The counters of the selected adapter; [KeyError] falls back to the
    total. *)
Definition read_stats (os : os_counters) (adapter : string) : snetio :=
  if decide (adapter = "All") then net_io_counters os
  else match net_io_counters_pernic os !! adapter with
       | Some stats => stats
       | None => net_io_counters os      (* except KeyError *)
       end.

(** [(new - old) / 1024] *)
Definition kbps_of (new_bytes old_bytes : Z) : option float :=
  int_truediv (new_bytes - old_bytes) 1024.

(** [interval_seconds = self.update_interval / 1000.0] *)
Definition interval_seconds (update_interval : Z) : option float :=
  ui ← of_int update_interval; fdiv ui f1000.

(** [int(kbps * 1024 * interval_seconds)] *)
Definition bytes_interval (kbps secs : float) : option Z :=
  to_int (fmul (fmul kbps f1024) secs).

(** The [if current_day != self.last_data_update_day:] block. *)
Definition rollover (current_day : date) (d : disk) (s : monitor) : disk * monitor :=
  if decide (current_day ≠ last_data_update_day s) then
    let d := save_daily_data d s in
    let s := set_daily_download_bytes 0 s in
    let s := set_daily_upload_bytes 0 s in
    let s := set_last_data_update_day current_day s in
    (d, set_hourly_data ∅ s)
  else (d, s).

(** The four [+=] of the body. *)
Definition accumulate (current_hour download_bytes_interval upload_bytes_interval : Z)
    (s : monitor) : monitor :=
  let s := set_daily_download_bytes (daily_download_bytes s + download_bytes_interval) s in
  let s := set_daily_upload_bytes (daily_upload_bytes s + upload_bytes_interval) s in
  let h := hourly_data s in
  let e := hourly_get h current_hour in
  let h := <[current_hour := mkHour (download e + download_bytes_interval) (upload e)]> h in
  let e := hourly_get h current_hour in
  let h := <[current_hour := mkHour (download e) (upload e + upload_bytes_interval)]> h in
  set_hourly_data h s.

(** One turn of the [while self.running:] loop, after the sleep.  [os]
    is what the system reports and [now] what the clock shows in this
    turn; [old_stats] is the local variable of the loop.  The third
    component is the [old_stats] of the next turn, or [None] when an
    exception ended the thread. *)
Definition measure_step (os : os_counters) (now : datetime) (old_stats : snetio)
    (d : disk) (s : monitor) : disk * monitor * option snetio :=
  let new_stats := read_stats os (selected_adapter s) in
  match kbps_of (bytes_recv new_stats) (bytes_recv old_stats),
        kbps_of (bytes_sent new_stats) (bytes_sent old_stats) with
  | Some down_kbps, Some up_kbps =>
      let '(d, s) := rollover (dt_date now) d s in
      match interval_seconds (update_interval s) with
      | Some secs =>
          match bytes_interval down_kbps secs, bytes_interval up_kbps secs with
          | Some download_bytes_interval, Some upload_bytes_interval =>
              let s := accumulate (dt_hour now) download_bytes_interval
                         upload_bytes_interval s in
              (d, set_speed_queue (speed_queue s ++ [(down_kbps, up_kbps)]) s,
               Some new_stats)
          | _, _ => (d, s, None)
          end
      | None => (d, s, None)
      end
  | _, _ => (d, s, None)
  end.

(** The loop over the turns the thread lives through. *)
Fixpoint measure_loop (turns : list (os_counters * datetime)) (old_stats : snetio)
    (d : disk) (s : monitor) : disk * monitor :=
  match turns with
  | [] => (d, s)
  | (os, now) :: rest =>
      if running s then
        match measure_step os now old_stats d s with
        | (d, s, Some new_stats) => measure_loop rest new_stats d s
        | (d, s, None) => (d, s)
        end
      else (d, s)
  end.

(** [measure_speeds]: the first reading, then the loop. *)
Definition measure_speeds (os0 : os_counters) (turns : list (os_counters * datetime))
    (d : disk) (s : monitor) : disk * monitor :=
  measure_loop turns (read_stats os0 (selected_adapter s)) d s.

(** ** [clean_exit] *)

Definition clean_exit (d : disk) (s : monitor) : disk * monitor :=
  let s := set_running false s in
  let d := save_daily_data d s in
  save_hourly_data d s.

(** ** [apply_interval_from_entry]

    [value_str] is the text of the entry; the message boxes and the
    scale widget are presentation. *)

Definition apply_interval_from_entry (value_str : string) (s : monitor) : monitor :=
  match int_of_str value_str with
  | Some value =>
      if (100 <=? value) && (value <=? 5000)
      then set_update_interval value s
      else s
  | None => s                      (* except ValueError *)
  end.

(** ** The program as a transition system

    The sampler thread and the handlers of the user interface work on
    the same object.  A configuration holds the files, the object and
    the [old_stats] of the sampler thread ([None] once an exception has
    ended the thread). *)

Record config := mkConfig {
  cfg_disk : disk;
  cfg_monitor : monitor;
  cfg_old_stats : option snetio
}.

Inductive action :=
| SamplerTurn (os : os_counters) (now : datetime)
| UiRefresh
| UiSetAdapter (value : string)
| UiSetInterval (value_str : string).

Definition step (c : config) (a : action) : config :=
  match a with
  | SamplerTurn os now =>
      match cfg_old_stats c with
      | Some old_stats =>
          if running (cfg_monitor c) then
            let '(d, s, o) := measure_step os now old_stats (cfg_disk c) (cfg_monitor c) in
            mkConfig d s o
          else mkConfig (cfg_disk c) (cfg_monitor c) None
      | None => c
      end
  | UiRefresh => mkConfig (cfg_disk c) (update_labels (cfg_monitor c)) (cfg_old_stats c)
  | UiSetAdapter value =>
      mkConfig (cfg_disk c) (set_adapter value (cfg_monitor c)) (cfg_old_stats c)
  | UiSetInterval value_str =>
      mkConfig (cfg_disk c) (apply_interval_from_entry value_str (cfg_monitor c))
        (cfg_old_stats c)
  end.

(** [__init__]: [setup_variables], [load_daily_data], and the first
    reading of [measure_speeds]. *)
Definition startup (today : date) (os0 : os_counters) (d : disk) : config :=
  let s := load_daily_data today d (setup_variables today) in
  mkConfig d s (Some (read_stats os0 (selected_adapter s))).

Definition run (c : config) (actions : list action) : config :=
  foldl step c actions.

(** ** Rows of the daily file, as the loader sees them *)

(** A row the loop passes by: its date parses and is not today. *)
Definition other_day (today : date) (row : gmap string string) : bool :=
  match row_date row with
  | Some file_date => bool_decide (file_date ≠ today)
  | None => false
  end.

(** A row on which the loop raises: the date does not parse, or the
    date is today and one of the two totals does not parse. *)
Definition unparsable (today : date) (row : gmap string string) : bool :=
  match row_date row with
  | None => true
  | Some file_date =>
      bool_decide (file_date = today)
      && negb (bool_decide (is_Some (field_int row "DownloadBytes"))
               && bool_decide (is_Some (field_int row "UploadBytes")))
  end.

(** A record of today with the totals [dl] and [ul]. *)
Definition todays_record (today : date) (row : gmap string string) (dl ul : Z) : Prop :=
  row_date row = Some today
  /\ field_int row "DownloadBytes" = Some dl
  /\ field_int row "UploadBytes" = Some ul.

(** The daily file gives no record of today: it is missing, or the
    loop raises before it meets a record of today, or no row is dated
    today. *)
Definition no_prior_data (today : date) (d : disk) : Prop :=
  match files d !! data_usage_file with
  | None => True
  | Some c =>
      (exists pre bad post,
          dict_reader c = pre ++ bad :: post
          /\ forallb (other_day today) pre = true
          /\ unparsable today bad = true)
      \/ forallb (other_day today) (dict_reader c) = true
  end.

(** The table reads zero at every hour. *)
Definition hourly_all_zero (h : gmap Z hour_entry) : Prop :=
  forall hour, hourly_get h hour = default_entry.

(** ** Predicates of the statements *)

(** Neither deque holds more than [maxlen] samples. *)
Definition buffers_bounded (s : monitor) : Prop :=
  (length (download_data s) <= maxlen)%nat /\ (length (upload_data s) <= maxlen)%nat.

(** The differences of a counter from one reading to the next. *)
Fixpoint deltas (old : Z) (readings : list Z) : list Z :=
  match readings with
  | [] => []
  | r :: rest => (r - old) :: deltas r rest
  end.

Definition total (l : list Z) : Z := foldr Z.add 0 l.

(** A turn of the day the monitor is in, with counters between [0] and
    [2^53]. *)
Definition calm_turn (s : monitor) (turn : os_counters * datetime) : Prop :=
  dt_date turn.2 = last_data_update_day s
  /\ 0 <= bytes_recv (read_stats turn.1 (selected_adapter s)) < 2 ^ 53
  /\ 0 <= bytes_sent (read_stats turn.1 (selected_adapter s)) < 2 ^ 53.

Definition recv_readings (s : monitor) (turns : list (os_counters * datetime)) : list Z :=
  (λ turn, bytes_recv (read_stats turn.1 (selected_adapter s))) <$> turns.

End Monitor.

(* ================================================================== *)
(** * Runs of the program used in the statements *)
(* ================================================================== *)

Module Scenario.

Import PyFloat PyText Disk Monitor.

Definition day1 : date := Date 2025 3 9.
Definition day2 : date := Date 2025 3 10.

(** An empty, writable working directory. *)
Definition empty_disk : disk := mkDisk ∅ true [].

(** The system reports [sent] and [recv] in total and no adapter on its
    own. *)
Definition os_total (sent recv : Z) : os_counters := mkOs (mkStats sent recv) ∅.

(** The program right after its start on [day1], counters at zero. *)
Definition started : config := startup day1 (os_total 0 0) empty_disk.

(** A counter that went back: 2048 bytes received before, 1024 now. *)
Definition reset_turn : disk * monitor * option snetio :=
  measure_step (os_total 0 1024) (mkDatetime day1 13) (mkStats 0 2048)
    empty_disk (setup_variables day1).

(** The interval set to 2000 ms, then one turn with 2048 bytes received
    and 1024 sent. *)
Definition slow_turn : config :=
  run started [UiSetInterval "2000"; SamplerTurn (os_total 1024 2048) (mkDatetime day1 13)].

(** The same with a second turn of the same size. *)
Definition slow_turns : config :=
  run started [UiSetInterval "2000";
               SamplerTurn (os_total 1024 2048) (mkDatetime day1 13);
               SamplerTurn (os_total 2048 4096) (mkDatetime day1 13)].

(** One turn late on [day1], then the first turn of [day2]. *)
Definition evening : config :=
  run started [SamplerTurn (os_total 1024 2048) (mkDatetime day1 23)].

Definition next_morning : config :=
  run evening [SamplerTurn (os_total 1024 3072) (mkDatetime day2 0)].

(** No daily file, and an hourly file with one row. *)
Definition hourly_only_disk : disk :=
  mkDisk {[ hourly_data_file :=
              [ ["Hour"; "DownloadBytes"; "UploadBytes"]; ["3"; "100"; "50"] ] ]}
         true [].

(** The system reports the adapter [eth0] only, while [wlan0] is
    selected. *)
Definition lost_adapter_os : os_counters :=
  mkOs (mkStats 1024 2048) {[ "eth0" := mkStats 512 1024 ]}.

Definition lost_adapter_monitor : monitor :=
  set_adapter "wlan0" (setup_variables day1).

(** Fifty-one samples, all different. *)
Definition fifty_one_samples : list (float * float) :=
  (λ n : nat, (S754_finite false two52 (Z.of_nat n), fzero)) <$> seq 0 51.

(** Totals of [day1] to be saved. *)
Definition saved_monitor : monitor :=
  set_daily_upload_bytes 1024 (set_daily_download_bytes 4096 (setup_variables day1)).

(** A daily file with a record of [day1] and an hourly file with a row
    for hour 3. *)
Definition restart_disk : disk :=
  mkDisk {[ data_usage_file :=
              [ ["Date"; "DownloadBytes"; "UploadBytes"];
                ["2025-03-09"; "4096"; "1024"] ];
            hourly_data_file :=
              [ ["Hour"; "DownloadBytes"; "UploadBytes"]; ["3"; "100"; "50"] ] ]}
         true [].

Definition restart_row : gmap string string :=
  row_dict ["Date"; "DownloadBytes"; "UploadBytes"] ["2025-03-09"; "4096"; "1024"].

End Scenario.

(* ================================================================== *)
(** * The usage views and the other handlers *)
(* ================================================================== *)

Module Views.

Import PyFloat PyText Disk Monitor.

(** ** [csv.DictReader], with the [None] of short rows

    [load_data_for_date] compares [row['Date']] before anything is
    parsed, so for it a name the row is too short for ([None], which
    compares unequal) differs from a name the header lacks
    ([KeyError]). *)

Definition row_fields (fieldnames row : list string) : gmap string (option string) :=
  foldl (λ m name, <[name := None]> m)
    (Some <$> (list_to_map (reverse (zip fieldnames row)) : gmap string string))
    (drop (length row) fieldnames).

Definition dict_reader_fields (c : csv) : list (gmap string (option string)) :=
  match c with
  | [] => []
  | fieldnames :: rows =>
      row_fields fieldnames <$> filter (λ r, r ≠ []) rows
  end.

(** [int(row[name])] on such a row: [KeyError], [TypeError] on [None]
    and [ValueError] are all [None]. *)
Definition fields_int (row : gmap string (option string)) (name : string) : option Z :=
  row !! name ≫= λ field, field ≫= int_of_str.

(** ** [load_data_for_date] *)

(** [1024*1024] *)
Definition mib : Z := 1024 * 1024.

(** The dictionary returned, [{'download': _, 'upload': _}]. *)
Record usage := mkUsage { usage_download : float; usage_upload : float }.

(** The [for] loop with the two local variables; the result is their
    value when the loop ends, by [break], by running out of rows or by
    an exception. *)
Fixpoint data_rows_loop (date_str : string) (rows : list (gmap string (option string)))
    (download_bytes upload_bytes : Z) : Z * Z :=
  match rows with
  | [] => (download_bytes, upload_bytes)
  | row :: rest =>
      match row !! "Date" with
      | None => (download_bytes, upload_bytes)            (* KeyError *)
      | Some field =>
          if decide (field = Some date_str) then
            match fields_int row "DownloadBytes" with
            | None => (download_bytes, upload_bytes)
            | Some download_bytes =>
                match fields_int row "UploadBytes" with
                | None => (download_bytes, upload_bytes)
                | Some upload_bytes => (download_bytes, upload_bytes)   (* break *)
                end
            end
          else data_rows_loop date_str rest download_bytes upload_bytes
      end
  end.

(** A row the loop passes by: it has a [Date] and the text is not the
    one looked for. *)
Definition passed_by (date_str : string) (row : gmap string (option string)) : Prop :=
  exists field, row !! "Date" = Some field /\ field <> Some date_str.

(** The two byte counts before the division. *)
Definition data_for_date_bytes (date : date) (d : disk) : Z * Z :=
  match files d !! data_usage_file with
  | Some c => data_rows_loop (strftime_ymd date) (dict_reader_fields c) 0 0
  | None => (0, 0)
  end.

(** [None] is the [OverflowError] of the division of an integer too
    large for a double; the divisor is a power of two, as 1024 is. *)
Definition load_data_for_date (date : date) (d : disk) : option usage :=
  let '(download_bytes, upload_bytes) := data_for_date_bytes date d in
  dl ← int_truediv download_bytes mib;
  ul ← int_truediv upload_bytes mib;
  Some (mkUsage dl ul).

(** ** [plot_daily_usage_graph] *)

(** The day before; [None] before the first day of the year 1
    ([OverflowError]). *)
Definition prev_day (d : date) : option date :=
  if 1 <? day d then Some (Date (year d) (month d) (day d - 1))
  else if 1 <? month d
       then Some (Date (year d) (month d - 1) (days_in_month (year d) (month d - 1)))
       else if 1 <? year d then Some (Date (year d - 1) 12 31) else None.

(** A number that orders the dates. *)
Definition date_key (d : date) : Z := year d * 512 + month d * 32 + day d.

(** [today - datetime.timedelta(days=i)] *)
Fixpoint date_minus_days (today : date) (i : nat) : option date :=
  match i with
  | O => Some today
  | S i => date_minus_days today i ≫= prev_day
  end.

(** [s.split(sep)] for a separator of one character. *)
Fixpoint split (sep : ascii) (s : string) : list string :=
  match s with
  | EmptyString => [EmptyString]
  | String c r =>
      if Ascii.eqb c sep then EmptyString :: split sep r
      else match split sep r with
           | piece :: pieces => String c piece :: pieces
           | [] => [String c EmptyString]
           end
  end.

(** What the bars are drawn from: the dates, the two lists of values
    and the labels of the ticks, oldest day first. *)
Record daily_graph := mkDailyGraph {
  graph_dates : list string;
  graph_download_values : list float;
  graph_upload_values : list float;
  graph_labels : list string
}.

(** The body of the [for i in range(7)] loop. *)
Definition daily_graph_day (today : date) (d : disk) (i : nat) : option (string * usage) :=
  date ← date_minus_days today i;
  daily_data ← load_data_for_date date d;
  Some (strftime_ymd date, daily_data).

(** [None] is an exception that leaves the handler. *)
Definition plot_daily_usage_graph (today : date) (d : disk) : option daily_graph :=
  days ← mapM (daily_graph_day today d) (seq 0 7);
  let dates := reverse days.*1 in
  let download_values := reverse (usage_download <$> days.*2) in
  let upload_values := reverse (usage_upload <$> days.*2) in
  labels ← mapM (λ date, split "-" date !! 2%nat) dates;
  Some (mkDailyGraph dates download_values upload_values labels).

(** ** [plot_hourly_usage] *)

Record hourly_graph := mkHourlyGraph {
  hgraph_download_usage : list float;
  hgraph_upload_usage : list float;
  hgraph_labels : list string
}.

(** Reading [hourly_data[hour]] enters the hours that are missing, as
    in [save_hourly_data]. *)
Definition plot_hourly_usage (s : monitor) : option (monitor * hourly_graph) :=
  download_usage ← mapM (λ hour, int_truediv (download (hourly_get (hourly_data s) hour)) mib) hours;
  upload_usage ← mapM (λ hour, int_truediv (upload (hourly_get (hourly_data s) hour)) mib) hours;
  Some (set_hourly_data (foldl hourly_touch (hourly_data s) hours) s,
        mkHourlyGraph download_usage upload_usage ((λ hour, pad2 hour +:+ ":00") <$> hours)).

(** ** [format_bytes]

    [bytes_val] is an [int] when the function is entered and a [float]
    after the first division. *)

Inductive number := Int (n : Z) | Float (x : float).

(** [bytes_val >= 1024] *)
Definition ge_1024 (v : number) : bool :=
  match v with
  | Int n => 1024 <=? n
  | Float x => leb f1024 x
  end.

(** [bytes_val / 1024] *)
Definition div_1024 (v : number) : option float :=
  match v with
  | Int n => int_truediv n 1024
  | Float x => fdiv x f1024
  end.

Definition units : list string := ["Bytes"; "KB"; "MB"; "GB"; "TB"].

(** The [while] loop; [room] is [len(units) - 1 - unit_index]. *)
Fixpoint format_loop (room : nat) (bytes_val : number) (unit_index : nat)
    : option (number * nat) :=
  match room with
  | O => Some (bytes_val, unit_index)
  | S room =>
      if ge_1024 bytes_val then
        x ← div_1024 bytes_val; format_loop room (Float x) (S unit_index)
      else Some (bytes_val, unit_index)
  end.

(** The number and the unit that [format_bytes] puts into the text
    [f"{bytes_val:.2f} {units[unit_index]}"]; the rounding to two
    decimals is not part of the model. *)
Definition format_bytes (bytes_val : Z) : option (number * string) :=
  '(v, unit_index) ← format_loop 4 (Int bytes_val) 0;
  unit ← units !! unit_index;
  Some (v, unit).

(** ** The hourly table as a whole *)

Definition hourly_download_total (h : gmap Z hour_entry) : Z :=
  map_fold (λ _ e acc, download e + acc) 0 h.

Definition hourly_upload_total (h : gmap Z hour_entry) : Z :=
  map_fold (λ _ e acc, upload e + acc) 0 h.

(** The daily totals are the sums of the hourly table. *)
Definition totals_agree (s : monitor) : Prop :=
  daily_download_bytes s = hourly_download_total (hourly_data s)
  /\ daily_upload_bytes s = hourly_upload_total (hourly_data s).

(** The intervals that are 1000 ms times a power of two. *)
Definition dyadic_intervals : list Z := [125; 250; 500; 1000; 2000; 4000].

End Views.

(* ================================================================== *)
(** * Cases for the views and the restart *)
(* ================================================================== *)

Module Cases.

Import PyFloat PyText Disk Monitor Scenario.

(** The interval at half a second. *)
Definition half_second_monitor : monitor :=
  set_update_interval 500 (setup_variables day1).

(** A working directory that cannot be written. *)
Definition read_only_disk : disk := mkDisk ∅ false [].

(** The sampler has read the total, 1024 sent and 2048 received, with
    ["All"] selected. *)
Definition busy : config :=
  mkConfig empty_disk (setup_variables day1) (Some (mkStats 1024 2048)).

(** Fifty-one samples wait in the queue. *)
Definition waiting_monitor : monitor :=
  set_speed_queue fifty_one_samples (setup_variables day1).

Definition hourly_header : list string := ["Hour"; "DownloadBytes"; "UploadBytes"].

(** An hourly file whose second record has a download count that is no
    number. *)
Definition broken_hourly_disk : disk :=
  mkDisk {[ hourly_data_file :=
              [ hourly_header; ["3"; "100"; "50"]; ["4"; "x"; "7"]; ["5"; "1"; "2"] ] ]}
         true [].

Definition daily_header : list string := ["Date"; "DownloadBytes"; "UploadBytes"].

(** A daily file whose record of [day1] has an upload total that is no
    number. *)
Definition half_record_disk : disk :=
  mkDisk {[ data_usage_file := [ daily_header; ["2025-03-09"; "4096"; "abc"] ] ]}
         true [].

(** A daily file whose record of [day1] has the date written without
    the zeros. *)
Definition short_date_disk : disk :=
  mkDisk {[ data_usage_file := [ daily_header; ["2025-3-9"; "4096"; "1024"] ] ]}
         true [].

(** Two turns in the afternoon of [day1]. *)
Definition afternoon : list (os_counters * datetime) :=
  [ (os_total 1024 2048, mkDatetime day1 13); (os_total 2048 4096, mkDatetime day1 14) ].

(** The turns of [afternoon] from the start of the program. *)
Definition afternoon_end : disk * monitor :=
  measure_loop afternoon (mkStats 0 0) empty_disk (setup_variables day1).

(** The first turn of [day2] in a directory that cannot be written,
    with the totals of [day1] in memory. *)
Definition dawn_turn : disk * monitor * option snetio :=
  measure_step (os_total 1024 3072) (mkDatetime day2 0) (mkStats 1024 2048)
    read_only_disk saved_monitor.

End Cases.


(* ================================================================== *)
(** * Doubles: scaling by powers of two is exact *)
(* ================================================================== *)

Module FloatFacts.

Import PyFloat Monitor.

Lemma iter_pos_nat {A : Type} (f : A -> A) (n : positive) (x : A) :
  SpecFloat.iter_pos f n x = Nat.iter (Pos.to_nat n) f x.
Proof.
  revert x. induction n as [n IH|n IH|]; intros x; cbn [SpecFloat.iter_pos].
  - rewrite !IH, Pos2Nat.inj_xI, <- Nat.iter_succ_r, <- Nat.iter_add.
    f_equal. lia.
  - rewrite !IH, Pos2Nat.inj_xO, <- Nat.iter_add. f_equal. lia.
  - reflexivity.
Qed.

Lemma shr_1_double z : 0 < z -> shr_1 (exact_rec (2 * z)) = exact_rec z.
Proof. destruct z; try lia. reflexivity. Qed.

Lemma iter_shr_1_pow2 (k : nat) z :
  0 < z -> Nat.iter k shr_1 (exact_rec (z * 2 ^ Z.of_nat k)) = exact_rec z.
Proof.
  revert z. induction k as [|k IH]; intros z Hz.
  - simpl. f_equal. lia.
  - rewrite Nat.iter_succ_r.
    replace (z * 2 ^ Z.of_nat (S k)) with (2 * (z * 2 ^ Z.of_nat k)).
    + rewrite shr_1_double by (apply Z.mul_pos_pos; [lia | apply Z.pow_pos_nonneg; lia]).
      now apply IH.
    + rewrite Nat2Z.inj_succ, Z.pow_succ_r by lia. ring.
Qed.

Lemma digits2_pos_size p : digits2_pos p = Pos.size p.
Proof. induction p; simpl; congruence. Qed.

Lemma Zdigits2_log2 z : 0 < z -> Zdigits2 z = Z.log2 z + 1.
Proof.
  destruct z as [|p|p]; try lia. intros _.
  destruct p; simpl; rewrite ?digits2_pos_size; lia.
Qed.

Lemma Zdigits2_normal m : 2 ^ 52 <= m < 2 ^ 53 -> Zdigits2 m = 53.
Proof.
  intros H. rewrite Zdigits2_log2 by lia.
  rewrite (Z.log2_unique m 52); lia.
Qed.

Lemma Zdigits2_shift z k : 0 < z -> 0 <= k -> Zdigits2 (z * 2 ^ k) = Zdigits2 z + k.
Proof.
  intros Hz Hk.
  rewrite !Zdigits2_log2; [| lia | apply Z.mul_pos_pos; [lia | apply Z.pow_pos_nonneg; lia]].
  rewrite Z.log2_mul_pow2 by lia. lia.
Qed.

Lemma shr_exact z e k :
  0 < z -> 0 <= k ->
  shr (exact_rec (z * 2 ^ k)) e k = (exact_rec z, e + k).
Proof.
  intros Hz Hk. destruct k as [|p|p]; try lia.
  - simpl. rewrite Z.mul_1_r, Z.add_0_r. reflexivity.
  - unfold shr. rewrite iter_pos_nat.
    rewrite <- (positive_nat_Z p) at 1.
    rewrite iter_shr_1_pow2 by lia. reflexivity.
Qed.

(** Rounding a normal mantissa that carries [k] extra zero bits. *)
Lemma round_aux_exact s m k e :
  2 ^ 52 <= m < 2 ^ 53 -> 0 <= k -> -1074 <= e + k <= 971 ->
  binary_round_aux prec emax s (m * 2 ^ k) e loc_Exact
  = S754_finite s (Z.to_pos m) (e + k).
Proof.
  intros Hm Hk He.
  unfold binary_round_aux, shr_fexp.
  rewrite Zdigits2_shift, (Zdigits2_normal m) by lia.
  replace (fexp prec emax (53 + k + e) - e) with k
    by (unfold fexp, emin, prec, emax; lia).
  change (shr_record_of_loc (m * 2 ^ k) loc_Exact) with (exact_rec (m * 2 ^ k)).
  rewrite shr_exact by lia.
  cbn [shr_m exact_rec loc_of_shr_record round_nearest_even shr_record_of_loc].
  rewrite (Zdigits2_normal m) by lia.
  replace (fexp prec emax (53 + (e + k)) - (e + k)) with 0
    by (unfold fexp, emin, prec, emax; lia).
  cbn [shr shr_m].
  destruct m as [|p|p]; try lia.
  replace (e + k <=? emax - prec) with true
    by (symmetry; apply Z.leb_le; unfold emax, prec; lia).
  reflexivity.
Qed.

Lemma Zdigits2_bounds z d :
  0 < z -> Zdigits2 z = d -> 2 ^ (d - 1) <= z < 2 ^ d.
Proof.
  intros Hz Hd. rewrite Zdigits2_log2 in Hd by lia.
  pose proof (Z.log2_spec z Hz) as Hs.
  replace (d - 1) with (Z.log2 z) by lia.
  replace d with (Z.succ (Z.log2 z)) by lia. exact Hs.
Qed.

Lemma Zdigits2_small z : 0 < z < 2 ^ 53 -> 1 <= Zdigits2 z <= 53.
Proof.
  intros Hz. rewrite Zdigits2_log2 by lia.
  pose proof (Z.log2_nonneg z).
  assert (Z.log2 z < 53) by (apply Z.log2_lt_pow2; lia). lia.
Qed.

Lemma pos_iter_xO p k : Z.pos (Pos.iter xO p k) = Z.pos p * 2 ^ Z.pos k.
Proof.
  induction k as [|k IH] using Pos.peano_ind.
  - simpl. lia.
  - rewrite Pos.iter_succ, Pos2Z.inj_succ, Z.pow_succ_r by lia.
    rewrite Pos2Z.inj_xO, IH. ring.
Qed.

(** Multiplying a normal double by a power of two. *)
Lemma fmul_pow2 s m e j :
  2 ^ 52 <= Z.pos m < 2 ^ 53 -> -1074 <= e + j + 52 <= 971 ->
  fmul (S754_finite s m e) (S754_finite false two52 j)
  = S754_finite s m (e + j + 52).
Proof.
  intros Hm He. unfold fmul, SFmul.
  rewrite xorb_false_r.
  replace (Z.pos (m * two52)) with (Z.pos m * 2 ^ 52) by (unfold two52; lia).
  rewrite round_aux_exact by lia.
  rewrite Pos2Z.id. f_equal; lia.
Qed.

(** Dividing a normal double by a power of two. *)
Lemma sfdiv_pow2 s m e j :
  2 ^ 52 <= Z.pos m < 2 ^ 53 -> -1074 <= e - j - 53 -> e - j - 52 <= 971 ->
  SFdiv prec emax (S754_finite s m e) (S754_finite false two52 j)
  = S754_finite s m (e - j - 52).
Proof.
  intros Hm Hlo Hhi. unfold SFdiv, SFdiv_core_binary.
  rewrite xorb_false_r.
  rewrite (Zdigits2_normal (Z.pos m)) by lia.
  change (Zdigits2 (Z.pos two52)) with 53.
  replace (Z.min (fexp prec emax (53 + e - (53 + j))) (e - j)) with (e - j - 53)
    by (unfold fexp, emin, prec, emax; lia).
  replace (e - j - (e - j - 53)) with 53 by lia.
  cbv iota. rewrite Z.shiftl_mul_pow2 by lia.
  destruct (Z.div_eucl (Z.pos m * 2 ^ 53) (Z.pos two52)) as [q r] eqn:E.
  assert (Hq : q = Z.pos m * 2 ^ 1).
  { change q with (fst (q, r)). rewrite <- E.
    change (fst (Z.div_eucl ?a ?b)) with (a / b).
    replace (Z.pos m * 2 ^ 53) with (Z.pos m * 2 ^ 1 * Z.pos two52)
      by (unfold two52; lia).
    apply Z.div_mul. discriminate. }
  assert (Hr : r = 0).
  { change r with (snd (q, r)). rewrite <- E.
    change (snd (Z.div_eucl ?a ?b)) with (a mod b).
    replace (Z.pos m * 2 ^ 53) with (Z.pos m * 2 ^ 1 * Z.pos two52)
      by (unfold two52; lia).
    apply Z.mod_mul. discriminate. }
  subst q r.
  change (new_location (Z.pos two52) 0) with loc_Exact.
  rewrite round_aux_exact by lia.
  rewrite Pos2Z.id. f_equal; lia.
Qed.

(** The conversion of a non-zero integer below [2^53]: the mantissa is
    the integer shifted left until it has 53 bits. *)
Lemma of_int_normal n :
  n <> 0 -> Z.abs n < 2 ^ 53 ->
  exists m e,
    of_int n = Some (S754_finite (n <? 0) m e)
    /\ 2 ^ 52 <= Z.pos m < 2 ^ 53 /\ -52 <= e <= 0
    /\ Z.pos m = Z.abs n * 2 ^ (- e).
Proof.
  intros Hn Hb.
  assert (Hpos : forall s p, Z.pos p < 2 ^ 53 ->
    exists m e, binary_round prec emax s p 0 = S754_finite s m e
      /\ 2 ^ 52 <= Z.pos m < 2 ^ 53 /\ -52 <= e <= 0
      /\ Z.pos m = Z.pos p * 2 ^ (- e)).
  { intros s p Hp. unfold binary_round, shl_align.
    pose proof (Zdigits2_small (Z.pos p) ltac:(lia)) as Hd.
    pose proof (Zdigits2_bounds (Z.pos p) _ ltac:(lia) eq_refl) as Hbd.
    change (Zdigits2 (Z.pos p)) with (Z.pos (digits2_pos p)) in Hd, Hbd.
    set (d := Z.pos (digits2_pos p)) in *.
    replace (fexp prec emax (d + 0)) with (d - 53)
      by (unfold fexp, emin, prec, emax; lia).
    destruct (d - 53 - 0) as [|q|q] eqn:Eq; try lia.
    - exists p, 0. assert (d = 53) as Hd53 by lia. rewrite Hd53 in Hbd.
      replace (Z.pos p) with (Z.pos p * 2 ^ 0) at 1 by lia.
      rewrite round_aux_exact by lia.
      rewrite Pos2Z.id. repeat split; try lia.
    - exists (Pos.iter xO p q), (d - 53).
      pose proof (pos_iter_xO p q) as Hi.
      assert (Z.pos q = 53 - d) as Hq by lia.
      assert (2 ^ 52 <= Z.pos (Pos.iter xO p q) < 2 ^ 53) as Hm.
      { rewrite Hi, Hq.
        assert (2 ^ 52 = 2 ^ (d - 1) * 2 ^ (53 - d)) as ->
          by (rewrite <- Z.pow_add_r by lia; f_equal; lia).
        assert (2 ^ 53 = 2 ^ d * 2 ^ (53 - d)) as ->
          by (rewrite <- Z.pow_add_r by lia; f_equal; lia).
        assert (0 < 2 ^ (53 - d)) by (apply Z.pow_pos_nonneg; lia).
        nia. }
      replace (Z.pos (Pos.iter xO p q)) with (Z.pos (Pos.iter xO p q) * 2 ^ 0) at 1 by lia.
      rewrite round_aux_exact by lia.
      rewrite Pos2Z.id. repeat split; try lia.
      + f_equal. lia.
      + rewrite Hi, Hq. f_equal. f_equal. lia. }
  unfold of_int, binary_normalize.
  destruct n as [|p|p]; try lia.
  - destruct (Hpos false p ltac:(lia)) as (m & e & -> & H1 & H2 & H3).
    exists m, e. repeat split; try lia.
  - destruct (Hpos true p ltac:(lia)) as (m & e & -> & H1 & H2 & H3).
    exists m, e. repeat split; try lia.
Qed.

Lemma interval_seconds_default : interval_seconds 1000 = Some fone.
Proof. reflexivity. Qed.

Lemma of_int_1024 : of_int 1024 = Some f1024.
Proof. reflexivity. Qed.

Lemma of_int_1000 : of_int 1000 = Some f1000.
Proof. reflexivity. Qed.

(** [(new - old) / 1024] below [2^53]: the double of the difference with
    its exponent lowered by ten. *)
Lemma kbps_of_normal new_bytes old_bytes :
  new_bytes <> old_bytes -> Z.abs (new_bytes - old_bytes) < 2 ^ 53 ->
  exists m e,
    kbps_of new_bytes old_bytes
    = Some (S754_finite (new_bytes - old_bytes <? 0) m (e - 10))
    /\ 2 ^ 52 <= Z.pos m < 2 ^ 53 /\ -52 <= e <= 0
    /\ Z.pos m = Z.abs (new_bytes - old_bytes) * 2 ^ (- e).
Proof.
  intros Hne Hb.
  destruct (of_int_normal (new_bytes - old_bytes)) as (m & e & Hf & Hm & He & Hv);
    [lia | lia |].
  exists m, e. split; [| auto].
  unfold kbps_of, int_truediv. rewrite Hf, of_int_1024. cbn [mbind option_bind].
  unfold fdiv, f1024. fold two52.
  rewrite sfdiv_pow2 by lia. do 2 f_equal. lia.
Qed.

Lemma kbps_of_same b : kbps_of b b = Some (S754_zero false).
Proof. unfold kbps_of. rewrite Z.sub_diag. reflexivity. Qed.

Lemma shiftl_back a e : e <= 0 -> Z.shiftl (a * 2 ^ (- e)) e = a.
Proof.
  intros He. rewrite Z.shiftl_div_pow2 by lia.
  apply Z.div_mul. apply Z.pow_nonzero; lia.
Qed.

(** One second of a rate gives back the bytes. *)
Lemma bytes_interval_one s m e :
  2 ^ 52 <= Z.pos m < 2 ^ 53 -> -52 <= e <= 0 ->
  bytes_interval (S754_finite s m (e - 10)) fone
  = Some (cond_Zopp s (Z.shiftl (Z.pos m) e)).
Proof.
  intros Hm He. unfold bytes_interval, f1024, fone. fold two52.
  rewrite fmul_pow2 by lia. rewrite fmul_pow2 by lia.
  unfold to_int. do 3 f_equal. lia.
Qed.

Lemma bytes_interval_zero secs s m e :
  secs = S754_finite s m e ->
  bytes_interval (S754_zero false) secs = Some 0.
Proof. intros ->. reflexivity. Qed.

(** At the interval of 1000 ms the bytes of a turn are the difference
    of the counters. *)
Lemma default_interval_bytes new_bytes old_bytes :
  Z.abs (new_bytes - old_bytes) < 2 ^ 53 ->
  exists kbps,
    kbps_of new_bytes old_bytes = Some kbps
    /\ bytes_interval kbps fone = Some (new_bytes - old_bytes)
    /\ (to_Q kbps == (new_bytes - old_bytes) # 1024)%Q.
Proof.
  intros Hb. destruct (decide (new_bytes = old_bytes)) as [->|Hne].
  - exists (S754_zero false). rewrite kbps_of_same, Z.sub_diag.
    repeat split; reflexivity.
  - destruct (kbps_of_normal _ _ Hne Hb) as (m & e & Hk & Hm & He & Hv).
    eexists. split; [exact Hk |].
    set (n := new_bytes - old_bytes) in *.
    assert (Hs : cond_Zopp (n <? 0) (Z.abs n) = n).
    { destruct (Z.ltb_spec n 0); simpl; lia. }
    split.
    + rewrite bytes_interval_one by lia.
      rewrite Hv, shiftl_back by lia. now rewrite Hs.
    + unfold to_Q.
      assert (Hc : cond_Zopp (n <? 0) (Z.pos m) = n * 2 ^ (- e)).
      { rewrite Hv. destruct (Z.ltb_spec n 0); simpl.
        - rewrite Z.abs_neq by lia. ring.
        - rewrite Z.abs_eq by lia. ring. }
      rewrite Hc.
      replace (e - 10) with (- (- e + 10)) by lia.
      change (2 # 1)%Q with (inject_Z 2).
      rewrite Qpower_opp. rewrite <- Zpower_Qpower by lia.
      assert (0 < 2 ^ (- e + 10)) as Hp by (apply Z.pow_pos_nonneg; lia).
      assert (2 ^ (- e + 10) = 2 ^ (- e) * 1024) as Hsplit
        by (rewrite Z.pow_add_r by lia; reflexivity).
      destruct (2 ^ (- e + 10)) as [|p|p] eqn:Ep; try lia.
      unfold Qeq, Qmult, Qinv, inject_Z. simpl Qnum. simpl Qden.
      rewrite Pos2Z.inj_mul. simpl (Z.pos 1). lia.
Qed.

(** ** Rounding never leaves the finite doubles while the value is far
       from the largest double *)

Lemma shr_1_bounds mrs : 0 <= shr_m mrs -> 0 <= shr_m (shr_1 mrs) <= shr_m mrs.
Proof.
  destruct mrs as [m r s]. cbn [shr_m]. intros H.
  destruct m as [|[p|p|]|p]; cbn; lia.
Qed.

Lemma iter_shr_1_bounds (k : nat) mrs :
  0 <= shr_m mrs -> 0 <= shr_m (Nat.iter k shr_1 mrs) <= shr_m mrs.
Proof.
  intros H. induction k as [|k IH]; simpl; [lia |].
  pose proof (shr_1_bounds (Nat.iter k shr_1 mrs)). lia.
Qed.

Lemma shr_bounds mrs e n :
  0 <= shr_m mrs ->
  0 <= shr_m (shr mrs e n).1 <= shr_m mrs /\ (shr mrs e n).2 = e + Z.max 0 n.
Proof.
  intros H. destruct n as [|p|p]; cbn [shr fst snd]; try lia.
  rewrite iter_pos_nat. split; [now apply iter_shr_1_bounds | lia].
Qed.

Lemma shr_record_of_loc_m m l : shr_m (shr_record_of_loc m l) = m.
Proof. destruct l as [|[]]; reflexivity. Qed.

Lemma round_nearest_even_bounds m l : m <= round_nearest_even m l <= m + 1.
Proof.
  destruct l as [|[]]; cbn [round_nearest_even]; try lia.
  destruct (Z.even m); lia.
Qed.

Lemma Zdigits2_le m k : 0 <= k -> 0 <= m < 2 ^ k -> 0 <= Zdigits2 m <= k.
Proof.
  intros Hk Hm. destruct (decide (m = 0)) as [-> | Hne]; [cbn; lia |].
  rewrite Zdigits2_log2 by lia.
  pose proof (Z.log2_nonneg m).
  assert (Z.log2 m < k) by (apply Z.log2_lt_pow2; lia). lia.
Qed.

(** A mantissa below [2^B] at an exponent [ex] rounds to zero or to a
    finite double of the same sign. *)
Lemma round_aux_finite sx mx ex lx B :
  53 <= B -> 0 <= mx < 2 ^ B -> Z.max ex (-1074) + 2 * B <= 971 ->
  binary_round_aux prec emax sx mx ex lx = S754_zero sx
  \/ exists m e, binary_round_aux prec emax sx mx ex lx = S754_finite sx m e
       /\ Z.pos m <= 2 ^ B /\ e <= Z.max ex (-1074) + 2 * B.
Proof.
  intros HB Hmx HE. unfold binary_round_aux, shr_fexp.
  pose proof (Zdigits2_le mx B ltac:(lia) Hmx) as Hd1.
  set (d1 := Zdigits2 mx) in *.
  pose proof (shr_bounds (shr_record_of_loc mx lx) ex (fexp prec emax (d1 + ex) - ex)) as H1.
  rewrite shr_record_of_loc_m in H1. specialize (H1 ltac:(lia)).
  destruct (shr (shr_record_of_loc mx lx) ex (fexp prec emax (d1 + ex) - ex))
    as [mrs1 e1]. cbn [fst snd] in H1. destruct H1 as [Hm1 He1].
  pose proof (round_nearest_even_bounds (shr_m mrs1) (loc_of_shr_record mrs1)) as Hr.
  set (mr := round_nearest_even (shr_m mrs1) (loc_of_shr_record mrs1)) in *.
  assert (Hpow : 2 ^ (B + 1) = 2 * 2 ^ B) by (rewrite Z.pow_add_r by lia; lia).
  pose proof (Zdigits2_le mr (B + 1) ltac:(lia) ltac:(lia)) as Hd2.
  set (d2 := Zdigits2 mr) in *.
  pose proof (shr_bounds (shr_record_of_loc mr loc_Exact) e1
                (fexp prec emax (d2 + e1) - e1)) as H2.
  rewrite shr_record_of_loc_m in H2. specialize (H2 ltac:(lia)).
  destruct (shr (shr_record_of_loc mr loc_Exact) e1 (fexp prec emax (d2 + e1) - e1))
    as [mrs2 e2]. cbn [fst snd] in H2. destruct H2 as [Hm2 He2].
  unfold fexp, emin, prec, emax in He1, He2.
  destruct (shr_m mrs2) as [|m|m]; [left; reflexivity | right | lia].
  assert (Hle : (e2 <=? emax - prec) = true)
    by (apply Z.leb_le; unfold emax, prec; lia).
  rewrite Hle. exists m, e2. split; [reflexivity | lia].
Qed.

(** [update_interval / 1000.0] is a finite double. *)
Lemma interval_seconds_finite ui :
  0 < ui < 2 ^ 53 ->
  exists secs, interval_seconds ui = Some secs
    /\ (secs = S754_zero false
        \/ exists m e, secs = S754_finite false m e
             /\ Z.pos m <= 2 ^ 106 /\ e <= 202).
Proof.
  intros Hui.
  destruct (of_int_normal ui) as (m & e & Hf & Hm & He & _); [lia | lia |].
  replace (ui <? 0) with false in Hf by (symmetry; apply Z.ltb_ge; lia).
  unfold interval_seconds. rewrite Hf. cbn [mbind option_bind].
  unfold fdiv, f1000. eexists. split; [reflexivity |].
  unfold SFdiv, SFdiv_core_binary. cbn [xorb].
  rewrite (Zdigits2_normal (Z.pos m)) by lia.
  change (Zdigits2 (Z.pos 8796093022208000)) with 53.
  replace (Z.min (fexp prec emax (53 + e - (53 + -43))) (e - -43)) with (e - 10)
    by (unfold fexp, emin, prec, emax; lia).
  replace (e - -43 - (e - 10)) with 53 by lia.
  cbv iota. rewrite Z.shiftl_mul_pow2 by lia.
  pose proof (Z_div_mod (Z.pos m * 2 ^ 53) (Z.pos 8796093022208000) eq_refl) as Hdiv.
  destruct (Z.div_eucl (Z.pos m * 2 ^ 53) (Z.pos 8796093022208000)) as [q r].
  destruct Hdiv as [Hq Hr].
  destruct (round_aux_finite false q (e - 10)
              (new_location (Z.pos 8796093022208000) r) 106)
    as [-> | (m' & e' & -> & Hm' & He')]; [lia | lia | lia | left; reflexivity |].
  right. exists m', e'. split; [reflexivity | lia].
Qed.

(** [int(kbps * 1024 * interval_seconds)] does not raise, and has the
    sign of [kbps] or is zero. *)
Lemma bytes_interval_finite s m e secs :
  2 ^ 52 <= Z.pos m < 2 ^ 53 -> -52 <= e <= 0 ->
  secs = S754_zero false
  \/ (exists m2 e2, secs = S754_finite false m2 e2
        /\ Z.pos m2 <= 2 ^ 106 /\ e2 <= 202) ->
  exists n, bytes_interval (S754_finite s m (e - 10)) secs = Some n
    /\ (if s then n <= 0 else 0 <= n).
Proof.
  intros Hm He Hsecs. unfold bytes_interval, f1024. fold two52.
  rewrite fmul_pow2 by lia. replace (e - 10 + -42 + 52) with e by lia.
  destruct Hsecs as [-> | (m2 & e2 & -> & Hm2 & He2)].
  - exists 0. split; [reflexivity | destruct s; lia].
  - unfold fmul, SFmul. rewrite xorb_false_r.
    assert (Hp : 2 ^ 160 = 2 ^ 53 * 2 ^ 106 * 2) by reflexivity.
    assert (Hprod : 0 <= Z.pos (m * m2) < 2 ^ 160).
    { rewrite Pos2Z.inj_mul, Hp. nia. }
    destruct (round_aux_finite s (Z.pos (m * m2)) (e + e2) loc_Exact 160)
      as [-> | (m' & e' & -> & _ & _)]; [lia | exact Hprod | lia | |].
    + exists 0. split; [reflexivity | destruct s; lia].
    + cbn [to_int]. eexists. split; [reflexivity |].
      assert (0 <= Z.shiftl (Z.pos m') e') by (apply Z.shiftl_nonneg; lia).
      destruct s; cbn [cond_Zopp]; lia.
Qed.

End FloatFacts.

(* ================================================================== *)
(** * Text: integers and dates written and read back *)
(* ================================================================== *)

Module TextFacts.

Import PyText.

Lemma digit_not_space c : is_digit c = true -> is_space c = false.
Proof. destruct c as [[] [] [] [] [] [] [] []]; cbv; congruence. Qed.

Lemma string_of_uint_digits d :
  all_chars is_digit (NilEmpty.string_of_uint d) = true.
Proof. induction d; simpl; auto. Qed.

Lemma string_of_uint_nonempty d :
  d <> Nil -> NilEmpty.string_of_uint d <> EmptyString.
Proof. destruct d; simpl; congruence. Qed.

Lemma rstrip_digits s : all_chars is_digit s = true -> rstrip s = s.
Proof.
  induction s as [|c r IH]; simpl; [reflexivity |].
  intros [Hc Hr]%andb_true_iff. rewrite (IH Hr).
  destruct r; [| reflexivity]. now rewrite (digit_not_space c Hc).
Qed.

Lemma strip_digits s : all_chars is_digit s = true -> strip s = s.
Proof.
  intros H. unfold strip. destruct s as [|c r]; [reflexivity |].
  pose proof H as [Hc _]%andb_true_iff.
  cbn [lstrip]. rewrite (digit_not_space c Hc). now apply rstrip_digits.
Qed.

Lemma strip_minus_digits s :
  all_chars is_digit s = true -> s <> EmptyString ->
  strip (String "-" s) = String "-" s.
Proof.
  intros H Hne. unfold strip. cbn [lstrip].
  change (is_space "-") with false. cbv iota.
  cbn [rstrip]. rewrite (rstrip_digits s H). now destruct s.
Qed.

Lemma drop_underscores_digits prev s :
  all_chars is_digit s = true -> s <> EmptyString \/ prev = true ->
  drop_underscores prev s = Some s.
Proof.
  revert prev. induction s as [|c r IH]; intros prev H Hne.
  - destruct Hne as [? | ->]; [congruence | reflexivity].
  - simpl in H. apply andb_true_iff in H as [Hc Hr].
    cbn [drop_underscores]. rewrite Hc, (IH true Hr) by auto. reflexivity.
Qed.

Lemma int_of_digits_uint d :
  d <> Nil -> int_of_digits (NilEmpty.string_of_uint d) = Some (Z.of_uint d).
Proof.
  intros Hd. unfold int_of_digits.
  rewrite drop_underscores_digits
    by (auto using string_of_uint_digits, string_of_uint_nonempty).
  cbn [mbind option_bind].
  replace (NilEmpty.string_of_uint d) with (NilZero.string_of_uint d)
    by now destruct d.
  rewrite NilZero.usu by assumption. reflexivity.
Qed.

Lemma int_of_str_unsigned c r :
  is_digit c = true -> strip (String c r) = String c r ->
  int_of_str (String c r) = int_of_digits (String c r).
Proof.
  intros Hc Hs. unfold int_of_str. rewrite Hs.
  destruct c as [[] [] [] [] [] [] [] []]; try discriminate Hc; reflexivity.
Qed.

Lemma of_uint_to_uint p : Z.of_uint (Pos.to_uint p) = Z.pos p.
Proof. unfold Z.of_uint. now rewrite Unsigned.of_to. Qed.

(** [int(str(n)) == n] *)
Lemma int_of_str_of_int n : int_of_str (str_of_int n) = Some n.
Proof.
  unfold str_of_int. destruct n as [|p|p]; [reflexivity | |].
  - cbn [Z.to_int NilZero.string_of_int].
    pose proof (Unsigned.to_uint_nonnil p) as Hd.
    replace (NilZero.string_of_uint (Pos.to_uint p))
      with (NilEmpty.string_of_uint (Pos.to_uint p))
      by now destruct (Pos.to_uint p).
    pose proof (string_of_uint_digits (Pos.to_uint p)) as Hdig.
    pose proof (string_of_uint_nonempty _ Hd) as Hne.
    destruct (NilEmpty.string_of_uint (Pos.to_uint p)) as [|c r] eqn:E;
      [congruence |].
    pose proof Hdig as [Hc _]%andb_true_iff.
    rewrite int_of_str_unsigned by auto using strip_digits.
    rewrite <- E, int_of_digits_uint by assumption.
    now rewrite of_uint_to_uint.
  - cbn [Z.to_int NilZero.string_of_int].
    pose proof (Unsigned.to_uint_nonnil p) as Hd.
    replace (NilZero.string_of_uint (Pos.to_uint p))
      with (NilEmpty.string_of_uint (Pos.to_uint p))
      by now destruct (Pos.to_uint p).
    unfold int_of_str.
    rewrite strip_minus_digits
      by auto using string_of_uint_digits, string_of_uint_nonempty.
    rewrite int_of_digits_uint by assumption.
    cbn. now rewrite of_uint_to_uint.
Qed.

(** ** Dates *)

Lemma digit_val_char k : digit_val (digit_char k) = Some (k mod 10).
Proof.
  unfold digit_char.
  assert (0 <= k mod 10 < 10) as H by (apply Z.mod_pos_bound; lia).
  destruct (k mod 10) as [|p|p]; try lia.
  - reflexivity.
  - do 4 (destruct p as [p|p|]; try lia; try reflexivity).
Qed.

Lemma match_year_pad4 y r :
  0 <= y <= 9999 ->
  match_year (String (digit_char (y / 1000)) (String (digit_char (y / 100))
               (String (digit_char (y / 10)) (String (digit_char y) r))))
  = Some (y, r).
Proof.
  intros Hy. unfold match_year. rewrite !digit_val_char.
  cbn [mbind option_bind]. do 2 f_equal.
  Z.div_mod_to_equations. lia.
Qed.

Lemma match_month_pad2 m r :
  1 <= m <= 12 ->
  match_month (String (digit_char (m / 10)) (String (digit_char m) r))
  = Some (m, r).
Proof.
  intros Hm. rewrite <- (Z2Nat.id m) by lia.
  assert (1 <= Z.to_nat m <= 12)%nat as Hn by lia.
  generalize dependent (Z.to_nat m). clear. intros n Hn.
  do 13 (destruct n as [|n]; [first [lia | reflexivity] |]). lia.
Qed.

Lemma match_day_pad2 d r :
  1 <= d <= 31 ->
  match_day (String (digit_char (d / 10)) (String (digit_char d) r))
  = Some (d, r).
Proof.
  intros Hd. rewrite <- (Z2Nat.id d) by lia.
  assert (1 <= Z.to_nat d <= 31)%nat as Hn by lia.
  generalize dependent (Z.to_nat d). clear. intros n Hn.
  do 32 (destruct n as [|n]; [first [lia | reflexivity] |]). lia.
Qed.

Lemma days_in_month_le y m : days_in_month y m <= 31.
Proof.
  unfold days_in_month.
  repeat match goal with |- context [if ?b then _ else _] => destruct b end; lia.
Qed.

Lemma append_cons c s t : String c s +:+ t = String c (s +:+ t).
Proof. reflexivity. Qed.

Lemma append_nil t : EmptyString +:+ t = t.
Proof. reflexivity. Qed.

(** [strptime(d.strftime('%Y-%m-%d'), '%Y-%m-%d').date() == d] *)
Lemma strptime_strftime d :
  valid_date d -> strptime_ymd (strftime_ymd d) = Some d.
Proof.
  destruct d as [y m dd]. unfold valid_date. cbn [year month day].
  intros Hv. pose proof Hv as Hv'.
  unfold valid_ymd in Hv'. rewrite !andb_true_iff, !Z.leb_le in Hv'.
  pose proof (days_in_month_le y m).
  unfold strptime_ymd, parse_ymd, strftime_ymd, pad4, pad2.
  cbn [year month day]. rewrite !append_cons, !append_nil.
  rewrite match_year_pad4 by lia. cbn [mbind option_bind expect_dash].
  rewrite match_month_pad2 by lia. cbn [mbind option_bind expect_dash].
  rewrite match_day_pad2 by lia. cbn [mbind option_bind].
  now rewrite Hv.
Qed.

End TextFacts.

(* ================================================================== *)
(** * The sampler and the aggregator *)
(* ================================================================== *)

Module Sampler.

Import PyFloat PyText Disk Monitor Scenario FloatFacts TextFacts.

Lemma data_usage_file_ne_hourly : hourly_data_file <> data_usage_file.
Proof. discriminate. Qed.

(** The sign of a rate. *)
Lemma kbps_of_sign new_bytes old_bytes kbps :
  Z.abs (new_bytes - old_bytes) < 2 ^ 53 ->
  kbps_of new_bytes old_bytes = Some kbps ->
  ltb kbps fzero = (new_bytes <? old_bytes).
Proof.
  intros Hb Hk. destruct (decide (new_bytes = old_bytes)) as [->|Hne].
  - rewrite kbps_of_same in Hk. injection Hk as <-.
    rewrite Z.ltb_irrefl. reflexivity.
  - destruct (kbps_of_normal _ _ Hne Hb) as (m & e & Hk' & _).
    rewrite Hk' in Hk. injection Hk as <-.
    unfold ltb, SFltb, fzero. cbn [SFcompare].
    destruct (Z.ltb_spec (new_bytes - old_bytes) 0), (Z.ltb_spec new_bytes old_bytes);
      try lia; reflexivity.
Qed.

Lemma rollover_update_interval day d s :
  update_interval (rollover day d s).2 = update_interval s.
Proof. unfold rollover. case_decide; reflexivity. Qed.

(** A turn at the interval of 1000 ms, with differences below [2^53]. *)
Lemma measure_step_default os now old_stats d s :
  update_interval s = 1000 ->
  Z.abs (bytes_recv (read_stats os (selected_adapter s)) - bytes_recv old_stats) < 2 ^ 53 ->
  Z.abs (bytes_sent (read_stats os (selected_adapter s)) - bytes_sent old_stats) < 2 ^ 53 ->
  exists down_kbps up_kbps,
    kbps_of (bytes_recv (read_stats os (selected_adapter s))) (bytes_recv old_stats)
      = Some down_kbps
    /\ kbps_of (bytes_sent (read_stats os (selected_adapter s))) (bytes_sent old_stats)
      = Some up_kbps
    /\ measure_step os now old_stats d s
       = let new_stats := read_stats os (selected_adapter s) in
         let r := rollover (dt_date now) d s in
         let s2 := accumulate (dt_hour now)
                     (bytes_recv new_stats - bytes_recv old_stats)
                     (bytes_sent new_stats - bytes_sent old_stats) r.2 in
         (r.1, set_speed_queue (speed_queue s2 ++ [(down_kbps, up_kbps)]) s2,
          Some new_stats).
Proof.
  intros Hi Hr Hs.
  destruct (default_interval_bytes _ _ Hr) as (down & Hkd & Hbd & _).
  destruct (default_interval_bytes _ _ Hs) as (up & Hku & Hbu & _).
  exists down, up. split; [exact Hkd | split; [exact Hku |]].
  unfold measure_step. rewrite Hkd, Hku.
  pose proof (rollover_update_interval (dt_date now) d s) as Hri.
  destruct (rollover (dt_date now) d s) as [d1 s1]. cbn [fst snd] in *.
  rewrite Hri, Hi, interval_seconds_default, Hbd, Hbu. reflexivity.
Qed.


Lemma rollover_speed_queue day d s :
  speed_queue (rollover day d s).2 = speed_queue s.
Proof. unfold rollover. case_decide; reflexivity. Qed.

Lemma hourly_get_insert h hour e : hourly_get (<[hour := e]> h) hour = e.
Proof. unfold hourly_get. now rewrite lookup_insert_eq. Qed.

Lemma accumulate_download hour db ub s :
  download (hourly_get (hourly_data (accumulate hour db ub s)) hour)
  = download (hourly_get (hourly_data s) hour) + db.
Proof. unfold accumulate. cbn. now rewrite !hourly_get_insert. Qed.

(** The bytes of a turn at any interval: the conversion does not raise,
    and a counter that went back gives no positive number of bytes. *)
Lemma bytes_of_turn ui new_bytes old_bytes :
  0 < ui < 2 ^ 53 -> Z.abs (new_bytes - old_bytes) < 2 ^ 53 ->
  exists kbps secs n,
    kbps_of new_bytes old_bytes = Some kbps
    /\ interval_seconds ui = Some secs
    /\ bytes_interval kbps secs = Some n
    /\ (new_bytes < old_bytes -> n <= 0).
Proof.
  intros Hui Hb.
  destruct (interval_seconds_finite ui Hui) as (secs & Hsecs & Hfin).
  destruct (decide (new_bytes = old_bytes)) as [-> | Hne].
  - exists (S754_zero false), secs, 0. rewrite kbps_of_same.
    split; [reflexivity | split; [exact Hsecs | split; [| lia]]].
    destruct Hfin as [-> | (m & e & -> & _)]; reflexivity.
  - destruct (kbps_of_normal _ _ Hne Hb) as (m & e & Hk & Hm & He & _).
    destruct (bytes_interval_finite (new_bytes - old_bytes <? 0) m e secs Hm He Hfin)
      as (n & Hn & Hsign).
    exists (S754_finite (new_bytes - old_bytes <? 0) m (e - 10)), secs, n.
    split; [exact Hk | split; [exact Hsecs | split; [exact Hn |]]].
    intros Hlt. replace (new_bytes - old_bytes <? 0) with true in Hsign
      by (symmetry; apply Z.ltb_lt; lia).
    exact Hsign.
Qed.

Lemma accumulate_upload hour db ub s :
  upload (hourly_get (hourly_data (accumulate hour db ub s)) hour)
  = upload (hourly_get (hourly_data s) hour) + ub.
Proof. unfold accumulate. cbn. now rewrite !hourly_get_insert. Qed.

(** A turn at any interval, with differences below [2^53]: it gets
    through. *)
Lemma measure_step_through os now old_stats d s :
  0 < update_interval s < 2 ^ 53 ->
  Z.abs (bytes_recv (read_stats os (selected_adapter s)) - bytes_recv old_stats) < 2 ^ 53 ->
  Z.abs (bytes_sent (read_stats os (selected_adapter s)) - bytes_sent old_stats) < 2 ^ 53 ->
  exists down_kbps up_kbps secs download_bytes_interval upload_bytes_interval,
    kbps_of (bytes_recv (read_stats os (selected_adapter s))) (bytes_recv old_stats)
      = Some down_kbps
    /\ kbps_of (bytes_sent (read_stats os (selected_adapter s))) (bytes_sent old_stats)
      = Some up_kbps
    /\ interval_seconds (update_interval s) = Some secs
    /\ bytes_interval down_kbps secs = Some download_bytes_interval
    /\ bytes_interval up_kbps secs = Some upload_bytes_interval
    /\ (bytes_recv (read_stats os (selected_adapter s)) < bytes_recv old_stats ->
        download_bytes_interval <= 0)
    /\ (bytes_sent (read_stats os (selected_adapter s)) < bytes_sent old_stats ->
        upload_bytes_interval <= 0)
    /\ measure_step os now old_stats d s
       = let new_stats := read_stats os (selected_adapter s) in
         let r := rollover (dt_date now) d s in
         let s2 := accumulate (dt_hour now) download_bytes_interval
                     upload_bytes_interval r.2 in
         (r.1, set_speed_queue (speed_queue s2 ++ [(down_kbps, up_kbps)]) s2,
          Some new_stats).
Proof.
  intros Hi Hr Hs.
  destruct (bytes_of_turn _ _ _ Hi Hr) as (down & secs & db & Hkd & Hsecs & Hbd & Hsd).
  destruct (bytes_of_turn _ _ _ Hi Hs) as (up & secs' & ub & Hku & Hsecs' & Hbu & Hsu).
  rewrite Hsecs in Hsecs'. injection Hsecs' as <-.
  exists down, up, secs, db, ub.
  repeat (split; [assumption |]).
  unfold measure_step. rewrite Hkd, Hku.
  pose proof (rollover_update_interval (dt_date now) d s) as Hri.
  destruct (rollover (dt_date now) d s) as [d1 s1]. cbn [fst snd] in *.
  rewrite Hri, Hsecs, Hbd, Hbu. reflexivity.
Qed.

(** C2, as the code has it: a counter that went back gives a negative
    rate and no positive number of bytes; nothing is clamped, for the
    bytes received and for the bytes sent alike.  At every interval
    from 1 ms to below [2^53] ms, with differences below [2^53], the
    turn gets through and the rate put on the queue is
    [(new - old) / 1024] exactly, negative when the counter went back,
    and the daily total of that direction does not go up.  At the
    interval of 1000 ms the daily total and the bucket of the hour go
    down by [old - new]. *)
Theorem counter_reset_passes_through os now old_stats d s :
  0 < update_interval s < 2 ^ 53 ->
  Z.abs (bytes_recv (read_stats os (selected_adapter s)) - bytes_recv old_stats) < 2 ^ 53 ->
  Z.abs (bytes_sent (read_stats os (selected_adapter s)) - bytes_sent old_stats) < 2 ^ 53 ->
  exists d' s' down_kbps up_kbps,
    measure_step os now old_stats d s
      = (d', s', Some (read_stats os (selected_adapter s)))
    /\ speed_queue s' = speed_queue s ++ [(down_kbps, up_kbps)]
    /\ (to_Q down_kbps
        == (bytes_recv (read_stats os (selected_adapter s)) - bytes_recv old_stats) # 1024)%Q
    /\ (to_Q up_kbps
        == (bytes_sent (read_stats os (selected_adapter s)) - bytes_sent old_stats) # 1024)%Q
    /\ ltb down_kbps fzero
       = (bytes_recv (read_stats os (selected_adapter s)) <? bytes_recv old_stats)
    /\ ltb up_kbps fzero
       = (bytes_sent (read_stats os (selected_adapter s)) <? bytes_sent old_stats)
    /\ (bytes_recv (read_stats os (selected_adapter s)) < bytes_recv old_stats ->
        daily_download_bytes s' <= daily_download_bytes (rollover (dt_date now) d s).2)
    /\ (bytes_sent (read_stats os (selected_adapter s)) < bytes_sent old_stats ->
        daily_upload_bytes s' <= daily_upload_bytes (rollover (dt_date now) d s).2)
    /\ (update_interval s = 1000 ->
        daily_download_bytes s'
        = daily_download_bytes (rollover (dt_date now) d s).2
          + (bytes_recv (read_stats os (selected_adapter s)) - bytes_recv old_stats)
        /\ daily_upload_bytes s'
           = daily_upload_bytes (rollover (dt_date now) d s).2
             + (bytes_sent (read_stats os (selected_adapter s)) - bytes_sent old_stats)
        /\ download (hourly_get (hourly_data s') (dt_hour now))
           = download (hourly_get (hourly_data (rollover (dt_date now) d s).2) (dt_hour now))
             + (bytes_recv (read_stats os (selected_adapter s)) - bytes_recv old_stats)
        /\ upload (hourly_get (hourly_data s') (dt_hour now))
           = upload (hourly_get (hourly_data (rollover (dt_date now) d s).2) (dt_hour now))
             + (bytes_sent (read_stats os (selected_adapter s)) - bytes_sent old_stats)
        /\ (bytes_recv (read_stats os (selected_adapter s)) < bytes_recv old_stats ->
            daily_download_bytes s' < daily_download_bytes (rollover (dt_date now) d s).2)
        /\ (bytes_sent (read_stats os (selected_adapter s)) < bytes_sent old_stats ->
            daily_upload_bytes s' < daily_upload_bytes (rollover (dt_date now) d s).2)).
Proof.
  intros Hi Hr Hs.
  destruct (measure_step_through os now old_stats d s Hi Hr Hs)
    as (down & up & secs & db & ub & Hkd & Hku & Hsecs & Hbd & Hbu & Hsd & Hsu & Hstep).
  destruct (default_interval_bytes _ _ Hr) as (down' & Hkd' & Hone_d & HQd).
  destruct (default_interval_bytes _ _ Hs) as (up' & Hku' & Hone_u & HQu).
  rewrite Hkd in Hkd'. injection Hkd' as <-.
  rewrite Hku in Hku'. injection Hku' as <-.
  eexists _, _, down, up. split; [exact Hstep |]. cbn zeta.
  split; [cbn; now rewrite rollover_speed_queue |].
  split; [exact HQd |]. split; [exact HQu |].
  split; [exact (kbps_of_sign _ _ _ Hr Hkd) |].
  split; [exact (kbps_of_sign _ _ _ Hs Hku) |].
  split; [intros Hlt; specialize (Hsd Hlt); cbn; lia |].
  split; [intros Hlt; specialize (Hsu Hlt); cbn; lia |].
  intros H1000. rewrite H1000, interval_seconds_default in Hsecs.
  injection Hsecs as <-.
  rewrite Hone_d in Hbd. injection Hbd as <-.
  rewrite Hone_u in Hbu. injection Hbu as <-.
  split; [reflexivity | split; [reflexivity | split; [| split; [| split]]]].
  - cbn [hourly_data set_speed_queue]. apply accumulate_download.
  - cbn [hourly_data set_speed_queue]. apply accumulate_upload.
  - intros Hlt. cbn. lia.
  - intros Hlt. cbn. lia.
Qed.

Lemma counter_reset_passes_through_witness :
  exists d' s' down_kbps up_kbps,
    measure_step (os_total 1024 1024) (mkDatetime day1 13) (mkStats 4096 2048)
        empty_disk (setup_variables day1)
      = (d', s', Some (mkStats 1024 1024))
    /\ speed_queue s' = [(down_kbps, up_kbps)]
    /\ (to_Q down_kbps == (1024 - 2048) # 1024)%Q
    /\ (to_Q up_kbps == (1024 - 4096) # 1024)%Q
    /\ ltb down_kbps fzero = true
    /\ ltb up_kbps fzero = true
    /\ (1024 < 2048 -> daily_download_bytes s' <= 0)
    /\ (1024 < 4096 -> daily_upload_bytes s' <= 0)
    /\ (1000 = 1000 ->
        daily_download_bytes s' = 0 + (1024 - 2048)
        /\ daily_upload_bytes s' = 0 + (1024 - 4096)
        /\ download (hourly_get (hourly_data s') 13) = 0 + (1024 - 2048)
        /\ upload (hourly_get (hourly_data s') 13) = 0 + (1024 - 4096)
        /\ (1024 < 2048 -> daily_download_bytes s' < 0)
        /\ (1024 < 4096 -> daily_upload_bytes s' < 0)).
Proof.
  apply (counter_reset_passes_through (os_total 1024 1024) (mkDatetime day1 13)
           (mkStats 4096 2048) empty_disk (setup_variables day1));
    [split; reflexivity | reflexivity | reflexivity].
Defined.

(** C2, as the specification states it, fails: 2048 bytes before and 1024 now give
    the rate [-1.0] and a daily total of [-1024]. *)
Lemma negative_delta_not_clamped :
  bytes_recv (net_io_counters (os_total 0 1024)) < bytes_recv (mkStats 0 2048)
  /\ speed_queue reset_turn.1.2 = [(S754_finite true two52 (-52), S754_zero false)]
  /\ ltb (S754_finite true two52 (-52)) fzero = true
  /\ daily_download_bytes reset_turn.1.2 = -1024
  /\ daily_download_bytes reset_turn.1.2 < 0.
Proof. repeat split; vm_compute; reflexivity. Qed.

(** C3 at an interval of 2000 ms: 2048 bytes received in the turn give
    the sample 2.0, where the specification gives 2048 / 1024 / 2 = 1.0. *)
Theorem rate_ignores_interval :
  update_interval (cfg_monitor slow_turn) = 2000
  /\ speed_queue (cfg_monitor slow_turn) = [(S754_finite false two52 (-51), fone)]
  /\ (to_Q (S754_finite false two52 (-51)) == 2)%Q
  /\ ~ (to_Q (S754_finite false two52 (-51)) == (2048 # 1024) / (2000 # 1000))%Q.
Proof.
  repeat split; try (vm_compute; reflexivity).
  intros H. vm_compute in H. discriminate H.
Qed.

(** C4 at an interval of 2000 ms: two turns of 2048 bytes received each
    leave a daily total of 8192, twice the 4096 bytes counted. *)
Theorem daily_total_scales_with_interval :
  update_interval (cfg_monitor slow_turns) = 2000
  /\ (2048 - 0) + (4096 - 2048) = 4096
  /\ daily_download_bytes (cfg_monitor slow_turns) = 8192
  /\ daily_download_bytes (cfg_monitor slow_turns) <> 4096.
Proof. repeat split; try (vm_compute; reflexivity). vm_compute. discriminate. Qed.

(** C1 on the first turn of a new day: the totals of the day before are
    written, once, but the hourly table is emptied without being written;
    [clean_exit] from the same state writes both files. *)
Theorem rollover_drops_hourly_table :
  hourly_data (cfg_monitor evening) !! 23 = Some (mkHour 2048 1024)
  /\ written (cfg_disk next_morning)
     = [(data_usage_file,
         [["Date"; "DownloadBytes"; "UploadBytes"]; ["2025-03-09"; "2048"; "1024"]])]
  /\ files (cfg_disk next_morning) !! hourly_data_file = None
  /\ hourly_data (cfg_monitor next_morning) !! 23 = None
  /\ daily_download_bytes (cfg_monitor next_morning) = 1024
  /\ (written (clean_exit (cfg_disk evening) (cfg_monitor evening)).1).*1
     = [data_usage_file; hourly_data_file].
Proof. repeat split; vm_compute; reflexivity. Qed.

Lemma read_stats_missing os adapter :
  net_io_counters_pernic os !! adapter = None ->
  read_stats os adapter = net_io_counters os.
Proof. intros H. unfold read_stats. case_decide; [reflexivity |]. now rewrite H. Qed.

Lemma rollover_set_selected_adapter day d a s :
  rollover day d (set_selected_adapter a s)
  = ((rollover day d s).1, set_selected_adapter a (rollover day d s).2).
Proof. unfold rollover. destruct s. cbn. case_decide; reflexivity. Qed.

Lemma set_selected_adapter_back a s :
  set_selected_adapter (selected_adapter s) (set_selected_adapter a s) = s.
Proof. now destruct s. Qed.

(** A turn depends on the selected adapter through the counters read
    only. *)
Lemma measure_step_adapter os1 os2 now old_stats d s a :
  read_stats os1 (selected_adapter s) = read_stats os2 a ->
  measure_step os1 now old_stats d s
  = (let r := measure_step os2 now old_stats d (set_selected_adapter a s) in
     (r.1.1, set_selected_adapter (selected_adapter s) r.1.2, r.2)).
Proof.
  intros H. unfold measure_step. cbn [selected_adapter set_selected_adapter].
  rewrite H, rollover_set_selected_adapter.
  assert (Hsel : selected_adapter (rollover (dt_date now) d s).2 = selected_adapter s)
    by (unfold rollover; case_decide; reflexivity).
  destruct (kbps_of (bytes_recv (read_stats os2 a)) (bytes_recv old_stats)),
    (kbps_of (bytes_sent (read_stats os2 a)) (bytes_sent old_stats));
    cbn; rewrite ?set_selected_adapter_back; try reflexivity.
  destruct (rollover (dt_date now) d s) as [d1 s1]. cbn in *.
  rewrite <- Hsel.
  destruct (interval_seconds (update_interval s1)); cbn;
    rewrite ?set_selected_adapter_back; try reflexivity.
  repeat case_match; cbn;
    rewrite ?set_selected_adapter_back; try reflexivity.
Qed.

(** C6: when the selected adapter is not in the table of the adapters,
    the turn reads the total of all adapters and goes on as a turn with
    ["All"] selected does; no exception comes of the missing name. *)
Theorem missing_adapter_reads_total os now old_stats d s :
  net_io_counters_pernic os !! selected_adapter s = None ->
  read_stats os (selected_adapter s) = net_io_counters os
  /\ measure_step os now old_stats d s
     = (let r := measure_step os now old_stats d (set_selected_adapter "All" s) in
        (r.1.1, set_selected_adapter (selected_adapter s) r.1.2, r.2))
  /\ (update_interval s = 1000 ->
      Z.abs (bytes_recv (net_io_counters os) - bytes_recv old_stats) < 2 ^ 53 ->
      Z.abs (bytes_sent (net_io_counters os) - bytes_sent old_stats) < 2 ^ 53 ->
      (measure_step os now old_stats d s).2 = Some (net_io_counters os)).
Proof.
  intros Hmiss. pose proof (read_stats_missing _ _ Hmiss) as Hread.
  split; [exact Hread | split].
  - apply measure_step_adapter. now rewrite Hread.
  - intros Hi Hr Hs. rewrite <- Hread in Hr, Hs.
    destruct (measure_step_default os now old_stats d s Hi Hr Hs)
      as (down & up & _ & _ & ->).
    cbn. exact (f_equal Some Hread).
Qed.

Lemma missing_adapter_reads_total_witness :
  read_stats lost_adapter_os "wlan0" = mkStats 1024 2048
  /\ measure_step lost_adapter_os (mkDatetime day1 13) (mkStats 0 0) empty_disk
       lost_adapter_monitor
     = (let r := measure_step lost_adapter_os (mkDatetime day1 13) (mkStats 0 0)
                   empty_disk (set_selected_adapter "All" lost_adapter_monitor) in
        (r.1.1, set_selected_adapter "wlan0" r.1.2, r.2))
  /\ (update_interval lost_adapter_monitor = 1000 ->
      Z.abs (2048 - 0) < 2 ^ 53 -> Z.abs (1024 - 0) < 2 ^ 53 ->
      (measure_step lost_adapter_os (mkDatetime day1 13) (mkStats 0 0) empty_disk
         lost_adapter_monitor).2 = Some (mkStats 1024 2048)).
Proof.
  apply (missing_adapter_reads_total lost_adapter_os (mkDatetime day1 13)
           (mkStats 0 0) empty_disk lost_adapter_monitor).
  reflexivity.
Defined.

Lemma rollover_same_day d s : rollover (last_data_update_day s) d s = (d, s).
Proof. unfold rollover. now rewrite decide_False by auto. Qed.

(** At the interval of 1000 ms the turns of one day add up the
    differences of the counter, to the byte. *)
Lemma default_interval_daily_total turns : forall old_stats d s,
  update_interval s = 1000 -> running s = true ->
  0 <= bytes_recv old_stats < 2 ^ 53 -> 0 <= bytes_sent old_stats < 2 ^ 53 ->
  Forall (calm_turn s) turns ->
  daily_download_bytes (measure_loop turns old_stats d s).2
  = daily_download_bytes s + total (deltas (bytes_recv old_stats) (recv_readings s turns)).
Proof.
  induction turns as [|[os now] turns IH]; intros old_stats d s Hi Hrun Hr Hs Hall.
  - cbn. lia.
  - apply Forall_cons in Hall as [(Hday & Hr' & Hs') Hall]. cbn [fst snd] in *.
    cbn [measure_loop]. rewrite Hrun.
    destruct (measure_step_default os now old_stats d s Hi) as (down & up & _ & _ & ->);
      [lia | lia |].
    cbn zeta. rewrite Hday, rollover_same_day. cbn [fst snd].
    set (new_stats := read_stats os (selected_adapter s)) in *.
    set (s2 := set_speed_queue _ _).
    rewrite (IH new_stats d s2); try assumption; try reflexivity.
    change (recv_readings s2 turns) with (recv_readings s turns).
    change (recv_readings s ((os, now) :: turns))
      with (bytes_recv new_stats :: recv_readings s turns).
    change (daily_download_bytes s2)
      with (daily_download_bytes s + (bytes_recv new_stats - bytes_recv old_stats)).
    cbn [deltas]. unfold total. cbn [foldr]. lia.
Qed.

(** The first turn of a new day at the interval of 1000 ms: the daily
    file receives the totals of the day before, in one write made before
    the totals are set to zero and the bytes of the turn are added; the
    hourly file is not written. *)
Lemma rollover_turn os now old_stats d s :
  dt_date now <> last_data_update_day s ->
  writable d = true ->
  update_interval s = 1000 ->
  Z.abs (bytes_recv (read_stats os (selected_adapter s)) - bytes_recv old_stats) < 2 ^ 53 ->
  Z.abs (bytes_sent (read_stats os (selected_adapter s)) - bytes_sent old_stats) < 2 ^ 53 ->
  let r := measure_step os now old_stats d s in
  written r.1.1 = written d ++ [(data_usage_file, daily_rows s)]
  /\ files r.1.1 !! data_usage_file = Some (daily_rows s)
  /\ files r.1.1 !! hourly_data_file = files d !! hourly_data_file
  /\ last_data_update_day r.1.2 = dt_date now
  /\ daily_download_bytes r.1.2
     = bytes_recv (read_stats os (selected_adapter s)) - bytes_recv old_stats
  /\ daily_upload_bytes r.1.2
     = bytes_sent (read_stats os (selected_adapter s)) - bytes_sent old_stats
  /\ forall hour, hour <> dt_hour now -> hourly_data r.1.2 !! hour = None.
Proof.
  intros Hday Hw Hi Hr Hs.
  destruct (measure_step_default os now old_stats d s Hi Hr Hs)
    as (down & up & _ & _ & ->).
  cbn zeta. unfold rollover. rewrite decide_True by assumption.
  unfold save_daily_data, write_file. rewrite Hw. cbn.
  repeat split.
  - apply lookup_insert_eq.
  - apply lookup_insert_ne. apply not_eq_sym, data_usage_file_ne_hourly.
  - intros hour Hh. rewrite !lookup_insert_ne by auto. apply lookup_empty.
Qed.

End Sampler.

(* ================================================================== *)
(** * The rate buffers *)
(* ================================================================== *)

Module Buffers.

Import PyFloat PyText Disk Monitor Scenario.

Section Deque.
Context {A : Type}.
Implicit Types (d xs : list A) (x : A).

Lemma deque_append_drop d x :
  (length d <= maxlen)%nat ->
  deque_append d x = drop (length (d ++ [x]) - maxlen) (d ++ [x]).
Proof.
  intros Hd. unfold deque_append. cbn zeta.
  assert (length (d ++ [x]) = S (length d)) as Hl
    by (rewrite length_app; cbn; lia).
  case_decide.
  - replace (length (d ++ [x]) - maxlen)%nat with 1%nat by lia. reflexivity.
  - replace (length (d ++ [x]) - maxlen)%nat with 0%nat by lia. reflexivity.
Qed.

Lemma deque_append_length d x :
  (length d <= maxlen)%nat -> (length (deque_append d x) <= maxlen)%nat.
Proof.
  intros Hd. rewrite deque_append_drop by assumption.
  rewrite length_drop, length_app. cbn. lia.
Qed.

(** Appending [xs] one by one keeps the newest [maxlen] items, in the
    order of their arrival. *)
Lemma foldl_deque_append d xs :
  (length d <= maxlen)%nat ->
  foldl deque_append d xs = drop (length (d ++ xs) - maxlen) (d ++ xs).
Proof.
  revert d. induction xs as [|x xs IH]; intros d Hd.
  - cbn. rewrite app_nil_r.
    replace (length d - maxlen)%nat with 0%nat by lia. reflexivity.
  - cbn [foldl]. rewrite IH by now apply deque_append_length.
    rewrite deque_append_drop by assumption.
    assert (length (d ++ [x]) = S (length d)) as Hl
      by (rewrite length_app; cbn; lia).
    rewrite <- drop_app_le by lia.
    rewrite drop_drop, <- app_assoc. cbn [app].
    f_equal. rewrite !length_app, length_drop, !length_app. cbn. lia.
Qed.

Lemma foldl_deque_append_length d xs :
  (length d <= maxlen)%nat -> (length (foldl deque_append d xs) <= maxlen)%nat.
Proof.
  intros Hd. rewrite foldl_deque_append by assumption. rewrite length_drop. lia.
Qed.

Lemma foldl_deque_append_overflow d xs :
  (length d <= maxlen)%nat -> length xs = S maxlen ->
  foldl deque_append d xs = drop 1 xs.
Proof.
  intros Hd Hxs. rewrite foldl_deque_append by assumption.
  rewrite length_app, Hxs.
  replace (length d + S maxlen - maxlen)%nat with (length d + 1)%nat by lia.
  rewrite <- drop_drop. now rewrite drop_app_length.
Qed.

End Deque.

Lemma foldl_push_sample s q :
  download_data (foldl push_sample s q) = foldl deque_append (download_data s) q.*1
  /\ upload_data (foldl push_sample s q) = foldl deque_append (upload_data s) q.*2.
Proof.
  revert s. induction q as [|[down up] q IH]; intros s; [split; reflexivity |].
  cbn [foldl fmap list_fmap]. destruct (IH (push_sample s (down, up))) as [-> ->].
  split; reflexivity.
Qed.

Lemma update_labels_buffers s :
  download_data (update_labels s) = foldl deque_append (download_data s) (speed_queue s).*1
  /\ upload_data (update_labels s) = foldl deque_append (upload_data s) (speed_queue s).*2.
Proof. unfold update_labels. cbn. apply foldl_push_sample. Qed.

(** What each operation does to the two deques. *)
Lemma rollover_buffers day d s :
  download_data (rollover day d s).2 = download_data s
  /\ upload_data (rollover day d s).2 = upload_data s.
Proof. unfold rollover. case_decide; split; reflexivity. Qed.

Lemma measure_step_buffers os now old_stats d s :
  download_data (measure_step os now old_stats d s).1.2 = download_data s
  /\ upload_data (measure_step os now old_stats d s).1.2 = upload_data s.
Proof.
  unfold measure_step.
  pose proof (rollover_buffers (dt_date now) d s) as Hr.
  destruct (rollover (dt_date now) d s) as [d1 s1]. cbn in Hr.
  repeat case_match; cbn; simplify_eq; auto.
Qed.

Lemma load_hourly_data_buffers d s :
  download_data (load_hourly_data d s) = download_data s
  /\ upload_data (load_hourly_data d s) = upload_data s.
Proof. unfold load_hourly_data. case_match; split; reflexivity. Qed.

Lemma daily_rows_loop_buffers today rows s :
  download_data (daily_rows_loop today rows s).1 = download_data s
  /\ upload_data (daily_rows_loop today rows s).1 = upload_data s.
Proof.
  induction rows as [|row rows IH]; cbn; [auto |].
  repeat case_match; cbn; auto.
Qed.

Lemma load_daily_data_buffers today d s :
  download_data (load_daily_data today d s) = download_data s
  /\ upload_data (load_daily_data today d s) = upload_data s.
Proof.
  unfold load_daily_data, daily_scan.
  destruct (files d !! data_usage_file) as [c|].
  - pose proof (daily_rows_loop_buffers today (dict_reader c) s) as H.
    destruct (daily_rows_loop today (dict_reader c) s) as [s1 []]; cbn in H;
      rewrite ?(proj1 (load_hourly_data_buffers _ _)),
              ?(proj2 (load_hourly_data_buffers _ _)); exact H.
  - rewrite (proj1 (load_hourly_data_buffers _ _)),
            (proj2 (load_hourly_data_buffers _ _)). auto.
Qed.

Lemma step_bounded c a :
  buffers_bounded (cfg_monitor c) -> buffers_bounded (cfg_monitor (step c a)).
Proof.
  intros [Hd Hu]. unfold buffers_bounded. destruct a as [os now| |value|value_str];
    cbn [step cfg_monitor].
  - destruct (cfg_old_stats c) as [old_stats|]; [| auto].
    destruct (running (cfg_monitor c)); [| auto].
    pose proof (measure_step_buffers os now old_stats (cfg_disk c) (cfg_monitor c)) as H.
    destruct (measure_step os now old_stats (cfg_disk c) (cfg_monitor c)) as [[d1 s1] o].
    cbn in *. destruct H as [-> ->]. auto.
  - destruct (update_labels_buffers (cfg_monitor c)) as [-> ->].
    split; now apply foldl_deque_append_length.
  - cbn. lia.
  - unfold apply_interval_from_entry. repeat case_match; auto.
Qed.

(** From the start of the program on, no deque ever holds more than
    [maxlen] samples. *)
Lemma run_bounded today os0 d actions :
  buffers_bounded (cfg_monitor (run (startup today os0 d) actions)).
Proof.
  unfold run.
  assert (Hstart : buffers_bounded (cfg_monitor (startup today os0 d))).
  { unfold buffers_bounded, startup. cbn.
    destruct (load_daily_data_buffers today d (setup_variables today)) as [-> ->].
    cbn. lia. }
  revert Hstart. generalize (startup today os0 d).
  induction actions as [|a actions IH]; intros c Hc; cbn; [exact Hc |].
  apply IH. now apply step_bounded.
Qed.

(** C5: the deques of the rates never hold more than 50 samples, and 51
    samples pushed through [update_labels] leave the newest 50, in the
    order they were put on the queue; the oldest is gone. *)
Theorem rate_buffers_bounded_fifo today os0 d actions (q : list (float * float)) :
  length q = S maxlen ->
  buffers_bounded (cfg_monitor (run (startup today os0 d) actions))
  /\ maxlen = 50%nat
  /\ download_data (update_labels
       (set_speed_queue q (cfg_monitor (run (startup today os0 d) actions))))
     = drop 1 q.*1
  /\ upload_data (update_labels
       (set_speed_queue q (cfg_monitor (run (startup today os0 d) actions))))
     = drop 1 q.*2
  /\ buffers_bounded (update_labels
       (set_speed_queue q (cfg_monitor (run (startup today os0 d) actions)))).
Proof.
  intros Hq. pose proof (run_bounded today os0 d actions) as [Hd Hu].
  set (s := cfg_monitor (run (startup today os0 d) actions)) in *.
  pose proof (update_labels_buffers (set_speed_queue q s)) as [Ed Eu].
  change (download_data (set_speed_queue q s)) with (download_data s) in Ed.
  change (upload_data (set_speed_queue q s)) with (upload_data s) in Eu.
  change (speed_queue (set_speed_queue q s)) with q in Ed, Eu.
  split; [split; assumption | split; [reflexivity |]].
  unfold buffers_bounded. rewrite Ed, Eu.
  rewrite !foldl_deque_append_overflow by (rewrite ?length_fmap; assumption).
  repeat split; rewrite length_drop, length_fmap, Hq; lia.
Qed.

Lemma rate_buffers_bounded_fifo_witness :
  buffers_bounded (cfg_monitor (run started []))
  /\ maxlen = 50%nat
  /\ download_data (update_labels
       (set_speed_queue fifty_one_samples (cfg_monitor (run started []))))
     = drop 1 fifty_one_samples.*1
  /\ upload_data (update_labels
       (set_speed_queue fifty_one_samples (cfg_monitor (run started []))))
     = drop 1 fifty_one_samples.*2
  /\ buffers_bounded (update_labels
       (set_speed_queue fifty_one_samples (cfg_monitor (run started [])))).
Proof.
  apply (rate_buffers_bounded_fifo day1 (os_total 0 0) empty_disk []
           fifty_one_samples).
  reflexivity.
Defined.

(** C9: [set_adapter] empties both deques, whatever they held. *)
Theorem set_adapter_clears_buffers value s :
  selected_adapter (set_adapter value s) = value
  /\ download_data (set_adapter value s) = []
  /\ upload_data (set_adapter value s) = []
  /\ (forall x, x ∉ download_data (set_adapter value s))
  /\ (forall x, x ∉ upload_data (set_adapter value s))
  /\ forall c, download_data (cfg_monitor (step c (UiSetAdapter value))) = []
               /\ upload_data (cfg_monitor (step c (UiSetAdapter value))) = [].
Proof.
  repeat split; cbn; try reflexivity; intros x Hx; inversion Hx.
Qed.

End Buffers.

(* ================================================================== *)
(** * Persistence of the daily totals *)
(* ================================================================== *)

Module Persistence.

Import PyFloat PyText Disk Monitor Scenario TextFacts.

(** ** The loop over the rows of the daily file *)

Lemma daily_rows_loop_skip today pre rest s :
  forallb (other_day today) pre = true ->
  daily_rows_loop today (pre ++ rest) s = daily_rows_loop today rest s.
Proof.
  induction pre as [|row pre IH]; [reflexivity |].
  cbn [forallb app daily_rows_loop]. intros [Hrow Hpre]%andb_true_iff.
  unfold other_day in Hrow. destruct (row_date row) as [file_date|]; [| discriminate].
  apply bool_decide_eq_true in Hrow. rewrite decide_False by assumption. auto.
Qed.

Lemma daily_rows_loop_exhausted today rows s :
  forallb (other_day today) rows = true ->
  daily_rows_loop today rows s = (s, Exhausted).
Proof.
  intros H. rewrite <- (app_nil_r rows). now rewrite daily_rows_loop_skip.
Qed.

Lemma daily_rows_loop_raised today bad post s :
  unparsable today bad = true ->
  (daily_rows_loop today (bad :: post) s).2 = Raised.
Proof.
  cbn [daily_rows_loop]. unfold unparsable.
  destruct (row_date bad) as [file_date|]; [| reflexivity].
  intros [Hd Hf]%andb_true_iff. apply bool_decide_eq_true in Hd.
  rewrite decide_True by assumption.
  destruct (field_int bad "DownloadBytes"); [| reflexivity].
  destruct (field_int bad "UploadBytes"); [| reflexivity].
  rewrite !bool_decide_eq_true_2 in Hf by eauto. discriminate.
Qed.

Lemma daily_rows_loop_found today row post dl ul s :
  todays_record today row dl ul ->
  daily_rows_loop today (row :: post) s
  = (set_last_data_update_day today
       (set_daily_upload_bytes ul (set_daily_download_bytes dl s)), Returned).
Proof.
  intros (Hd & Hdl & Hul). cbn [daily_rows_loop].
  rewrite Hd, decide_True, Hdl, Hul by reflexivity. reflexivity.
Qed.

Lemma no_prior_data_exit today d s :
  no_prior_data today d -> (daily_scan today d s).2 <> Returned.
Proof.
  unfold no_prior_data, daily_scan.
  destruct (files d !! data_usage_file) as [c|]; [| discriminate].
  intros [(pre & bad & post & -> & Hpre & Hbad) | Hall].
  - rewrite daily_rows_loop_skip, daily_rows_loop_raised by assumption. discriminate.
  - rewrite daily_rows_loop_exhausted by assumption. discriminate.
Qed.

(** The path of [load_daily_data] below the [try] block. *)
Lemma load_daily_data_reset today d s :
  (daily_scan today d s).2 <> Returned ->
  daily_download_bytes (load_daily_data today d s) = 0
  /\ daily_upload_bytes (load_daily_data today d s) = 0
  /\ last_data_update_day (load_daily_data today d s) = today
  /\ hourly_data (load_daily_data today d s)
     = match files d !! hourly_data_file with
       | Some c => hourly_rows_loop (dict_reader c) ∅
       | None => ∅
       end.
Proof.
  intros Hexit. unfold load_daily_data.
  destruct (daily_scan today d s) as [s1 exit]. cbn in Hexit.
  unfold load_hourly_data.
  destruct exit; [congruence | |];
    destruct (files d !! hourly_data_file); repeat split; reflexivity.
Qed.

(** C7, as the code has it: with no record of today in the daily file
    (the file is missing, or a row that does not parse comes before any
    record of today, or no row is dated today) the loader finds nothing,
    sets both daily totals to zero and the day to today, empties the
    hourly table and then fills it from the hourly file; the table is all
    zero when there is no hourly file. *)
Theorem no_prior_data_resets today d s :
  no_prior_data today d ->
  (daily_scan today d s).2 <> Returned
  /\ (files d !! data_usage_file = None -> daily_scan today d s = (s, Exhausted))
  /\ daily_download_bytes (load_daily_data today d s) = 0
  /\ daily_upload_bytes (load_daily_data today d s) = 0
  /\ last_data_update_day (load_daily_data today d s) = today
  /\ hourly_data (load_daily_data today d s)
     = match files d !! hourly_data_file with
       | Some c => hourly_rows_loop (dict_reader c) ∅
       | None => ∅
       end
  /\ (files d !! hourly_data_file = None ->
      hourly_all_zero (hourly_data (load_daily_data today d s))).
Proof.
  intros Hno. pose proof (no_prior_data_exit today d s Hno) as Hexit.
  destruct (load_daily_data_reset today d s Hexit) as (H1 & H2 & H3 & H4).
  split; [exact Hexit | split; [| repeat split; try assumption]].
  - intros Hmiss. unfold daily_scan. now rewrite Hmiss.
  - intros Hmiss. rewrite H4, Hmiss. intros hour. reflexivity.
Qed.

Lemma no_prior_data_resets_witness :
  (daily_scan day1 hourly_only_disk (setup_variables day1)).2 <> Returned
  /\ (files hourly_only_disk !! data_usage_file = None ->
      daily_scan day1 hourly_only_disk (setup_variables day1)
      = (setup_variables day1, Exhausted))
  /\ daily_download_bytes (load_daily_data day1 hourly_only_disk (setup_variables day1)) = 0
  /\ daily_upload_bytes (load_daily_data day1 hourly_only_disk (setup_variables day1)) = 0
  /\ last_data_update_day (load_daily_data day1 hourly_only_disk (setup_variables day1)) = day1
  /\ hourly_data (load_daily_data day1 hourly_only_disk (setup_variables day1))
     = match files hourly_only_disk !! hourly_data_file with
       | Some c => hourly_rows_loop (dict_reader c) ∅
       | None => ∅
       end
  /\ (files hourly_only_disk !! hourly_data_file = None ->
      hourly_all_zero
        (hourly_data (load_daily_data day1 hourly_only_disk (setup_variables day1)))).
Proof.
  apply (no_prior_data_resets day1 hourly_only_disk (setup_variables day1)).
  exact I.
Defined.

(** C7, as the specification states it, fails: with no daily file and an hourly
    file that has a row for hour 3, the hourly table is not zero after
    the load. *)
Lemma hourly_table_reloaded :
  files hourly_only_disk !! data_usage_file = None
  /\ hourly_get
       (hourly_data (load_daily_data day1 hourly_only_disk (setup_variables day1))) 3
     = mkHour 100 50
  /\ ~ hourly_all_zero
         (hourly_data (load_daily_data day1 hourly_only_disk (setup_variables day1))).
Proof.
  split; [reflexivity | split; [vm_compute; reflexivity |]].
  intros H. specialize (H 3). vm_compute in H. discriminate H.
Qed.

(** ** Saving and loading the daily record *)

Lemma daily_row_fields a b c :
  let row := row_dict ["Date"; "DownloadBytes"; "UploadBytes"] [a; b; c] in
  row !! "Date" = Some a /\ row !! "DownloadBytes" = Some b
  /\ row !! "UploadBytes" = Some c.
Proof. repeat split; vm_compute; reflexivity. Qed.

Lemma dict_reader_daily_rows s :
  dict_reader (daily_rows s)
  = [row_dict ["Date"; "DownloadBytes"; "UploadBytes"]
       [strftime_ymd (last_data_update_day s);
        str_of_int (daily_download_bytes s);
        str_of_int (daily_upload_bytes s)]].
Proof. reflexivity. Qed.

(** The row [save_daily_data] writes is a record of the day saved. *)
Lemma saved_row_is_record s :
  valid_date (last_data_update_day s) ->
  todays_record (last_data_update_day s)
    (row_dict ["Date"; "DownloadBytes"; "UploadBytes"]
       [strftime_ymd (last_data_update_day s);
        str_of_int (daily_download_bytes s);
        str_of_int (daily_upload_bytes s)])
    (daily_download_bytes s) (daily_upload_bytes s).
Proof.
  intros Hv. unfold todays_record, row_date, field_int.
  destruct (daily_row_fields (strftime_ymd (last_data_update_day s))
              (str_of_int (daily_download_bytes s))
              (str_of_int (daily_upload_bytes s))) as (-> & -> & ->).
  cbn [mbind option_bind].
  rewrite strptime_strftime, !int_of_str_of_int by assumption. auto.
Qed.

Lemma save_daily_data_file d s :
  writable d = true ->
  files (save_daily_data d s) !! data_usage_file = Some (daily_rows s).
Proof.
  intros Hw. unfold save_daily_data, write_file. rewrite Hw. cbn.
  apply lookup_insert_eq.
Qed.

(** C8: the totals saved for today come back when the daily file is
    loaded for today. *)
Theorem save_then_load_daily d s s0 :
  writable d = true ->
  valid_date (last_data_update_day s) ->
  daily_download_bytes
    (load_daily_data (last_data_update_day s) (save_daily_data d s) s0)
  = daily_download_bytes s
  /\ daily_upload_bytes
       (load_daily_data (last_data_update_day s) (save_daily_data d s) s0)
     = daily_upload_bytes s
  /\ last_data_update_day
       (load_daily_data (last_data_update_day s) (save_daily_data d s) s0)
     = last_data_update_day s.
Proof.
  intros Hw Hv. unfold load_daily_data, daily_scan.
  rewrite save_daily_data_file, dict_reader_daily_rows by assumption.
  rewrite (daily_rows_loop_found _ _ _ _ _ s0 (saved_row_is_record s Hv)).
  repeat split; reflexivity.
Qed.

Lemma save_then_load_daily_witness :
  daily_download_bytes
    (load_daily_data day1 (save_daily_data empty_disk saved_monitor)
       (setup_variables day1)) = 4096
  /\ daily_upload_bytes
       (load_daily_data day1 (save_daily_data empty_disk saved_monitor)
          (setup_variables day1)) = 1024
  /\ last_data_update_day
       (load_daily_data day1 (save_daily_data empty_disk saved_monitor)
          (setup_variables day1)) = day1.
Proof.
  apply (save_then_load_daily empty_disk saved_monitor (setup_variables day1));
    reflexivity.
Defined.

(** ** A record of today and the hourly file *)

(** C10: when the loop reaches a record of today, the loader takes the
    two totals from it and returns; the hourly table stays as it was,
    empty at the start of the program, whatever the hourly file holds. *)
Theorem todays_record_skips_hourly_file today d s c pre row post dl ul :
  files d !! data_usage_file = Some c ->
  dict_reader c = pre ++ row :: post ->
  forallb (other_day today) pre = true ->
  todays_record today row dl ul ->
  load_daily_data today d s
  = set_last_data_update_day today
      (set_daily_upload_bytes ul (set_daily_download_bytes dl s))
  /\ hourly_data (load_daily_data today d s) = hourly_data s
  /\ (forall hourly_file,
       load_daily_data today
         (mkDisk (<[hourly_data_file := hourly_file]> (files d)) (writable d) (written d)) s
       = load_daily_data today d s)
  /\ (forall os0,
       daily_download_bytes (cfg_monitor (startup today os0 d)) = dl
       /\ daily_upload_bytes (cfg_monitor (startup today os0 d)) = ul
       /\ hourly_data (cfg_monitor (startup today os0 d)) = ∅
       /\ hourly_all_zero (hourly_data (cfg_monitor (startup today os0 d)))).
Proof.
  intros Hfile Hrows Hpre Hrec.
  assert (Hload : forall d' s', files d' !! data_usage_file = Some c ->
            load_daily_data today d' s'
            = set_last_data_update_day today
                (set_daily_upload_bytes ul (set_daily_download_bytes dl s'))).
  { intros d' s' Hf. unfold load_daily_data, daily_scan.
    rewrite Hf, Hrows, daily_rows_loop_skip by assumption.
    now rewrite (daily_rows_loop_found _ _ _ _ _ s' Hrec). }
  split; [now apply Hload | split; [now rewrite Hload | split]].
  - intros hourly_file. rewrite !Hload; [reflexivity | assumption |].
    cbn. rewrite lookup_insert_ne by apply Sampler.data_usage_file_ne_hourly. assumption.
  - intros os0. unfold startup. cbn [cfg_monitor]. rewrite Hload by assumption.
    repeat split.
Qed.

Lemma todays_record_skips_hourly_file_witness :
  load_daily_data day1 restart_disk (setup_variables day1)
  = set_last_data_update_day day1
      (set_daily_upload_bytes 1024 (set_daily_download_bytes 4096 (setup_variables day1)))
  /\ hourly_data (load_daily_data day1 restart_disk (setup_variables day1)) = ∅
  /\ (forall hourly_file,
       load_daily_data day1
         (mkDisk (<[hourly_data_file := hourly_file]> (files restart_disk))
                 (writable restart_disk) (written restart_disk))
         (setup_variables day1)
       = load_daily_data day1 restart_disk (setup_variables day1))
  /\ (forall os0,
       daily_download_bytes (cfg_monitor (startup day1 os0 restart_disk)) = 4096
       /\ daily_upload_bytes (cfg_monitor (startup day1 os0 restart_disk)) = 1024
       /\ hourly_data (cfg_monitor (startup day1 os0 restart_disk)) = ∅
       /\ hourly_all_zero (hourly_data (cfg_monitor (startup day1 os0 restart_disk)))).
Proof.
  apply (todays_record_skips_hourly_file day1 restart_disk (setup_variables day1)
           [ ["Date"; "DownloadBytes"; "UploadBytes"]; ["2025-03-09"; "4096"; "1024"] ]
           [] restart_row [] 4096 1024);
    [reflexivity | reflexivity | reflexivity | repeat split; vm_compute; reflexivity].
Defined.

End Persistence.

(* ================================================================== *)
(** * The sampler: other intervals, invariants, failures *)
(* ================================================================== *)

Module SamplerMore.

Import PyFloat PyText Disk Monitor Views Scenario Cases FloatFacts TextFacts Sampler.

(** ** Intervals that are 1000 ms times a power of two *)

Lemma shiftl_scaled a e k :
  e <= 0 -> Z.shiftl (a * 2 ^ (- e)) (e + k) = Z.shiftl a k.
Proof.
  intros He. rewrite <- Z.shiftl_mul_pow2 by lia.
  rewrite Z.shiftl_shiftl by lia. f_equal. lia.
Qed.

(** The seconds of such an interval are the double [2^k]. *)
Lemma interval_seconds_dyadic ui :
  ui ∈ dyadic_intervals ->
  exists k, -3 <= k <= 2 /\ interval_seconds ui = Some (S754_finite false two52 (k - 52))
            /\ (0 <= k -> ui = 1000 * 2 ^ k) /\ (k < 0 -> ui * 2 ^ (- k) = 1000).
Proof.
  unfold dyadic_intervals. rewrite !elem_of_cons, elem_of_nil.
  intros [-> | [-> | [-> | [-> | [-> | [-> | []]]]]]].
  - exists (-3). repeat split; try lia; reflexivity.
  - exists (-2). repeat split; try lia; reflexivity.
  - exists (-1). repeat split; try lia; reflexivity.
  - exists 0. repeat split; try lia; reflexivity.
  - exists 1. repeat split; try lia; reflexivity.
  - exists 2. repeat split; try lia; reflexivity.
Qed.

Lemma bytes_interval_pow2 s m e k :
  2 ^ 52 <= Z.pos m < 2 ^ 53 -> -52 <= e <= 0 -> -3 <= k <= 2 ->
  bytes_interval (S754_finite s m (e - 10)) (S754_finite false two52 (k - 52))
  = Some (cond_Zopp s (Z.shiftl (Z.pos m) (e + k))).
Proof.
  intros Hm He Hk. unfold bytes_interval, f1024.
  rewrite fmul_pow2 by lia. rewrite fmul_pow2 by lia.
  unfold to_int. do 3 f_equal. lia.
Qed.

(** The signed shift of the bytes is the truncated quotient. *)
Lemma scaled_bytes n ui k :
  -3 <= k <= 2 ->
  (0 <= k -> ui = 1000 * 2 ^ k) -> (k < 0 -> ui * 2 ^ (- k) = 1000) ->
  cond_Zopp (n <? 0) (Z.shiftl (Z.abs n) k) = Z.quot (n * ui) 1000.
Proof.
  intros Hk Hpos Hneg.
  assert (k = -3 \/ k = -2 \/ k = -1 \/ k = 0 \/ k = 1 \/ k = 2) as Hc by lia.
  destruct Hc as [-> | [-> | [-> | [-> | [-> | ->]]]]];
    (try (rewrite Z.shiftl_mul_pow2 by lia; rewrite (Hpos ltac:(lia)));
     try (rewrite Z.shiftl_div_pow2 by lia; specialize (Hneg ltac:(lia)));
     destruct (Z.ltb_spec n 0); cbn [cond_Zopp];
     change (2 ^ 0) with 1 in *; change (2 ^ 1) with 2 in *;
     change (2 ^ 2) with 4 in *; change (2 ^ (- -1)) with 2 in *;
     change (2 ^ (- -2)) with 4 in *; change (2 ^ (- -3)) with 8 in *;
     Z.to_euclidean_division_equations; lia).
Qed.

(** The bytes of one counter in a turn, at such an interval. *)
Lemma dyadic_interval_bytes ui new_bytes old_bytes :
  ui ∈ dyadic_intervals ->
  Z.abs (new_bytes - old_bytes) < 2 ^ 53 ->
  exists kbps secs,
    kbps_of new_bytes old_bytes = Some kbps
    /\ interval_seconds ui = Some secs
    /\ bytes_interval kbps secs = Some (Z.quot ((new_bytes - old_bytes) * ui) 1000)
    /\ (to_Q kbps == (new_bytes - old_bytes) # 1024)%Q.
Proof.
  intros Hui Hb.
  destruct (interval_seconds_dyadic ui Hui) as (k & Hk & Hsecs & Hpos & Hneg).
  destruct (default_interval_bytes _ _ Hb) as (kbps & Hkbps & _ & HQ).
  exists kbps, (S754_finite false two52 (k - 52)).
  split; [exact Hkbps | split; [exact Hsecs | split; [| exact HQ]]].
  destruct (decide (new_bytes = old_bytes)) as [-> | Hne].
  - rewrite kbps_of_same in Hkbps. injection Hkbps as <-.
    rewrite Z.sub_diag. reflexivity.
  - destruct (kbps_of_normal _ _ Hne Hb) as (m & e & Hk' & Hm & He & Hv).
    rewrite Hk' in Hkbps. injection Hkbps as <-.
    rewrite bytes_interval_pow2 by lia.
    rewrite Hv, shiftl_scaled by lia.
    f_equal. now apply scaled_bytes.
Qed.

(** X1: at an interval of 125, 250, 500, 1000, 2000 or 4000 ms the
    sample put on the queue is [(new - old) / 1024], whatever the
    interval, and the bytes added to the totals are the difference of
    the counter times the interval over 1000, truncated towards zero. *)
Theorem dyadic_interval_turn os now old_stats d s :
  update_interval s ∈ dyadic_intervals ->
  Z.abs (bytes_recv (read_stats os (selected_adapter s)) - bytes_recv old_stats) < 2 ^ 53 ->
  Z.abs (bytes_sent (read_stats os (selected_adapter s)) - bytes_sent old_stats) < 2 ^ 53 ->
  exists down_kbps up_kbps,
    (to_Q down_kbps
     == (bytes_recv (read_stats os (selected_adapter s)) - bytes_recv old_stats) # 1024)%Q
    /\ (to_Q up_kbps
        == (bytes_sent (read_stats os (selected_adapter s)) - bytes_sent old_stats) # 1024)%Q
    /\ measure_step os now old_stats d s
       = let new_stats := read_stats os (selected_adapter s) in
         let r := rollover (dt_date now) d s in
         let s2 := accumulate (dt_hour now)
                     (Z.quot ((bytes_recv new_stats - bytes_recv old_stats)
                              * update_interval s) 1000)
                     (Z.quot ((bytes_sent new_stats - bytes_sent old_stats)
                              * update_interval s) 1000) r.2 in
         (r.1, set_speed_queue (speed_queue s2 ++ [(down_kbps, up_kbps)]) s2,
          Some new_stats).
Proof.
  intros Hui Hr Hs.
  destruct (dyadic_interval_bytes _ _ _ Hui Hr) as (down & secs & Hkd & Hsecs & Hbd & HQd).
  destruct (dyadic_interval_bytes _ _ _ Hui Hs) as (up & secs' & Hku & Hsecs' & Hbu & HQu).
  rewrite Hsecs in Hsecs'. injection Hsecs' as <-.
  exists down, up. split; [exact HQd | split; [exact HQu |]].
  unfold measure_step. rewrite Hkd, Hku.
  pose proof (rollover_update_interval (dt_date now) d s) as Hri.
  destruct (rollover (dt_date now) d s) as [d1 s1]. cbn [fst snd] in *.
  rewrite Hri, Hsecs, Hbd, Hbu. reflexivity.
Qed.

Lemma dyadic_interval_turn_witness :
  exists down_kbps up_kbps,
    (to_Q down_kbps == (2049 - 0) # 1024)%Q
    /\ (to_Q up_kbps == (1024 - 0) # 1024)%Q
    /\ measure_step (os_total 1024 2049) (mkDatetime day1 13) (mkStats 0 0)
         empty_disk half_second_monitor
       = let s2 := accumulate 13 1024 512 half_second_monitor in
         (empty_disk, set_speed_queue (speed_queue s2 ++ [(down_kbps, up_kbps)]) s2,
          Some (mkStats 1024 2049)).
Proof.
  apply (dyadic_interval_turn (os_total 1024 2049) (mkDatetime day1 13) (mkStats 0 0)
           empty_disk half_second_monitor);
    [do 2 apply list_elem_of_further; apply list_elem_of_here
    | reflexivity | reflexivity].
Defined.

(** ** The daily totals and the sum of the hourly table *)

Section HourlyTotal.
Context (g : hour_entry -> Z) (Hg : g default_entry = 0).

Lemma hourly_total_insert (h : gmap Z hour_entry) hour e :
  map_fold (λ _ e acc, g e + acc) 0 (<[hour := e]> h)
  = map_fold (λ _ e acc, g e + acc) 0 h - g (hourly_get h hour) + g e.
Proof.
  unfold hourly_get. destruct (h !! hour) as [x|] eqn:Hl; cbn [default from_option id].
  - rewrite <- (insert_delete_eq h hour e).
    rewrite map_fold_insert_L by (intros; lia || apply lookup_delete_eq).
    rewrite (map_fold_delete_L _ _ hour x h) by (intros; lia || assumption).
    lia.
  - rewrite map_fold_insert_L by (intros; lia || assumption). lia.
Qed.

End HourlyTotal.

Lemma accumulate_totals hour db ub s :
  hourly_download_total (hourly_data (accumulate hour db ub s))
  = hourly_download_total (hourly_data s) + db
  /\ hourly_upload_total (hourly_data (accumulate hour db ub s))
     = hourly_upload_total (hourly_data s) + ub.
Proof.
  unfold accumulate, hourly_download_total, hourly_upload_total. cbn.
  rewrite !hourly_total_insert, !hourly_get_insert by reflexivity. cbn. lia.
Qed.

Lemma accumulate_totals_agree hour db ub s :
  totals_agree s -> totals_agree (accumulate hour db ub s).
Proof.
  intros [Hd Hu]. unfold totals_agree.
  destruct (accumulate_totals hour db ub s) as [-> ->].
  cbn. lia.
Qed.

Lemma rollover_totals_agree day d s :
  totals_agree s \/ day <> last_data_update_day s ->
  totals_agree (rollover day d s).2.
Proof.
  unfold rollover. case_decide as Hday; cbn.
  - intros _. split; reflexivity.
  - intros [H|H]; [exact H | contradiction].
Qed.

(** X2: a turn keeps the daily totals equal to the sums of the hourly
    table, at every interval and for all counters, also when it ends in
    an exception; and the first turn of a new day that gets through
    makes them equal whatever they were before. *)
Theorem turn_keeps_totals_agree os now old_stats d s :
  totals_agree s
  \/ (dt_date now <> last_data_update_day s
      /\ (measure_step os now old_stats d s).2 <> None) ->
  totals_agree (measure_step os now old_stats d s).1.2.
Proof.
  intros H.
  assert (Hr : totals_agree (rollover (dt_date now) d s).2)
    by (apply rollover_totals_agree; tauto).
  assert (Hs : (measure_step os now old_stats d s).2 = None ->
               (measure_step os now old_stats d s).1.2 = s -> totals_agree s).
  { intros Hn _. destruct H as [H | [_ H]]; [exact H | contradiction]. }
  unfold measure_step in *.
  destruct (kbps_of (bytes_recv _) (bytes_recv old_stats)); [| now apply Hs].
  destruct (kbps_of (bytes_sent _) (bytes_sent old_stats)); [| now apply Hs].
  destruct (rollover (dt_date now) d s) as [d1 s1]. cbn [fst snd] in *.
  destruct (interval_seconds (update_interval s1)); [| exact Hr].
  destruct (bytes_interval _ _); [| exact Hr].
  destruct (bytes_interval _ _); [| exact Hr].
  cbn [fst snd]. now apply (accumulate_totals_agree _ _ _ s1).
Qed.

Lemma turn_keeps_totals_agree_witness :
  totals_agree
    (measure_step (os_total 1024 2048) (mkDatetime day1 13) (mkStats 0 0)
       empty_disk (setup_variables day1)).1.2.
Proof.
  apply (turn_keeps_totals_agree (os_total 1024 2048) (mkDatetime day1 13)
           (mkStats 0 0) empty_disk (setup_variables day1)).
  left. split; reflexivity.
Defined.

(** ** What a turn and what the handlers leave alone *)

Lemma rollover_frame day d s :
  update_interval (rollover day d s).2 = update_interval s
  /\ selected_adapter (rollover day d s).2 = selected_adapter s
  /\ running (rollover day d s).2 = running s.
Proof. unfold rollover. case_decide; repeat split. Qed.

Lemma measure_step_frame os now old_stats d s :
  update_interval (measure_step os now old_stats d s).1.2 = update_interval s
  /\ selected_adapter (measure_step os now old_stats d s).1.2 = selected_adapter s
  /\ running (measure_step os now old_stats d s).1.2 = running s.
Proof.
  unfold measure_step.
  pose proof (rollover_frame (dt_date now) d s) as Hr.
  destruct (rollover (dt_date now) d s) as [d1 s1]. cbn in Hr.
  repeat case_match; cbn; simplify_eq; auto.
Qed.

Lemma foldl_push_sample_frame s q :
  daily_download_bytes (foldl push_sample s q) = daily_download_bytes s
  /\ daily_upload_bytes (foldl push_sample s q) = daily_upload_bytes s
  /\ last_data_update_day (foldl push_sample s q) = last_data_update_day s
  /\ hourly_data (foldl push_sample s q) = hourly_data s
  /\ update_interval (foldl push_sample s q) = update_interval s
  /\ selected_adapter (foldl push_sample s q) = selected_adapter s
  /\ running (foldl push_sample s q) = running s.
Proof.
  revert s. induction q as [|x q IH]; intros s; [repeat split |].
  cbn [foldl]. destruct (IH (push_sample s x)) as (-> & -> & -> & -> & -> & -> & ->).
  repeat split.
Qed.

(** X3: the sampler and the user interface own different parts of the
    object.  A turn of the sampler leaves the two deques, the interval,
    the selected adapter and the running flag as they are; the refresh,
    the choice of an adapter and the entry of an interval leave the
    files, the daily totals, the day, the hourly table and the
    [old_stats] of the sampler as they are. *)
Theorem step_ownership c a :
  match a with
  | SamplerTurn _ _ =>
      download_data (cfg_monitor (step c a)) = download_data (cfg_monitor c)
      /\ upload_data (cfg_monitor (step c a)) = upload_data (cfg_monitor c)
      /\ update_interval (cfg_monitor (step c a)) = update_interval (cfg_monitor c)
      /\ selected_adapter (cfg_monitor (step c a)) = selected_adapter (cfg_monitor c)
      /\ running (cfg_monitor (step c a)) = running (cfg_monitor c)
  | _ =>
      cfg_disk (step c a) = cfg_disk c
      /\ cfg_old_stats (step c a) = cfg_old_stats c
      /\ daily_download_bytes (cfg_monitor (step c a)) = daily_download_bytes (cfg_monitor c)
      /\ daily_upload_bytes (cfg_monitor (step c a)) = daily_upload_bytes (cfg_monitor c)
      /\ last_data_update_day (cfg_monitor (step c a)) = last_data_update_day (cfg_monitor c)
      /\ hourly_data (cfg_monitor (step c a)) = hourly_data (cfg_monitor c)
  end.
Proof.
  destruct a as [os now| |value|value_str]; cbn [step].
  - destruct (cfg_old_stats c) as [old_stats|]; [| repeat split].
    destruct (running (cfg_monitor c)) eqn:Hrun; [| repeat split; exact Hrun].
    pose proof (measure_step_frame os now old_stats (cfg_disk c) (cfg_monitor c)) as Hf.
    pose proof (Buffers.measure_step_buffers os now old_stats (cfg_disk c) (cfg_monitor c)) as Hb.
    destruct (measure_step os now old_stats (cfg_disk c) (cfg_monitor c)) as [[d1 s1] o].
    cbn in Hf, Hb |- *. destruct Hf as (? & ? & ?), Hb as [? ?].
    repeat split; congruence.
  - cbn [cfg_disk cfg_old_stats cfg_monitor]. unfold update_labels.
    destruct (foldl_push_sample_frame (cfg_monitor c) (speed_queue (cfg_monitor c)))
      as (H1 & H2 & H3 & H4 & _).
    repeat split; assumption.
  - repeat split.
  - cbn. unfold apply_interval_from_entry. repeat case_match; repeat split.
Qed.

(** ** A new day on a disk that cannot be written *)

(** X4: when the daily file cannot be written, the first turn of a new
    day still sets the totals to zero and the hourly table to empty: the
    totals of the day before are then neither in the file nor in memory.
    (Interval of 1000 ms, differences below [2^53].) *)
Theorem rollover_on_unwritable_disk os now old_stats d s :
  writable d = false ->
  dt_date now <> last_data_update_day s ->
  update_interval s = 1000 ->
  Z.abs (bytes_recv (read_stats os (selected_adapter s)) - bytes_recv old_stats) < 2 ^ 53 ->
  Z.abs (bytes_sent (read_stats os (selected_adapter s)) - bytes_sent old_stats) < 2 ^ 53 ->
  (measure_step os now old_stats d s).1.1 = d
  /\ (measure_step os now old_stats d s).2 = Some (read_stats os (selected_adapter s))
  /\ last_data_update_day (measure_step os now old_stats d s).1.2 = dt_date now
  /\ daily_download_bytes (measure_step os now old_stats d s).1.2
     = bytes_recv (read_stats os (selected_adapter s)) - bytes_recv old_stats
  /\ daily_upload_bytes (measure_step os now old_stats d s).1.2
     = bytes_sent (read_stats os (selected_adapter s)) - bytes_sent old_stats
  /\ forall hour, hour <> dt_hour now ->
       hourly_data (measure_step os now old_stats d s).1.2 !! hour = None.
Proof.
  intros Hw Hday Hi Hr Hs.
  destruct (measure_step_default os now old_stats d s Hi Hr Hs)
    as (down & up & _ & _ & ->).
  cbn zeta. unfold rollover. rewrite decide_True by assumption.
  unfold save_daily_data, write_file. rewrite Hw. cbn.
  repeat split.
  intros hour Hh. rewrite !lookup_insert_ne by auto. apply lookup_empty.
Qed.

Lemma rollover_on_unwritable_disk_witness :
  dawn_turn.1.1 = read_only_disk
  /\ dawn_turn.2 = Some (mkStats 1024 3072)
  /\ last_data_update_day dawn_turn.1.2 = day2
  /\ daily_download_bytes dawn_turn.1.2 = 3072 - 2048
  /\ daily_upload_bytes dawn_turn.1.2 = 1024 - 1024
  /\ forall hour, hour <> 0 -> hourly_data dawn_turn.1.2 !! hour = None.
Proof.
  apply (rollover_on_unwritable_disk (os_total 1024 3072) (mkDatetime day2 0)
           (mkStats 1024 2048) read_only_disk saved_monitor);
    [reflexivity | discriminate | reflexivity | reflexivity | reflexivity].
Defined.

(** ** The first turn after another adapter was chosen *)

(** X5: [set_adapter] does not touch the [old_stats] of the sampler, so
    the first turn after the choice subtracts the counters read before
    the choice from the counters of the new adapter.  When the new
    adapter has received less than what was read before (as after
    ["All"]), the sample is negative and the daily total goes down.
    (Interval of 1000 ms, differences below [2^53].) *)
Theorem adapter_switch_turn c value os now old_stats stats :
  cfg_old_stats c = Some old_stats ->
  running (cfg_monitor c) = true ->
  update_interval (cfg_monitor c) = 1000 ->
  value <> "All" ->
  net_io_counters_pernic os !! value = Some stats ->
  bytes_recv stats < bytes_recv old_stats ->
  Z.abs (bytes_recv stats - bytes_recv old_stats) < 2 ^ 53 ->
  Z.abs (bytes_sent stats - bytes_sent old_stats) < 2 ^ 53 ->
  exists down_kbps up_kbps,
    speed_queue (cfg_monitor (run c [UiSetAdapter value; SamplerTurn os now]))
      = speed_queue (cfg_monitor c) ++ [(down_kbps, up_kbps)]
    /\ (to_Q down_kbps == (bytes_recv stats - bytes_recv old_stats) # 1024)%Q
    /\ ltb down_kbps fzero = true
    /\ cfg_old_stats (run c [UiSetAdapter value; SamplerTurn os now]) = Some stats
    /\ daily_download_bytes (cfg_monitor (run c [UiSetAdapter value; SamplerTurn os now]))
       = daily_download_bytes
           (rollover (dt_date now) (cfg_disk c) (cfg_monitor c)).2
         + (bytes_recv stats - bytes_recv old_stats).
Proof.
  intros Hold Hrun Hi Hval Hnic Hlt Hr Hs.
  set (s1 := set_adapter value (cfg_monitor c)).
  assert (Hread : read_stats os (selected_adapter s1) = stats).
  { unfold read_stats. cbn. rewrite decide_False by assumption. now rewrite Hnic. }
  assert (Hi1 : update_interval s1 = 1000) by exact Hi.
  destruct (measure_step_default os now old_stats (cfg_disk c) s1 Hi1)
    as (down & up & Hkd & _ & Hstep); [now rewrite Hread | now rewrite Hread |].
  destruct (default_interval_bytes _ _ Hr) as (down' & Hkd' & _ & HQ).
  rewrite Hread in Hkd. rewrite Hkd in Hkd'. injection Hkd' as <-.
  exists down, up.
  unfold run. cbn [foldl step cfg_old_stats cfg_monitor cfg_disk].
  rewrite Hold. change (running (set_adapter value (cfg_monitor c))) with (running (cfg_monitor c)).
  rewrite Hrun. fold s1. rewrite Hstep. cbn zeta. rewrite Hread.
  cbn [cfg_monitor cfg_old_stats].
  split; [| split; [exact HQ | split; [| split; [reflexivity |]]]].
  - cbn. rewrite rollover_speed_queue. reflexivity.
  - rewrite (kbps_of_sign _ _ _ Hr Hkd). now apply Z.ltb_lt.
  - cbn. unfold rollover, s1. cbn. case_decide; reflexivity.
Qed.

Lemma adapter_switch_turn_witness :
  exists down_kbps up_kbps,
    speed_queue (cfg_monitor (run busy [UiSetAdapter "eth0";
                                        SamplerTurn lost_adapter_os (mkDatetime day1 13)]))
      = speed_queue (cfg_monitor busy) ++ [(down_kbps, up_kbps)]
    /\ (to_Q down_kbps == (1024 - 2048) # 1024)%Q
    /\ ltb down_kbps fzero = true
    /\ cfg_old_stats (run busy [UiSetAdapter "eth0";
                                SamplerTurn lost_adapter_os (mkDatetime day1 13)])
       = Some (mkStats 512 1024)
    /\ daily_download_bytes
         (cfg_monitor (run busy [UiSetAdapter "eth0";
                                 SamplerTurn lost_adapter_os (mkDatetime day1 13)]))
       = daily_download_bytes (rollover day1 (cfg_disk busy) (cfg_monitor busy)).2
         + (1024 - 2048).
Proof.
  apply (adapter_switch_turn busy "eth0" lost_adapter_os (mkDatetime day1 13)
           (mkStats 1024 2048) (mkStats 512 1024));
    [reflexivity | reflexivity | reflexivity | discriminate | reflexivity
    | reflexivity | reflexivity | reflexivity].
Defined.

End SamplerMore.

(* ================================================================== *)
(** * The queue and the deques *)
(* ================================================================== *)

Module BuffersMore.

Import PyFloat PyText Disk Monitor Views Scenario Cases Buffers.

(** X6: a refresh moves every waiting sample into the deques, in the
    order of the queue, keeps the newest [maxlen] of what the deque held
    and what arrived, and leaves the queue empty; a second refresh right
    after changes nothing. *)
Theorem refresh_moves_queue s :
  buffers_bounded s ->
  download_data (update_labels s)
  = drop (length (download_data s ++ (speed_queue s).*1) - maxlen)
         (download_data s ++ (speed_queue s).*1)
  /\ upload_data (update_labels s)
     = drop (length (upload_data s ++ (speed_queue s).*2) - maxlen)
            (upload_data s ++ (speed_queue s).*2)
  /\ speed_queue (update_labels s) = []
  /\ update_labels (update_labels s) = update_labels s.
Proof.
  intros [Hd Hu]. destruct (update_labels_buffers s) as [-> ->].
  rewrite !foldl_deque_append by assumption.
  repeat split.
Qed.

Lemma refresh_moves_queue_witness :
  download_data (update_labels waiting_monitor)
  = drop (length (download_data waiting_monitor ++ (speed_queue waiting_monitor).*1)
          - maxlen)
         (download_data waiting_monitor ++ (speed_queue waiting_monitor).*1)
  /\ upload_data (update_labels waiting_monitor)
     = drop (length (upload_data waiting_monitor ++ (speed_queue waiting_monitor).*2)
             - maxlen)
            (upload_data waiting_monitor ++ (speed_queue waiting_monitor).*2)
  /\ speed_queue (update_labels waiting_monitor) = []
  /\ update_labels (update_labels waiting_monitor) = update_labels waiting_monitor.
Proof.
  apply (refresh_moves_queue waiting_monitor).
  split; cbn; lia.
Defined.

(** X7: [set_adapter] empties the deques but not the queue: the samples
    measured under the adapter chosen before and not yet shown are in
    the deques after the next refresh. *)
Theorem queued_samples_survive_set_adapter value s :
  speed_queue (set_adapter value s) = speed_queue s
  /\ download_data (update_labels (set_adapter value s))
     = drop (length (speed_queue s) - maxlen) (speed_queue s).*1
  /\ upload_data (update_labels (set_adapter value s))
     = drop (length (speed_queue s) - maxlen) (speed_queue s).*2.
Proof.
  split; [reflexivity |].
  destruct (update_labels_buffers (set_adapter value s)) as [-> ->].
  change (download_data (set_adapter value s)) with (@nil float).
  change (upload_data (set_adapter value s)) with (@nil float).
  change (speed_queue (set_adapter value s)) with (speed_queue s).
  rewrite !foldl_deque_append by (cbn; lia).
  cbn [app]. rewrite !length_fmap. split; reflexivity.
Qed.

End BuffersMore.

(* ================================================================== *)
(** * The hourly file, leaving and starting again *)
(* ================================================================== *)

Module PersistenceMore.

Import PyFloat PyText Disk Monitor Views Scenario Cases TextFacts Persistence.

(** ** The hourly table written and read back *)

Lemma hourly_row_fields a b c :
  let row := row_dict ["Hour"; "DownloadBytes"; "UploadBytes"] [a; b; c] in
  row !! "Hour" = Some a /\ row !! "DownloadBytes" = Some b
  /\ row !! "UploadBytes" = Some c.
Proof. repeat split; vm_compute; reflexivity. Qed.

Lemma filter_hourly_rows (h : gmap Z hour_entry) (l : list Z) :
  filter (λ r : list string, r ≠ []) (hourly_row h <$> l) = hourly_row h <$> l.
Proof.
  induction l as [|k l IH]; [reflexivity |].
  cbn [fmap list_fmap]. rewrite filter_cons_True by discriminate.
  now rewrite IH.
Qed.

(** The entry of [hour] as [save_hourly_data] writes it. *)
Lemma hourly_entry_eta (e : hour_entry) : mkHour (download e) (upload e) = e.
Proof. now destruct e. Qed.

Lemma saved_hourly_row_fields (h0 : gmap Z hour_entry) k :
  let row := row_dict ["Hour"; "DownloadBytes"; "UploadBytes"] (hourly_row h0 k) in
  field_int row "Hour" = Some k
  /\ field_int row "DownloadBytes" = Some (download (hourly_get h0 k))
  /\ field_int row "UploadBytes" = Some (upload (hourly_get h0 k)).
Proof.
  unfold hourly_row, field_int.
  destruct (hourly_row_fields (str_of_int k)
              (str_of_int (download (hourly_get h0 k)))
              (str_of_int (upload (hourly_get h0 k)))) as (H1 & H2 & H3).
  cbn zeta in *. rewrite H1, H2, H3. cbn [mbind option_bind].
  now rewrite !int_of_str_of_int.
Qed.

Lemma hourly_rows_loop_saved (h0 : gmap Z hour_entry) (l : list Z) :
  forall acc,
  hourly_rows_loop
    (row_dict ["Hour"; "DownloadBytes"; "UploadBytes"] <$> (hourly_row h0 <$> l)) acc
  = foldl (λ a k, <[k := hourly_get h0 k]> a) acc l.
Proof.
  induction l as [|k l IH]; intros acc; [reflexivity |].
  cbn [fmap list_fmap hourly_rows_loop foldl].
  destruct (saved_hourly_row_fields h0 k) as (-> & -> & ->).
  rewrite IH. f_equal.
  rewrite !Sampler.hourly_get_insert. cbn [download upload].
  rewrite insert_insert_eq. now rewrite hourly_entry_eta.
Qed.

Lemma foldl_insert_lookup (h0 : gmap Z hour_entry) (l : list Z) :
  forall (acc : gmap Z hour_entry) hour,
  foldl (λ a k, <[k := hourly_get h0 k]> a) acc l !! hour
  = if decide (hour ∈ l) then Some (hourly_get h0 hour) else acc !! hour.
Proof.
  induction l as [|k l IH]; intros acc hour.
  - cbn. rewrite decide_False by apply not_elem_of_nil. reflexivity.
  - cbn [foldl]. rewrite IH.
    destruct (decide (hour ∈ l)) as [Hin|Hnin].
    + rewrite decide_True by (now right). reflexivity.
    + destruct (decide (hour = k)) as [->|Hne].
      * rewrite decide_True by left. apply lookup_insert_eq.
      * rewrite decide_False by (rewrite elem_of_cons; intuition).
        now apply lookup_insert_ne.
Qed.

Lemma elem_of_hours hour : hour ∈ hours <-> 0 <= hour < 24.
Proof. unfold hours. rewrite elem_of_seqZ. lia. Qed.

(** The table read from a file that [save_hourly_data] wrote. *)
Lemma load_saved_hourly (h0 acc : gmap Z hour_entry) hour :
  hourly_get (hourly_rows_loop (dict_reader (hourly_rows h0)) acc) hour
  = if decide (0 <= hour < 24) then hourly_get h0 hour else hourly_get acc hour.
Proof.
  unfold hourly_rows. cbn [dict_reader].
  rewrite filter_hourly_rows, hourly_rows_loop_saved.
  unfold hourly_get at 1. rewrite foldl_insert_lookup.
  destruct (decide (hour ∈ hours)) as [Hin|Hnin].
  - rewrite decide_True by now apply elem_of_hours. reflexivity.
  - rewrite decide_False by now rewrite <- elem_of_hours. reflexivity.
Qed.

Lemma foldl_hourly_touch_get (l : list Z) :
  forall (h : gmap Z hour_entry) hour,
  hourly_get (foldl hourly_touch h l) hour = hourly_get h hour.
Proof.
  induction l as [|k l IH]; intros h hour; [reflexivity |].
  cbn [foldl]. rewrite IH. unfold hourly_touch.
  destruct (decide (hour = k)) as [->|Hne].
  - apply Sampler.hourly_get_insert.
  - unfold hourly_get at 1 3. now rewrite lookup_insert_ne.
Qed.

Lemma save_hourly_data_file d s :
  writable d = true ->
  files (save_hourly_data d s).1 !! hourly_data_file = Some (hourly_rows (hourly_data s))
  /\ files (save_hourly_data d s).1 !! data_usage_file = files d !! data_usage_file
  /\ writable (save_hourly_data d s).1 = true.
Proof.
  intros Hw. unfold save_hourly_data, write_file. rewrite Hw. cbn.
  split; [apply lookup_insert_eq | split; [| reflexivity]].
  apply lookup_insert_ne, Sampler.data_usage_file_ne_hourly.
Qed.

(** X8: the hourly table saved and loaded again into an empty table
    reads the same at the hours 0 to 23 and zero at every other hour;
    saving does not change what the table in memory reads. *)
Theorem hourly_save_load_round_trip d s s0 hour :
  writable d = true ->
  hourly_get
    (hourly_data (load_hourly_data (save_hourly_data d s).1 (set_hourly_data ∅ s0))) hour
  = (if decide (0 <= hour < 24) then hourly_get (hourly_data s) hour else default_entry)
  /\ hourly_get (hourly_data (save_hourly_data d s).2) hour
     = hourly_get (hourly_data s) hour.
Proof.
  intros Hw. destruct (save_hourly_data_file d s Hw) as (Hfile & _ & _).
  split.
  - unfold load_hourly_data. rewrite Hfile. cbn [hourly_data set_hourly_data].
    apply load_saved_hourly.
  - unfold save_hourly_data, write_file. rewrite Hw. cbn.
    apply foldl_hourly_touch_get.
Qed.

Lemma hourly_save_load_round_trip_witness :
  hourly_get
    (hourly_data
       (load_hourly_data (save_hourly_data empty_disk (cfg_monitor evening)).1
          (set_hourly_data ∅ (setup_variables day2)))) 23
  = (if decide (0 <= 23 < 24) then hourly_get (hourly_data (cfg_monitor evening)) 23
     else default_entry)
  /\ hourly_get (hourly_data (save_hourly_data empty_disk (cfg_monitor evening)).2) 23
     = hourly_get (hourly_data (cfg_monitor evening)) 23.
Proof.
  apply (hourly_save_load_round_trip empty_disk (cfg_monitor evening)
           (setup_variables day2) 23).
  reflexivity.
Defined.

(** ** A row of the hourly file that does not parse *)

(** X9: [load_hourly_data] stops at the first row with a field that is
    missing or no integer: the rows before it are in the table, the rows
    after it are not read; without the file the table is left as it
    is. *)
Theorem hourly_load_stops_at_bad_row d s c pre bad post :
  files d !! hourly_data_file = Some c ->
  dict_reader c = pre ++ bad :: post ->
  field_int bad "Hour" = None \/ field_int bad "DownloadBytes" = None
    \/ field_int bad "UploadBytes" = None ->
  hourly_data (load_hourly_data d s) = hourly_rows_loop pre (hourly_data s)
  /\ forall d', files d' !! hourly_data_file = None -> load_hourly_data d' s = s.
Proof.
  intros Hfile Hrows Hbad. split.
  - unfold load_hourly_data. rewrite Hfile, Hrows. cbn [hourly_data set_hourly_data].
    generalize (hourly_data s). clear -Hbad.
    induction pre as [|row pre IH]; intros h.
    + cbn. destruct Hbad as [-> | [-> | ->]]; repeat case_match; reflexivity.
    + cbn [app hourly_rows_loop]. repeat case_match; auto.
  - intros d' Hmiss. unfold load_hourly_data. now rewrite Hmiss.
Qed.

Lemma hourly_load_stops_at_bad_row_witness :
  hourly_data (load_hourly_data broken_hourly_disk (setup_variables day1))
  = hourly_rows_loop [row_dict hourly_header ["3"; "100"; "50"]]
      (hourly_data (setup_variables day1))
  /\ forall d', files d' !! hourly_data_file = None ->
       load_hourly_data d' (setup_variables day1) = setup_variables day1.
Proof.
  apply (hourly_load_stops_at_bad_row broken_hourly_disk (setup_variables day1)
           [ hourly_header; ["3"; "100"; "50"]; ["4"; "x"; "7"]; ["5"; "1"; "2"] ]
           [row_dict hourly_header ["3"; "100"; "50"]]
           (row_dict hourly_header ["4"; "x"; "7"])
           [row_dict hourly_header ["5"; "1"; "2"]]);
    [reflexivity | reflexivity | right; left; reflexivity].
Defined.

(** ** Leaving the program and starting it again *)

Lemma clean_exit_files d s :
  writable d = true ->
  files (clean_exit d s).1 !! data_usage_file = Some (daily_rows s)
  /\ files (clean_exit d s).1 !! hourly_data_file = Some (hourly_rows (hourly_data s)).
Proof.
  intros Hw. unfold clean_exit. cbn zeta.
  assert (Hw' : writable (save_daily_data d (set_running false s)) = true).
  { unfold save_daily_data, write_file. now rewrite Hw. }
  destruct (save_hourly_data_file _ (set_running false s) Hw') as (H1 & H2 & _).
  split; [| exact H1].
  rewrite H2, (save_daily_data_file d (set_running false s) Hw). reflexivity.
Qed.

(** X10: after [clean_exit], a start on the same day takes the two
    daily totals back from the daily file, but starts with an empty
    hourly table although the hourly file holds the table that was
    saved. *)
Theorem restart_same_day d s os0 :
  writable d = true ->
  valid_date (last_data_update_day s) ->
  daily_download_bytes (cfg_monitor (startup (last_data_update_day s) os0 (clean_exit d s).1))
  = daily_download_bytes s
  /\ daily_upload_bytes (cfg_monitor (startup (last_data_update_day s) os0 (clean_exit d s).1))
     = daily_upload_bytes s
  /\ hourly_data (cfg_monitor (startup (last_data_update_day s) os0 (clean_exit d s).1)) = ∅
  /\ files (clean_exit d s).1 !! hourly_data_file = Some (hourly_rows (hourly_data s)).
Proof.
  intros Hw Hv. destruct (clean_exit_files d s Hw) as [Hdaily Hhourly].
  unfold startup. cbn [cfg_monitor]. unfold load_daily_data, daily_scan.
  rewrite Hdaily, dict_reader_daily_rows.
  rewrite (daily_rows_loop_found _ _ _ _ _ _ (saved_row_is_record s Hv)).
  repeat split. exact Hhourly.
Qed.

Lemma restart_same_day_witness :
  daily_download_bytes
    (cfg_monitor (startup day1 (os_total 0 0)
                    (clean_exit empty_disk (cfg_monitor evening)).1))
  = daily_download_bytes (cfg_monitor evening)
  /\ daily_upload_bytes
       (cfg_monitor (startup day1 (os_total 0 0)
                       (clean_exit empty_disk (cfg_monitor evening)).1))
     = daily_upload_bytes (cfg_monitor evening)
  /\ hourly_data
       (cfg_monitor (startup day1 (os_total 0 0)
                       (clean_exit empty_disk (cfg_monitor evening)).1)) = ∅
  /\ files (clean_exit empty_disk (cfg_monitor evening)).1 !! hourly_data_file
     = Some (hourly_rows (hourly_data (cfg_monitor evening))).
Proof.
  apply (restart_same_day empty_disk (cfg_monitor evening) (os_total 0 0));
    reflexivity.
Defined.

Lemma saved_row_other_day today s :
  valid_date (last_data_update_day s) ->
  today <> last_data_update_day s ->
  other_day today
    (row_dict ["Date"; "DownloadBytes"; "UploadBytes"]
       [strftime_ymd (last_data_update_day s);
        str_of_int (daily_download_bytes s);
        str_of_int (daily_upload_bytes s)]) = true.
Proof.
  intros Hv Hne. destruct (saved_row_is_record s Hv) as (Hd & _).
  unfold other_day. rewrite Hd. apply bool_decide_eq_true. congruence.
Qed.

(** X11: after [clean_exit], a start on another day begins with both
    daily totals at zero and with the hourly table of the day the
    program was left: the hours 0 to 23 read what they read then. *)
Theorem restart_other_day d s os0 today hour :
  writable d = true ->
  valid_date (last_data_update_day s) ->
  today <> last_data_update_day s ->
  daily_download_bytes (cfg_monitor (startup today os0 (clean_exit d s).1)) = 0
  /\ daily_upload_bytes (cfg_monitor (startup today os0 (clean_exit d s).1)) = 0
  /\ last_data_update_day (cfg_monitor (startup today os0 (clean_exit d s).1)) = today
  /\ hourly_get (hourly_data (cfg_monitor (startup today os0 (clean_exit d s).1))) hour
     = if decide (0 <= hour < 24) then hourly_get (hourly_data s) hour else default_entry.
Proof.
  intros Hw Hv Hne. destruct (clean_exit_files d s Hw) as [Hdaily Hhourly].
  unfold startup. cbn [cfg_monitor].
  assert (Hexit : (daily_scan today (clean_exit d s).1 (setup_variables today)).2 <> Returned).
  { unfold daily_scan. rewrite Hdaily, dict_reader_daily_rows.
    rewrite daily_rows_loop_exhausted; [discriminate |].
    cbn [forallb]. now rewrite saved_row_other_day. }
  destruct (load_daily_data_reset today _ _ Hexit) as (-> & -> & -> & ->).
  rewrite Hhourly. repeat split. apply load_saved_hourly.
Qed.

Lemma restart_other_day_witness :
  daily_download_bytes
    (cfg_monitor (startup day2 (os_total 0 0)
                    (clean_exit empty_disk (cfg_monitor evening)).1)) = 0
  /\ daily_upload_bytes
       (cfg_monitor (startup day2 (os_total 0 0)
                       (clean_exit empty_disk (cfg_monitor evening)).1)) = 0
  /\ last_data_update_day
       (cfg_monitor (startup day2 (os_total 0 0)
                       (clean_exit empty_disk (cfg_monitor evening)).1)) = day2
  /\ hourly_get
       (hourly_data
          (cfg_monitor (startup day2 (os_total 0 0)
                          (clean_exit empty_disk (cfg_monitor evening)).1))) 23
     = if decide (0 <= 23 < 24) then hourly_get (hourly_data (cfg_monitor evening)) 23
       else default_entry.
Proof.
  apply (restart_other_day empty_disk (cfg_monitor evening) (os_total 0 0) day2 23);
    [reflexivity | reflexivity | discriminate].
Defined.

End PersistenceMore.

(* ================================================================== *)
(** * The history and the graph of the last seven days *)
(* ================================================================== *)

Module ViewsFacts.

Import PyFloat PyText Disk Monitor Views Scenario Cases FloatFacts TextFacts Persistence.

(** ** Division by [1024*1024] *)

Lemma of_int_mib : of_int mib = Some (S754_finite false two52 (-32)).
Proof. reflexivity. Qed.

(** The value of a double with the mantissa of an integer. *)
Lemma to_Q_scaled n m e q :
  Z.pos m = Z.abs n * 2 ^ (- e) -> e <= 0 -> 0 <= q ->
  (to_Q (S754_finite (n <? 0) m (e - q)) == inject_Z n / inject_Z (2 ^ q))%Q.
Proof.
  intros Hv He Hq. unfold to_Q.
  assert (Hc : cond_Zopp (n <? 0) (Z.pos m) = n * 2 ^ (- e)).
  { rewrite Hv. destruct (Z.ltb_spec n 0); simpl.
    - rewrite Z.abs_neq by lia. ring.
    - rewrite Z.abs_eq by lia. ring. }
  rewrite Hc.
  replace (e - q) with (- (- e + q)) by lia.
  change (2 # 1)%Q with (inject_Z 2).
  rewrite Qpower_opp. rewrite <- Zpower_Qpower by lia.
  assert (0 < 2 ^ (- e + q)) as Hp by (apply Z.pow_pos_nonneg; lia).
  assert (0 < 2 ^ q) as Hpq by (apply Z.pow_pos_nonneg; lia).
  assert (2 ^ (- e + q) = 2 ^ (- e) * 2 ^ q) as Hsplit
    by (rewrite Z.pow_add_r by lia; reflexivity).
  destruct (2 ^ (- e + q)) as [|p|p] eqn:Ep; try lia.
  destruct (2 ^ q) as [|p'|p'] eqn:Eq; try lia.
  unfold Qeq, Qdiv, Qmult, Qinv, inject_Z. simpl Qnum. simpl Qden.
  rewrite !Pos.mul_1_l, Hsplit. ring.
Qed.

Lemma int_truediv_mib n :
  Z.abs n < 2 ^ 53 ->
  exists x, int_truediv n mib = Some x
            /\ (to_Q x == n # 1048576)%Q
            /\ (n = 0 -> x = fzero).
Proof.
  intros Hb. destruct (decide (n = 0)) as [-> | Hne].
  - exists fzero. repeat split; reflexivity.
  - destruct (of_int_normal n Hne Hb) as (m & e & Hf & Hm & He & Hv).
    exists (S754_finite (n <? 0) m (e - 20)). split; [| split; [| contradiction]].
    + unfold int_truediv. rewrite Hf, of_int_mib. cbn [mbind option_bind].
      unfold fdiv. rewrite sfdiv_pow2 by lia. do 2 f_equal. lia.
    + rewrite (to_Q_scaled n m e 20 Hv) by lia.
      unfold Qeq, Qdiv, Qmult, Qinv, inject_Z. simpl. lia.
Qed.

(** ** [load_data_for_date] *)

Lemma daily_fields a b c :
  let row := row_fields ["Date"; "DownloadBytes"; "UploadBytes"] [a; b; c] in
  row !! "Date" = Some (Some a) /\ row !! "DownloadBytes" = Some (Some b)
  /\ row !! "UploadBytes" = Some (Some c).
Proof. repeat split; vm_compute; reflexivity. Qed.

Lemma dict_reader_fields_daily_rows s :
  dict_reader_fields (daily_rows s)
  = [row_fields ["Date"; "DownloadBytes"; "UploadBytes"]
       [strftime_ymd (last_data_update_day s);
        str_of_int (daily_download_bytes s);
        str_of_int (daily_upload_bytes s)]].
Proof. reflexivity. Qed.

Lemma strftime_inj d1 d2 :
  valid_date d1 -> valid_date d2 -> strftime_ymd d1 = strftime_ymd d2 -> d1 = d2.
Proof.
  intros H1 H2 Heq. apply strptime_strftime in H1, H2.
  rewrite Heq in H1. congruence.
Qed.

(** The two byte counts found in the file that [save_daily_data]
    wrote. *)
Lemma saved_data_for_date d s date :
  writable d = true ->
  valid_date (last_data_update_day s) ->
  valid_date date ->
  data_for_date_bytes date (save_daily_data d s)
  = if decide (date = last_data_update_day s)
    then (daily_download_bytes s, daily_upload_bytes s)
    else (0, 0).
Proof.
  intros Hw Hv Hvd. unfold data_for_date_bytes.
  rewrite save_daily_data_file, dict_reader_fields_daily_rows by assumption.
  cbn [data_rows_loop]. unfold fields_int.
  destruct (daily_fields (strftime_ymd (last_data_update_day s))
              (str_of_int (daily_download_bytes s))
              (str_of_int (daily_upload_bytes s))) as (-> & -> & ->).
  cbn [mbind option_bind]. rewrite !int_of_str_of_int.
  destruct (decide (date = last_data_update_day s)) as [-> | Hne].
  - rewrite decide_True by reflexivity. reflexivity.
  - rewrite decide_False; [reflexivity |].
    intros Heq. apply Hne. symmetry. apply (strftime_inj _ _ Hv Hvd).
    now apply (inj Some).
Qed.

Lemma load_zero_bytes date d :
  data_for_date_bytes date d = (0, 0) ->
  load_data_for_date date d = Some (mkUsage fzero fzero).
Proof. intros H. unfold load_data_for_date. rewrite H. reflexivity. Qed.

(** X12: after [save_daily_data], [load_data_for_date] finds the totals
    of the day that was saved and gives them divided by [1024*1024]; for
    every other day it gives zero for both, the file holding one record
    only.  (Totals below [2^53].) *)
Theorem history_after_save d s date :
  writable d = true ->
  valid_date (last_data_update_day s) ->
  valid_date date ->
  Z.abs (daily_download_bytes s) < 2 ^ 53 ->
  Z.abs (daily_upload_bytes s) < 2 ^ 53 ->
  exists u,
    load_data_for_date date (save_daily_data d s) = Some u
    /\ (date = last_data_update_day s ->
        (to_Q (usage_download u) == daily_download_bytes s # 1048576)%Q
        /\ (to_Q (usage_upload u) == daily_upload_bytes s # 1048576)%Q)
    /\ (date <> last_data_update_day s -> u = mkUsage fzero fzero).
Proof.
  intros Hw Hv Hvd Hdl Hul.
  pose proof (saved_data_for_date d s date Hw Hv Hvd) as Hbytes.
  destruct (decide (date = last_data_update_day s)) as [Heq | Hne].
  - destruct (int_truediv_mib _ Hdl) as (x & Hx & HQx & _).
    destruct (int_truediv_mib _ Hul) as (y & Hy & HQy & _).
    exists (mkUsage x y). unfold load_data_for_date. rewrite Hbytes, Hx, Hy.
    repeat split; try assumption. contradiction.
  - exists (mkUsage fzero fzero). rewrite (load_zero_bytes _ _ Hbytes).
    repeat split; contradiction.
Qed.

Lemma history_after_save_witness :
  exists u,
    load_data_for_date day1 (save_daily_data empty_disk saved_monitor) = Some u
    /\ (day1 = last_data_update_day saved_monitor ->
        (to_Q (usage_download u) == 4096 # 1048576)%Q
        /\ (to_Q (usage_upload u) == 1024 # 1048576)%Q)
    /\ (day1 <> last_data_update_day saved_monitor -> u = mkUsage fzero fzero).
Proof.
  apply (history_after_save empty_disk saved_monitor day1); reflexivity.
Defined.

Lemma data_rows_loop_skip date_str pre rest dl ul :
  Forall (passed_by date_str) pre ->
  data_rows_loop date_str (pre ++ rest) dl ul = data_rows_loop date_str rest dl ul.
Proof.
  induction 1 as [|row pre (field & Hf & Hne) _ IH]; [reflexivity |].
  cbn [app data_rows_loop]. rewrite Hf, decide_False by assumption. exact IH.
Qed.

(** X13: when the record of the date has a download total that parses
    and an upload total that does not, [load_data_for_date] keeps the
    download total and gives zero for the upload. *)
Theorem history_keeps_half_record date d c pre row post dl :
  files d !! data_usage_file = Some c ->
  dict_reader_fields c = pre ++ row :: post ->
  Forall (passed_by (strftime_ymd date)) pre ->
  row !! "Date" = Some (Some (strftime_ymd date)) ->
  fields_int row "DownloadBytes" = Some dl ->
  fields_int row "UploadBytes" = None ->
  data_for_date_bytes date d = (dl, 0)
  /\ load_data_for_date date d
     = (x ← int_truediv dl mib; Some (mkUsage x fzero)).
Proof.
  intros Hfile Hrows Hpre Hd Hdl Hul.
  assert (Hb : data_for_date_bytes date d = (dl, 0)).
  { unfold data_for_date_bytes. rewrite Hfile, Hrows, data_rows_loop_skip by assumption.
    cbn [data_rows_loop]. rewrite Hd, decide_True, Hdl, Hul by reflexivity.
    reflexivity. }
  split; [exact Hb |]. unfold load_data_for_date. rewrite Hb.
  destruct (int_truediv dl mib); reflexivity.
Qed.

Lemma history_keeps_half_record_witness :
  data_for_date_bytes day1 half_record_disk = (4096, 0)
  /\ load_data_for_date day1 half_record_disk
     = (x ← int_truediv 4096 mib; Some (mkUsage x fzero)).
Proof.
  apply (history_keeps_half_record day1 half_record_disk
           [ daily_header; ["2025-03-09"; "4096"; "abc"] ]
           [] (row_fields daily_header ["2025-03-09"; "4096"; "abc"]) [] 4096);
    [reflexivity | reflexivity | constructor | reflexivity | reflexivity | reflexivity].
Defined.

(** X14: [load_data_for_date] compares the text of the date, where
    [load_daily_data] compares the date parsed: a record whose date is
    written in another way than [strftime] writes it (["2025-3-9"]) gives
    the totals of today at the start of the program and zero in the
    history of the same day. *)
Theorem history_compares_text date d s t a b dl ul :
  files d !! data_usage_file
  = Some ([ ["Date"; "DownloadBytes"; "UploadBytes"]; [t; a; b] ] : csv) ->
  strptime_ymd t = Some date ->
  t <> strftime_ymd date ->
  int_of_str a = Some dl ->
  int_of_str b = Some ul ->
  daily_download_bytes (load_daily_data date d s) = dl
  /\ daily_upload_bytes (load_daily_data date d s) = ul
  /\ load_data_for_date date d = Some (mkUsage fzero fzero).
Proof.
  intros Hfile Ht Hne Ha Hb.
  assert (Hrec : todays_record date
            (row_dict ["Date"; "DownloadBytes"; "UploadBytes"] [t; a; b]) dl ul).
  { unfold todays_record, row_date, field_int.
    destruct (daily_row_fields t a b) as (-> & -> & ->).
    cbn [mbind option_bind]. auto. }
  split; [| split].
  - unfold load_daily_data, daily_scan. rewrite Hfile.
    change (dict_reader _)
      with [row_dict ["Date"; "DownloadBytes"; "UploadBytes"] [t; a; b]].
    now rewrite (daily_rows_loop_found _ _ _ _ _ s Hrec).
  - unfold load_daily_data, daily_scan. rewrite Hfile.
    change (dict_reader _)
      with [row_dict ["Date"; "DownloadBytes"; "UploadBytes"] [t; a; b]].
    now rewrite (daily_rows_loop_found _ _ _ _ _ s Hrec).
  - apply load_zero_bytes. unfold data_for_date_bytes. rewrite Hfile.
    change (dict_reader_fields _)
      with [row_fields ["Date"; "DownloadBytes"; "UploadBytes"] [t; a; b]].
    cbn [data_rows_loop].
    destruct (daily_fields t a b) as (-> & _ & _).
    rewrite decide_False by congruence. reflexivity.
Qed.

Lemma history_compares_text_witness :
  daily_download_bytes (load_daily_data day1 short_date_disk (setup_variables day1)) = 4096
  /\ daily_upload_bytes (load_daily_data day1 short_date_disk (setup_variables day1)) = 1024
  /\ load_data_for_date day1 short_date_disk = Some (mkUsage fzero fzero).
Proof.
  apply (history_compares_text day1 short_date_disk (setup_variables day1)
           "2025-3-9" "4096" "1024" 4096 1024);
    [reflexivity | reflexivity | discriminate | reflexivity | reflexivity].
Defined.

(** ** [plot_daily_usage_graph] *)

Lemma days_in_month_ge y m : 28 <= days_in_month y m.
Proof.
  unfold days_in_month.
  repeat match goal with |- context [if ?b then _ else _] => destruct b end; lia.
Qed.

Lemma valid_date_bounds d :
  valid_date d <->
  1 <= year d <= 9999 /\ 1 <= month d <= 12
  /\ 1 <= day d <= days_in_month (year d) (month d).
Proof.
  unfold valid_date, valid_ymd. rewrite !andb_true_iff, !Z.leb_le. lia.
Qed.

Lemma prev_day_valid d d' :
  valid_date d -> prev_day d = Some d' ->
  valid_date d' /\ date_key d' < date_key d.
Proof.
  rewrite !valid_date_bounds. intros (Hy & Hm & Hd) Hp.
  pose proof (days_in_month_le (year d) (month d)).
  unfold prev_day in Hp. unfold date_key.
  destruct (Z.ltb_spec 1 (day d)); [injection Hp as <-; cbn; lia |].
  destruct (Z.ltb_spec 1 (month d)).
  { injection Hp as <-. cbn.
    pose proof (days_in_month_ge (year d) (month d - 1)).
    pose proof (days_in_month_le (year d) (month d - 1)). lia. }
  destruct (Z.ltb_spec 1 (year d)); [| discriminate].
  injection Hp as <-. cbn. change (days_in_month (year d - 1) 12) with 31. lia.
Qed.

Lemma date_minus_days_valid today i di :
  valid_date today -> date_minus_days today i = Some di ->
  valid_date di /\ ((0 < i)%nat -> date_key di < date_key today)
  /\ (i = 0%nat -> di = today).
Proof.
  intros Hv. revert di. induction i as [|i IH]; intros di Hi.
  - injection Hi as <-. repeat split; auto; lia.
  - cbn [date_minus_days] in Hi.
    destruct (date_minus_days today i) as [dj|]; [| discriminate].
    destruct (IH dj eq_refl) as (Hvj & Hlt & Heq).
    destruct (prev_day_valid dj di Hvj Hi) as [Hvi Hk].
    repeat split; [exact Hvi | | lia].
    intros _. destruct i; [rewrite <- (Heq eq_refl); exact Hk |].
    specialize (Hlt ltac:(lia)). lia.
Qed.

Lemma digit_char_not_dash k : Ascii.eqb (digit_char k) "-" = false.
Proof.
  unfold digit_char.
  assert (0 <= k mod 10 < 10) as H by (apply Z.mod_pos_bound; lia).
  destruct (k mod 10) as [|p|p]; try lia.
  - reflexivity.
  - do 4 (destruct p as [p|p|]; try lia; try reflexivity).
Qed.

Lemma split_strftime d :
  split "-" (strftime_ymd d) = [pad4 (year d); pad2 (month d); pad2 (day d)].
Proof.
  unfold strftime_ymd, pad4, pad2. rewrite !append_cons, !append_nil.
  cbn [split]. rewrite !digit_char_not_dash. reflexivity.
Qed.

Lemma date_minus_days_pred today i di :
  date_minus_days today (S i) = Some di ->
  exists dj, date_minus_days today i = Some dj /\ prev_day dj = Some di.
Proof.
  cbn [date_minus_days]. intros H.
  destruct (date_minus_days today i) as [dj|]; [| discriminate].
  exists dj. split; [reflexivity | exact H].
Qed.

(** The day [i] days before the day saved, as the graph reads it. *)
Lemma graph_day_after_save d s i di :
  writable d = true ->
  valid_date (last_data_update_day s) ->
  Z.abs (daily_download_bytes s) < 2 ^ 53 ->
  Z.abs (daily_upload_bytes s) < 2 ^ 53 ->
  date_minus_days (last_data_update_day s) i = Some di ->
  exists u,
    daily_graph_day (last_data_update_day s) (save_daily_data d s) i
    = Some (strftime_ymd di, u)
    /\ ((0 < i)%nat -> u = mkUsage fzero fzero)
    /\ (i = 0%nat ->
        (to_Q (usage_download u) == daily_download_bytes s # 1048576)%Q
        /\ (to_Q (usage_upload u) == daily_upload_bytes s # 1048576)%Q).
Proof.
  intros Hw Hv Hdl Hul Hi.
  destruct (date_minus_days_valid _ _ _ Hv Hi) as (Hvi & Hlt & Heq).
  pose proof (saved_data_for_date d s di Hw Hv Hvi) as Hbytes.
  unfold daily_graph_day. rewrite Hi. cbn [mbind option_bind].
  destruct i as [|i].
  - rewrite (Heq eq_refl) in *. rewrite decide_True in Hbytes by reflexivity.
    destruct (int_truediv_mib _ Hdl) as (x & Hx & HQx & _).
    destruct (int_truediv_mib _ Hul) as (y & Hy & HQy & _).
    exists (mkUsage x y). unfold load_data_for_date. rewrite Hbytes, Hx, Hy.
    repeat split; try assumption; lia.
  - assert (di <> last_data_update_day s) as Hne.
    { intros ->. specialize (Hlt ltac:(lia)). lia. }
    rewrite decide_False in Hbytes by assumption.
    exists (mkUsage fzero fzero). rewrite (load_zero_bytes _ _ Hbytes).
    repeat split; lia || reflexivity.
Qed.

(** X15: after [save_daily_data], the graph of the last seven days has
    seven bars for each direction, the oldest day first; the six days
    before the day saved are zero and the last bar is the total saved
    over [1024*1024]; the label under it is the day of the month.
    (Totals below [2^53]; the sixth day before exists.) *)
Theorem daily_graph_after_save d s first_day :
  writable d = true ->
  valid_date (last_data_update_day s) ->
  Z.abs (daily_download_bytes s) < 2 ^ 53 ->
  Z.abs (daily_upload_bytes s) < 2 ^ 53 ->
  date_minus_days (last_data_update_day s) 6 = Some first_day ->
  exists g x y,
    plot_daily_usage_graph (last_data_update_day s) (save_daily_data d s) = Some g
    /\ graph_download_values g = replicate 6 fzero ++ [x]
    /\ graph_upload_values g = replicate 6 fzero ++ [y]
    /\ (to_Q x == daily_download_bytes s # 1048576)%Q
    /\ (to_Q y == daily_upload_bytes s # 1048576)%Q
    /\ length (graph_dates g) = 7%nat
    /\ head (graph_dates g) = Some (strftime_ymd first_day)
    /\ last (graph_dates g) = Some (strftime_ymd (last_data_update_day s))
    /\ length (graph_labels g) = 7%nat
    /\ last (graph_labels g) = Some (pad2 (day (last_data_update_day s))).
Proof.
  intros Hw Hv Hdl Hul H6.
  set (today := last_data_update_day s) in *.
  pose proof H6 as M6.
  destruct (date_minus_days_pred _ _ _ M6) as (d5 & M5 & _).
  destruct (date_minus_days_pred _ _ _ M5) as (d4 & M4 & _).
  destruct (date_minus_days_pred _ _ _ M4) as (d3 & M3 & _).
  destruct (date_minus_days_pred _ _ _ M3) as (d2 & M2 & _).
  destruct (date_minus_days_pred _ _ _ M2) as (d1 & M1 & _).
  assert (M0 : date_minus_days today 0 = Some today) by reflexivity.
  destruct (graph_day_after_save d s 0 _ Hw Hv Hdl Hul M0) as (u0 & G0 & _ & HQ).
  destruct (HQ eq_refl) as [HQx HQy].
  destruct (graph_day_after_save d s 1 _ Hw Hv Hdl Hul M1) as (u1 & G1 & Z1 & _).
  destruct (graph_day_after_save d s 2 _ Hw Hv Hdl Hul M2) as (u2 & G2 & Z2 & _).
  destruct (graph_day_after_save d s 3 _ Hw Hv Hdl Hul M3) as (u3 & G3 & Z3 & _).
  destruct (graph_day_after_save d s 4 _ Hw Hv Hdl Hul M4) as (u4 & G4 & Z4 & _).
  destruct (graph_day_after_save d s 5 _ Hw Hv Hdl Hul M5) as (u5 & G5 & Z5 & _).
  destruct (graph_day_after_save d s 6 _ Hw Hv Hdl Hul M6) as (u6 & G6 & Z6 & _).
  rewrite (Z1 ltac:(lia)) in G1. rewrite (Z2 ltac:(lia)) in G2.
  rewrite (Z3 ltac:(lia)) in G3. rewrite (Z4 ltac:(lia)) in G4.
  rewrite (Z5 ltac:(lia)) in G5. rewrite (Z6 ltac:(lia)) in G6.
  fold today in G0, G1, G2, G3, G4, G5, G6.
  eexists _, (usage_download u0), (usage_upload u0).
  unfold plot_daily_usage_graph.
  change (seq 0 7) with [0; 1; 2; 3; 4; 5; 6]%nat.
  cbn [mapM]. rewrite G0, G1, G2, G3, G4, G5, G6.
  cbn [mbind option_bind mret option_ret fmap list_fmap fst snd reverse rev_append
       usage_download usage_upload option_fmap option_map].
  cbn [mapM]. rewrite !split_strftime.
  cbn [lookup list_lookup mbind option_bind mret option_ret fmap option_fmap option_map].
  split; [reflexivity |]. cbn.
  repeat split; assumption.
Qed.

Lemma daily_graph_after_save_witness :
  exists g x y,
    plot_daily_usage_graph day1 (save_daily_data empty_disk saved_monitor) = Some g
    /\ graph_download_values g = replicate 6 fzero ++ [x]
    /\ graph_upload_values g = replicate 6 fzero ++ [y]
    /\ (to_Q x == 4096 # 1048576)%Q
    /\ (to_Q y == 1024 # 1048576)%Q
    /\ length (graph_dates g) = 7%nat
    /\ head (graph_dates g) = Some (strftime_ymd (Date 2025 3 3))
    /\ last (graph_dates g) = Some (strftime_ymd day1)
    /\ length (graph_labels g) = 7%nat
    /\ last (graph_labels g) = Some (pad2 9).
Proof.
  apply (daily_graph_after_save empty_disk saved_monitor (Date 2025 3 3));
    reflexivity.
Defined.

End ViewsFacts.

(* ================================================================== *)
(** * The text of a number of bytes *)
(* ================================================================== *)

Module FormatFacts.
Import PyFloat PyText Disk Monitor Views Scenario Cases FloatFacts TextFacts Persistence ViewsFacts.

(** ** [format_bytes] *)

Lemma leb_f1024 m e :
  2 ^ 52 <= Z.pos m < 2 ^ 53 ->
  leb f1024 (S754_finite false m e) = (-42 <=? e).
Proof.
  intros Hm. unfold leb, SFleb, f1024. cbn [SFcompare].
  destruct (Z.compare_spec (-42) e) as [<- | Hlt | Hgt].
  - change (Pos.compare_cont Eq two52 m) with (Pos.compare two52 m).
    destruct (Pos.compare_spec two52 m) as [<- | H | H]; try reflexivity.
    apply Pos2Z.pos_lt_pos in H. change (Z.pos two52) with (2 ^ 52) in H. lia.
  - symmetry. apply Z.leb_le. lia.
  - symmetry. apply Z.leb_gt. lia.
Qed.

(** The loop on a positive normal double: every division lowers the
    exponent by ten, until the value is below 1024 or the units are
    used up. *)
Lemma format_loop_float room : forall m e unit_index,
  2 ^ 52 <= Z.pos m < 2 ^ 53 -> -1000 <= e <= 0 ->
  format_loop room (Float (S754_finite false m e)) unit_index
  = Some (Float (S754_finite false m
                   (e - 10 * Z.min (Z.of_nat room) (Z.max 0 ((e + 52) / 10)))),
          (unit_index + Z.to_nat (Z.min (Z.of_nat room) (Z.max 0 ((e + 52) / 10))))%nat).
Proof.
  induction room as [|room IH]; intros m e unit_index Hm He.
  - cbn [format_loop].
    replace (Z.min (Z.of_nat 0) (Z.max 0 ((e + 52) / 10))) with 0 by lia.
    rewrite Z.mul_0_r, Z.sub_0_r, Nat.add_0_r. reflexivity.
  - cbn [format_loop ge_1024 div_1024]. rewrite leb_f1024 by assumption.
    destruct (Z.leb_spec (-42) e) as [Hge | Hlt].
    + unfold fdiv, f1024. rewrite sfdiv_pow2 by lia.
      cbn [mbind option_bind]. replace (e - -42 - 52) with (e - 10) by lia.
      rewrite IH by lia.
      assert ((e - 10 + 52) / 10 = (e + 52) / 10 - 1) as ->
        by (Z.to_euclidean_division_equations; lia).
      assert (1 <= (e + 52) / 10) by (Z.to_euclidean_division_equations; lia).
      do 2 f_equal; [do 2 f_equal |]; lia.
    + assert ((e + 52) / 10 <= 0) by (Z.to_euclidean_division_equations; lia).
      replace (Z.min (Z.of_nat (S room)) (Z.max 0 ((e + 52) / 10))) with 0 by lia.
      rewrite Z.mul_0_r, Z.sub_0_r, Nat.add_0_r. reflexivity.
Qed.

Lemma normal_exponent n m e :
  0 < n -> 2 ^ 52 <= Z.pos m < 2 ^ 53 -> e <= 0 ->
  Z.pos m = Z.abs n * 2 ^ (- e) -> e = Z.log2 n - 52.
Proof.
  intros Hn Hm He Hv. rewrite Z.abs_eq in Hv by lia.
  assert (Z.log2 (Z.pos m) = 52) as H52 by (apply Z.log2_unique; lia).
  rewrite Hv, Z.log2_mul_pow2 in H52 by lia. lia.
Qed.

(** X16: for a number of bytes below [2^53], [format_bytes] divides by
    1024 as often as the number has whole powers of 1024 in it, four
    times at most: the unit is the one of that power and the value is
    the number over that power, exactly; below 1024, and for a negative
    number, the integer is shown in bytes. *)
Theorem format_bytes_unit n :
  n < 2 ^ 53 ->
  exists v unit,
    format_bytes n = Some (v, unit)
    /\ units !! Z.to_nat (Z.min 4 (Z.log2 n / 10)) = Some unit
    /\ (n < 1024 -> v = Int n /\ unit = "Bytes")
    /\ (1024 <= n ->
        exists x, v = Float x
          /\ (to_Q x
              == inject_Z n / inject_Z (2 ^ (10 * Z.min 4 (Z.log2 n / 10))))%Q).
Proof.
  intros Hb. unfold format_bytes.
  change (format_loop 4 (Int n) 0)
    with (if 1024 <=? n
          then x ← int_truediv n 1024; format_loop 3 (Float x) 1
          else Some (Int n, 0%nat)).
  destruct (Z.leb_spec 1024 n) as [Hge | Hlt].
  - assert (10 <= Z.log2 n < 53) as Hlog.
    { split; [apply Z.log2_le_pow2; lia | apply Z.log2_lt_pow2; lia]. }
    destruct (kbps_of_normal n 0) as (m & e & Hk & Hm & He & Hv);
      [lia | rewrite Z.sub_0_r, Z.abs_eq; lia |].
    rewrite Z.sub_0_r in Hk, Hv. unfold kbps_of in Hk. rewrite Z.sub_0_r in Hk.
    rewrite Hk. cbn [mbind option_bind].
    replace (n <? 0) with false in * by (symmetry; apply Z.ltb_ge; lia).
    pose proof (normal_exponent n m e ltac:(lia) Hm ltac:(lia) Hv) as He'.
    rewrite format_loop_float by lia.
    set (t := Z.min (Z.of_nat 3) (Z.max 0 ((e - 10 + 52) / 10))).
    assert (Ht : 1 + t = Z.min 4 (Z.log2 n / 10)).
    { unfold t. subst e. Z.to_euclidean_division_equations; lia. }
    assert (0 <= t <= 3) as Htr by (unfold t; lia).
    cbn [mbind option_bind].
    replace (1 + Z.to_nat t)%nat with (Z.to_nat (Z.min 4 (Z.log2 n / 10))) by lia.
    rewrite <- Ht.
    assert (exists unit, units !! Z.to_nat (1 + t) = Some unit /\ unit <> "Bytes")
      as (unit & Hu & _).
    { assert (t = 0 \/ t = 1 \/ t = 2 \/ t = 3) as [-> | [-> | [-> | ->]]] by lia;
        eexists; (split; [reflexivity | discriminate]). }
    rewrite Hu. cbn [mbind option_bind].
    eexists _, unit. split; [reflexivity | split; [reflexivity | split; [lia |]]].
    intros _. eexists. split; [reflexivity |].
    replace (e - 10 - 10 * t) with (e - 10 * (1 + t)) by lia.
    assert (Hneg : (n <? 0) = false) by (apply Z.ltb_ge; lia).
    rewrite <- Hneg. apply to_Q_scaled; [exact Hv | lia | lia].
  - cbn [mbind option_bind].
    assert (Z.min 4 (Z.log2 n / 10) = 0) as ->.
    { destruct (Z.le_gt_cases n 0) as [Hn | Hn].
      - rewrite Z.log2_nonpos by assumption. reflexivity.
      - assert (Z.log2 n < 10) by (apply Z.log2_lt_pow2; lia).
        pose proof (Z.log2_nonneg n).
        Z.to_euclidean_division_equations; lia. }
    eexists _, _. split; [reflexivity | split; [reflexivity | split; [auto | lia]]].
Qed.

Lemma format_bytes_unit_witness :
  exists v unit,
    format_bytes 1572864 = Some (v, unit)
    /\ units !! Z.to_nat (Z.min 4 (Z.log2 1572864 / 10)) = Some unit
    /\ (1572864 < 1024 -> v = Int 1572864 /\ unit = "Bytes")
    /\ (1024 <= 1572864 ->
        exists x, v = Float x
          /\ (to_Q x
              == inject_Z 1572864
                 / inject_Z (2 ^ (10 * Z.min 4 (Z.log2 1572864 / 10))))%Q).
Proof.
  apply (format_bytes_unit 1572864). reflexivity.
Defined.

End FormatFacts.

(* ================================================================== *)
(** * The interval of the sampler *)
(* ================================================================== *)

Module ConfigFacts.
Import PyFloat PyText Disk Monitor Views Scenario Cases SamplerMore.

(** ** [apply_interval_from_entry] *)

Lemma load_hourly_data_interval d s :
  update_interval (load_hourly_data d s) = update_interval s.
Proof. unfold load_hourly_data. case_match; reflexivity. Qed.

Lemma daily_rows_loop_interval today rows s :
  update_interval (daily_rows_loop today rows s).1 = update_interval s.
Proof.
  induction rows as [|row rows IH]; cbn; [auto |].
  repeat case_match; cbn; auto.
Qed.

Lemma load_daily_data_interval today d s :
  update_interval (load_daily_data today d s) = update_interval s.
Proof.
  unfold load_daily_data, daily_scan.
  destruct (files d !! data_usage_file) as [c|].
  - pose proof (daily_rows_loop_interval today (dict_reader c) s) as H.
    destruct (daily_rows_loop today (dict_reader c) s) as [s1 []]; cbn in H;
      rewrite ?load_hourly_data_interval; exact H.
  - rewrite load_hourly_data_interval. reflexivity.
Qed.

Lemma apply_interval_in_range value_str s :
  100 <= update_interval s <= 5000 ->
  100 <= update_interval (apply_interval_from_entry value_str s) <= 5000.
Proof.
  intros Hs. unfold apply_interval_from_entry.
  destruct (int_of_str value_str) as [value|]; [| exact Hs].
  destruct (Z.leb_spec 100 value); [| exact Hs].
  destruct (Z.leb_spec value 5000); [| exact Hs].
  cbn. lia.
Qed.

Lemma step_interval_in_range c a :
  100 <= update_interval (cfg_monitor c) <= 5000 ->
  100 <= update_interval (cfg_monitor (step c a)) <= 5000.
Proof.
  intros Hc. destruct a as [os now| |value|value_str]; cbn [step].
  - destruct (cfg_old_stats c) as [old_stats|]; [| exact Hc].
    destruct (running (cfg_monitor c)); [| exact Hc].
    pose proof (measure_step_frame os now old_stats (cfg_disk c) (cfg_monitor c))
      as [Hf _].
    destruct (measure_step os now old_stats (cfg_disk c) (cfg_monitor c)) as [[d1 s1] o].
    cbn in Hf |- *. rewrite Hf. exact Hc.
  - cbn [cfg_monitor]. unfold update_labels.
    destruct (foldl_push_sample_frame (cfg_monitor c) (speed_queue (cfg_monitor c)))
      as (_ & _ & _ & _ & H & _).
    cbn. rewrite H. exact Hc.
  - exact Hc.
  - cbn [cfg_monitor]. apply apply_interval_in_range, Hc.
Qed.

(** X17: whatever is typed into the interval entry, and whatever the
    sampler and the refresh do in between, the interval of the sampler
    stays between 100 and 5000 ms in every run from the start. *)
Theorem interval_stays_in_range today os0 d actions :
  100 <= update_interval (cfg_monitor (run (startup today os0 d) actions)) <= 5000.
Proof.
  unfold run.
  assert (H0 : 100 <= update_interval (cfg_monitor (startup today os0 d)) <= 5000).
  { unfold startup. cbn [cfg_monitor]. rewrite load_daily_data_interval. cbn. lia. }
  revert H0. generalize (startup today os0 d).
  induction actions as [|a actions IH]; intros c Hc; [exact Hc |].
  cbn [foldl]. apply IH, step_interval_in_range, Hc.
Qed.

End ConfigFacts.

(* ================================================================== *)
(** * The graph of the hours *)
(* ================================================================== *)

Module GraphFacts.
Import PyFloat PyText Disk Monitor Views Scenario Cases FloatFacts TextFacts PersistenceMore ViewsFacts.

(** ** [plot_hourly_usage] *)

Lemma lookup_hours hour :
  0 <= hour < 24 -> hours !! Z.to_nat hour = Some hour.
Proof.
  intros Hh. unfold hours. apply lookup_seqZ. lia.
Qed.

Lemma mapM_hours (f : Z -> option float) (P : Z -> float -> Prop) :
  (forall hour, 0 <= hour < 24 -> exists x, f hour = Some x /\ P hour x) ->
  exists l, mapM f hours = Some l
    /\ forall hour, 0 <= hour < 24 ->
         exists x, l !! Z.to_nat hour = Some x /\ P hour x.
Proof.
  intros Hf. destruct (mapM f hours) as [l|] eqn:E.
  - exists l. split; [reflexivity |]. intros hour Hh.
    apply mapM_Some in E.
    destruct (Forall2_lookup_l _ _ _ _ _ E (lookup_hours hour Hh)) as (y & Hy & Hfy).
    destruct (Hf hour Hh) as (x & Hx & HP).
    exists y. split; [exact Hy |]. congruence.
  - assert (is_Some (mapM f hours)) as [l Hl]; [| congruence].
    apply mapM_is_Some. apply Forall_forall. intros hour Hin.
    apply elem_of_hours in Hin. destruct (Hf hour Hin) as (x & Hx & _).
    cbn. rewrite Hx. eauto.
Qed.

Lemma foldl_hourly_touch_is_Some (l : list Z) :
  forall (h : gmap Z hour_entry) hour,
  hour ∈ l \/ is_Some (h !! hour) -> is_Some (foldl hourly_touch h l !! hour).
Proof.
  induction l as [|k l IH]; intros h hour H.
  - destruct H as [H | H]; [inversion H | exact H].
  - cbn [foldl]. apply IH. unfold hourly_touch.
    destruct (decide (hour = k)) as [-> | Hne].
    + right. rewrite lookup_insert_eq. eauto.
    + destruct H as [H | H].
      * apply elem_of_cons in H as [? | H]; [contradiction | left; exact H].
      * right. rewrite lookup_insert_ne by congruence. exact H.
Qed.

(** X18: with hourly readings below [2^53], [plot_hourly_usage] draws,
    for each hour from 0 to 23, the two readings of the hour over
    [2^20], exactly, under the label of the hour; afterwards each of the
    24 hours is in the table, and no reading has changed. *)
Theorem hourly_graph_values s :
  (forall hour, 0 <= hour < 24 ->
     Z.abs (download (hourly_get (hourly_data s) hour)) < 2 ^ 53
     /\ Z.abs (upload (hourly_get (hourly_data s) hour)) < 2 ^ 53) ->
  exists s' g,
    plot_hourly_usage s = Some (s', g)
    /\ (forall hour, 0 <= hour < 24 ->
          exists x y,
            hgraph_download_usage g !! Z.to_nat hour = Some x
            /\ hgraph_upload_usage g !! Z.to_nat hour = Some y
            /\ hgraph_labels g !! Z.to_nat hour = Some (pad2 hour +:+ ":00")
            /\ (to_Q x == download (hourly_get (hourly_data s) hour) # 1048576)%Q
            /\ (to_Q y == upload (hourly_get (hourly_data s) hour) # 1048576)%Q)
    /\ (forall hour, 0 <= hour < 24 -> is_Some (hourly_data s' !! hour))
    /\ (forall hour,
          hourly_get (hourly_data s') hour = hourly_get (hourly_data s) hour).
Proof.
  intros Hb. unfold plot_hourly_usage.
  destruct (mapM_hours
              (λ hour, int_truediv (download (hourly_get (hourly_data s) hour)) mib)
              (λ hour x,
                 (to_Q x == download (hourly_get (hourly_data s) hour) # 1048576)%Q))
    as (dl & -> & Hdl).
  { intros hour Hh. destruct (int_truediv_mib _ (proj1 (Hb hour Hh))) as (x & Hx & Hq & _).
    eauto. }
  destruct (mapM_hours
              (λ hour, int_truediv (upload (hourly_get (hourly_data s) hour)) mib)
              (λ hour x,
                 (to_Q x == upload (hourly_get (hourly_data s) hour) # 1048576)%Q))
    as (ul & -> & Hul).
  { intros hour Hh. destruct (int_truediv_mib _ (proj2 (Hb hour Hh))) as (x & Hx & Hq & _).
    eauto. }
  cbn [mbind option_bind]. eexists _, _. split; [reflexivity |].
  split; [| split].
  - intros hour Hh. destruct (Hdl hour Hh) as (x & Hx & Hqx).
    destruct (Hul hour Hh) as (y & Hy & Hqy).
    exists x, y. cbn [hgraph_download_usage hgraph_upload_usage hgraph_labels].
    rewrite list_lookup_fmap, (lookup_hours hour Hh). auto.
  - intros hour Hh. cbn. apply foldl_hourly_touch_is_Some. left.
    apply elem_of_hours, Hh.
  - intros hour. cbn. apply foldl_hourly_touch_get.
Qed.

Lemma hourly_graph_values_witness :
  exists s' g,
    plot_hourly_usage (cfg_monitor evening) = Some (s', g)
    /\ (forall hour, 0 <= hour < 24 ->
          exists x y,
            hgraph_download_usage g !! Z.to_nat hour = Some x
            /\ hgraph_upload_usage g !! Z.to_nat hour = Some y
            /\ hgraph_labels g !! Z.to_nat hour = Some (pad2 hour +:+ ":00")
            /\ (to_Q x
                == download (hourly_get (hourly_data (cfg_monitor evening)) hour)
                   # 1048576)%Q
            /\ (to_Q y
                == upload (hourly_get (hourly_data (cfg_monitor evening)) hour)
                   # 1048576)%Q)
    /\ (forall hour, 0 <= hour < 24 -> is_Some (hourly_data s' !! hour))
    /\ (forall hour,
          hourly_get (hourly_data s') hour
          = hourly_get (hourly_data (cfg_monitor evening)) hour).
Proof.
  apply (hourly_graph_values (cfg_monitor evening)).
  intros hour Hh. apply elem_of_hours in Hh. revert hour Hh. apply Forall_forall.
  repeat constructor.
Defined.

End GraphFacts.

(* ================================================================== *)
(** * The turns of one day *)
(* ================================================================== *)

Module DayFacts.
Import PyFloat PyText Disk Monitor Views Scenario Cases FloatFacts Sampler.

(** ** The turns of one day *)

(** X19: at the interval of 1000 ms, the turns of one day, with
    counters between [0] and [2^53], add to each daily total the last
    reading of the counter minus the reading before the first turn, put
    one sample on the queue each, and write no file: what the day has
    counted is in memory only. *)
Theorem day_of_turns turns : forall old_stats d s,
  update_interval s = 1000 -> running s = true ->
  0 <= bytes_recv old_stats < 2 ^ 53 -> 0 <= bytes_sent old_stats < 2 ^ 53 ->
  Forall (calm_turn s) turns ->
  let new_stats :=
    default old_stats
      (last ((λ turn : os_counters * datetime, read_stats turn.1 (selected_adapter s))
               <$> turns)) in
  let r := measure_loop turns old_stats d s in
  r.1 = d
  /\ daily_download_bytes r.2
     = daily_download_bytes s + (bytes_recv new_stats - bytes_recv old_stats)
  /\ daily_upload_bytes r.2
     = daily_upload_bytes s + (bytes_sent new_stats - bytes_sent old_stats)
  /\ length (speed_queue r.2) = (length (speed_queue s) + length turns)%nat.
Proof.
  induction turns as [|[os now] turns IH]; intros old_stats d s Hi Hrun Hr Hs Hall.
  - cbn. repeat split; lia.
  - apply Forall_cons in Hall as [(Hday & Hr' & Hs') Hall]. cbn [fst snd] in *.
    cbn zeta. cbn [measure_loop]. rewrite Hrun.
    destruct (measure_step_default os now old_stats d s Hi) as (down & up & _ & _ & ->);
      [lia | lia |].
    cbn zeta. rewrite Hday, rollover_same_day. cbn [fst snd].
    set (new_stats := read_stats os (selected_adapter s)) in *.
    set (s2 := set_speed_queue _ _).
    destruct (IH new_stats d s2) as (Hd & Hdl & Hul & Hq); try assumption; try reflexivity.
    cbn zeta in Hd, Hdl, Hul, Hq.
    change (selected_adapter s2) with (selected_adapter s) in Hdl, Hul.
    rewrite fmap_cons, last_cons. cbn [fst].
    fold new_stats.
    set (l := last _) in *.
    split; [exact Hd |]. rewrite Hdl, Hul, Hq.
    change (daily_download_bytes s2)
      with (daily_download_bytes s + (bytes_recv new_stats - bytes_recv old_stats)).
    change (daily_upload_bytes s2)
      with (daily_upload_bytes s + (bytes_sent new_stats - bytes_sent old_stats)).
    assert (Hlen : length (speed_queue s2) = S (length (speed_queue s))).
    { unfold s2. cbn. rewrite length_app. cbn. lia. }
    rewrite Hlen. destruct l as [st|]; cbn [default from_option id length];
      repeat split; lia.
Qed.

Lemma day_of_turns_witness :
  afternoon_end.1 = empty_disk
  /\ daily_download_bytes afternoon_end.2 = 0 + (4096 - 0)
  /\ daily_upload_bytes afternoon_end.2 = 0 + (2048 - 0)
  /\ length (speed_queue afternoon_end.2) = (0 + 2)%nat.
Proof.
  apply (day_of_turns afternoon (mkStats 0 0) empty_disk (setup_variables day1));
    [reflexivity | reflexivity | vm_compute; intuition congruence
    | vm_compute; intuition congruence |].
  repeat (constructor; [vm_compute; intuition congruence |]). constructor.
Defined.

End DayFacts.
